(** * ocpack: the ISO asset pipeline, the operator catalog cache and the
      operator name resolver

    A shallow embedding of
      - [pkg/iso/generator.go]       (module [Iso]),
      - [pkg/catalognew] (the cache) (module [CatalogNew]),
      - [pkg/save] (the resolver)    (module [Save]),
    over a small model of the Go runtime services they use: byte strings,
    the [strings] package, errors, and a file system that records every
    state it went through, so that what a reader could observe at any
    interruption point can be stated. *)

From Stdlib Require Import ZArith String Ascii List Lia Bool DecimalString.
From stdpp Require Import base option gmap strings list sorting.

Set Warnings "-register-all".
Local Open Scope string_scope.
Local Open Scope list_scope.
Local Open Scope Z_scope.

(* ===================================================================== *)
(** ** Go's [strings] package, on byte strings *)
(* ===================================================================== *)

Module GoStrings.

(** [strings.HasPrefix(s, prefix)] *)
Definition HasPrefix (s prefix : string) : bool := String.prefix prefix s.

(** [strings.TrimPrefix(s, prefix)] *)
Definition TrimPrefix (s prefix : string) : string :=
  if HasPrefix s prefix
  then String.substring (String.length prefix)
                        (String.length s - String.length prefix)%nat s
  else s.

(** [strings.Contains(s, substr)]: [substr] occurs at some offset. *)
Fixpoint Contains (s substr : string) : bool :=
  String.prefix substr s ||
  match s with
  | EmptyString => false
  | String _ rest => Contains rest substr
  end.

(** [strings.Join(elems, sep)] *)
Definition Join (elems : list string) (sep : string) : string :=
  String.concat sep elems.

(** [strings.ReplaceAll(s, old, new)] for a one-byte [old]. *)
Fixpoint ReplaceAllByte (s : string) (old : ascii) (new : string) : string :=
  match s with
  | EmptyString => EmptyString
  | String c rest =>
      if Ascii.eqb c old then new +:+ ReplaceAllByte rest old new
      else String c (ReplaceAllByte rest old new)
  end.

(** [strings.ToLower] on ASCII text: the letters [A] to [Z] are lowered.
    Bytes from 0x80 on are left as they are, which is not what
    [strings.ToLower] does to non-ASCII letters; statements that depend on
    the lowering are about ASCII text. *)
Definition lowerByte (c : ascii) : ascii :=
  let n := nat_of_ascii c in
  if ((65 <=? n) && (n <=? 90))%nat then ascii_of_nat (n + 32) else c.

Fixpoint ToLower (s : string) : string :=
  match s with
  | EmptyString => EmptyString
  | String c rest => String (lowerByte c) (ToLower rest)
  end.

(** White space as [unicode.IsSpace] has it, by UTF-8 encoding:
    one byte for ['\t' '\n' '\v' '\f' '\r' ' '], two bytes for U+0085 and
    U+00A0, three for U+1680, U+2000..U+200A, U+2028, U+2029, U+202F,
    U+205F and U+3000. *)
Definition space1 (c : N) : bool :=
  (((9 <=? c) && (c <=? 13)) || (c =? 32))%N.

Definition space2 (c1 c2 : N) : bool :=
  ((c1 =? 194) && ((c2 =? 133) || (c2 =? 160)))%N.

Definition space3 (c1 c2 c3 : N) : bool :=
  (((c1 =? 225) && (c2 =? 154) && (c3 =? 128))
   || ((c1 =? 226) && (c2 =? 128)
       && (((128 <=? c3) && (c3 <=? 138)) || (c3 =? 168) || (c3 =? 169)
           || (c3 =? 175)))
   || ((c1 =? 226) && (c2 =? 129) && (c3 =? 159))
   || ((c1 =? 227) && (c2 =? 128) && (c3 =? 128)))%N.

(** [strings.TrimLeftFunc(s, unicode.IsSpace)] on the bytes. *)
Fixpoint trimLeft (bs : list N) : list N :=
  match bs with
  | [] => []
  | c1 :: r1 =>
      if space1 c1 then trimLeft r1
      else match r1 with
           | [] => bs
           | c2 :: r2 =>
               if space2 c1 c2 then trimLeft r2
               else match r2 with
                    | [] => bs
                    | c3 :: r3 =>
                        if space3 c1 c2 c3 then trimLeft r3 else bs
                    end
           end
  end.

(** [strings.TrimRightFunc(s, unicode.IsSpace)], on the reversed bytes:
    the last rune is decoded from the end of the string. *)
Fixpoint trimRightRev (bs : list N) : list N :=
  match bs with
  | [] => []
  | c1 :: r1 =>
      if space1 c1 then trimRightRev r1
      else match r1 with
           | [] => bs
           | c2 :: r2 =>
               if space2 c2 c1 then trimRightRev r2
               else match r2 with
                    | [] => bs
                    | c3 :: r3 =>
                        if space3 c3 c2 c1 then trimRightRev r3 else bs
                    end
           end
  end.

Definition bytesOf (s : string) : list N :=
  List.map N_of_ascii (list_ascii_of_string s).

Definition ofBytes (bs : list N) : string :=
  string_of_list_ascii (List.map ascii_of_N bs).

(** [strings.TrimSpace(s)]: leading white space goes first, then the
    trailing white space of what is left. *)
Definition TrimSpace (s : string) : string :=
  ofBytes (rev (trimRightRev (rev (trimLeft (bytesOf s))))).

(** [strings.HasSuffix(s, suffix)] and [strings.TrimSuffix(s, suffix)] *)
Definition HasSuffix (s suffix : string) : bool :=
  (String.length suffix <=? String.length s)%nat
  && String.eqb
       (String.substring (String.length s - String.length suffix)
                         (String.length suffix) s)
       suffix.

Definition TrimSuffix (s suffix : string) : string :=
  if HasSuffix s suffix
  then String.substring 0 (String.length s - String.length suffix) s
  else s.

(** [strings.Split(s, sep)] for a one-byte [sep]: never empty. *)
Fixpoint SplitByte (s : string) (sep : ascii) : list string :=
  match s with
  | EmptyString => [EmptyString]
  | String c rest =>
      let parts := SplitByte rest sep in
      if Ascii.eqb c sep then EmptyString :: parts
      else match parts with
           | p :: ps => String c p :: ps
           | [] => [String c EmptyString]
           end
  end.

(** [strings.Repeat(s, count)] *)
Fixpoint Repeat (s : string) (count : nat) : string :=
  match count with
  | O => EmptyString
  | S n => s +:+ Repeat s n
  end.

(** [strconv]-style decimal rendering of an integer ([%d]). *)
Definition itoa (z : Z) : string :=
  NilZero.string_of_int (Z.to_int z).

End GoStrings.

(* ===================================================================== *)
(** ** [encoding/base64], the standard alphabet with padding *)
(* ===================================================================== *)

Module Base64.

Definition alphabet : string :=
  "ABCDEFGHIJKLMNOPQRSTUVWXYZabcdefghijklmnopqrstuvwxyz0123456789+/".

Definition digit (n : Z) : ascii :=
  match String.get (Z.to_nat n) alphabet with
  | Some c => c
  | None => "="%char
  end.

Definition byteZ (c : ascii) : Z := Z.of_N (N_of_ascii c).

(** [StdEncoding.EncodeToString]: three bytes give four digits; a last
    group of one or two bytes is padded with ['=']. *)
Fixpoint encodeBytes (bs : list ascii) : string :=
  match bs with
  | [] => EmptyString
  | [a] =>
      let v := Z.shiftl (byteZ a) 16 in
      String (digit (Z.land (Z.shiftr v 18) 63))
        (String (digit (Z.land (Z.shiftr v 12) 63)) "==")
  | [a; b] =>
      let v := Z.lor (Z.shiftl (byteZ a) 16) (Z.shiftl (byteZ b) 8) in
      String (digit (Z.land (Z.shiftr v 18) 63))
        (String (digit (Z.land (Z.shiftr v 12) 63))
           (String (digit (Z.land (Z.shiftr v 6) 63)) "="))
  | a :: b :: c :: rest =>
      let v := Z.lor (Z.lor (Z.shiftl (byteZ a) 16) (Z.shiftl (byteZ b) 8))
                     (byteZ c) in
      String (digit (Z.land (Z.shiftr v 18) 63))
        (String (digit (Z.land (Z.shiftr v 12) 63))
           (String (digit (Z.land (Z.shiftr v 6) 63))
              (String (digit (Z.land v 63)) (encodeBytes rest))))
  end.

Definition EncodeToString (s : string) : string :=
  encodeBytes (list_ascii_of_string s).

End Base64.

(* ===================================================================== *)
(** ** The Go runtime as the code uses it: errors, panics, files *)
(* ===================================================================== *)

Module Go.

Inductive errno := ENOENT | EISDIR | ENOTDIR.

(** Go error values: an [*fs.PathError] of the [os] package, an
    [errors.New(msg)], or a [fmt.Errorf("msg: %w", cause)]. *)
Inductive error : Type :=
| PathError (op path : string) (code : errno)
| ErrorsNew (msg : string)
| Errorf (msg : string) (cause : error).

(** [os.IsNotExist(err)] (it does not look through wrapping). *)
Definition IsNotExist (e : error) : bool :=
  match e with
  | PathError _ _ ENOENT => true
  | _ => false
  end.

(** What a call comes back with: a value, a non-nil [error], or a
    run-time panic that unwinds the stack. *)
Inductive outcome (A : Type) : Type :=
| Ok (a : A)
| Err (e : error)
| Panic (msg : string).
Arguments Ok {A} a.
Arguments Err {A} e.
Arguments Panic {A} msg.

(** Files carry their bytes and their last-write time (nanoseconds);
    the file system maps a path to what is there. The map is flat:
    [Create], [WriteFile] and [MkdirAll] act on the path they are given
    and do not look at the directories above it, and a write to an open
    file does not fail: the model is of runs in which the directory
    written into is there and the disk takes every write. [Stat] does
    look above the path, to tell a path that is not there from one that
    cannot be walked. [filepath.Clean] is not applied: paths are compared
    as the strings the code builds. *)
Inductive node :=
| File (content : string) (mtime : Z)
| Dir (mtime : Z).

Abbreviation FS := (gmap string node).

(** Calls that leave the process. *)
Inductive call :=
| CallCollect (catalogImage : string)
| CallInstaller (binary dir : string)
| CallTool (name src dst : string)
| CallSetenv (key value : string).

(** [fs] is the current file system, [now] the wall clock, [seen] every
    file-system state that became visible since the start (latest first:
    a process killed at any point leaves one of them behind), [calls] the
    calls made to collaborators (latest first). *)
Record World := mkWorld {
  fs : FS;
  now : Z;
  seen : list FS;
  calls : list call
}.

Definition M (A : Type) : Type := World -> outcome A * World.

Definition ret {A} (a : A) : M A := fun w => (Ok a, w).
Definition fail {A} (e : error) : M A := fun w => (Err e, w).
Definition panic {A} (msg : string) : M A := fun w => (Panic msg, w).

Definition bind {A B} (m : M A) (k : A -> M B) : M B :=
  fun w =>
    match m w with
    | (Ok a, w1) => k a w1
    | (Err e, w1) => (Err e, w1)
    | (Panic p, w1) => (Panic p, w1)
    end.

(** [r, err := f(); if err != nil { ... }]: both cases in the caller's
    hands (a panic still unwinds). *)
Definition try {A B} (m : M A) (k : A + error -> M B) : M B :=
  fun w =>
    match m w with
    | (Ok a, w1) => k (inl a) w1
    | (Err e, w1) => k (inr e) w1
    | (Panic p, w1) => (Panic p, w1)
    end.

(** [defer cleanup]: runs when the function leaves, whatever it leaves
    with; what the deferred call returns is dropped. *)
Definition defer {A} (cleanup : M unit) (body : M A) : M A :=
  fun w =>
    let (r, w1) := body w in
    let (_, w2) := cleanup w1 in
    (r, w2).

(** [fmt.Errorf(msg ++ ": %w", err)] on the error branch. *)
Definition wrap {A} (msg : string) (m : M A) : M A :=
  fun w =>
    match m w with
    | (Err e, w1) => (Err (Errorf msg e), w1)
    | other => other
    end.

Definition lift {A} (r : outcome A) : M A := fun w => (r, w).

(** One mutation of the file system: the new state is visible at once. *)
Definition commit (f : FS -> FS) : World -> World :=
  fun w =>
    let fs' := f (fs w) in
    {| fs := fs'; now := now w; seen := fs' :: seen w; calls := calls w |}.

(** A collaborator that works on the file system: logged, then run. *)
Definition invoke {A} (c : call) (ext : FS -> outcome A * FS) : M A :=
  fun w =>
    let (r, fs') := ext (fs w) in
    (r, {| fs := fs'; now := now w; seen := fs' :: seen w;
           calls := c :: calls w |}).

Definition record (c : call) : M unit :=
  fun w => (Ok tt, {| fs := fs w; now := now w; seen := seen w;
                      calls := c :: calls w |}).

(** [time.Now()] *)
Definition Now : M Z := fun w => (Ok (now w), w).

Record FileInfo := { IsDir : bool; ModTime : Z }.

Definition infoOf (n : node) : FileInfo :=
  match n with
  | File _ t => {| IsDir := false; ModTime := t |}
  | Dir t => {| IsDir := true; ModTime := t |}
  end.

(** The paths above [acc ++ rest]: what stands before each separator of
    [rest]. *)
Fixpoint dirsAbove (acc rest : string) : list string :=
  match rest with
  | EmptyString => []
  | String c r =>
      (if Ascii.eqb c "/" then [acc] else [])
      ++ dirsAbove (acc +:+ String c EmptyString) r
  end.

Definition isFile (n : option node) : bool :=
  match n with
  | Some (File _ _) => true
  | _ => false
  end.

(** A regular file stands where one of the directories of [path] should
    be: the path cannot be walked. *)
Definition blocked (m : FS) (path : string) : bool :=
  existsb (fun dir => isFile (m !! dir)) (dirsAbove EmptyString path).

(** [os.Stat(path)]: a path that is not there gives [ENOENT], unless the
    walk to it is stopped by a regular file, which gives [ENOTDIR]
    ([os.IsNotExist] is false of that one). *)
Definition Stat (path : string) : M FileInfo :=
  fun w =>
    match fs w !! path with
    | Some n => (Ok (infoOf n), w)
    | None =>
        (Err (PathError "stat" path
                (if blocked (fs w) path then ENOTDIR else ENOENT)), w)
    end.

(** [os.ReadFile(path)] *)
Definition ReadFile (path : string) : M string :=
  fun w =>
    match fs w !! path with
    | Some (File c _) => (Ok c, w)
    | Some (Dir _) => (Err (PathError "read" path EISDIR), w)
    | None => (Err (PathError "open" path ENOENT), w)
    end.

(** [os.Create(path)]: the file is created, or truncated if it is there. *)
Definition Create (path : string) : M string :=
  fun w =>
    match fs w !! path with
    | Some (Dir _) => (Err (PathError "open" path EISDIR), w)
    | _ => (Ok path, commit (insert path (File "" (now w))) w)
    end.

(** [file.Write(data)] on a file opened by [Create]: appended. *)
Definition Write (path data : string) : M unit :=
  fun w =>
    match fs w !! path with
    | Some (File c _) =>
        (Ok tt, commit (insert path (File (c +:+ data) (now w))) w)
    | Some (Dir _) => (Err (PathError "write" path EISDIR), w)
    | None => (Err (PathError "write" path ENOENT), w)
    end.

(** Several [Write] calls in a row; the first failure stops them. *)
Fixpoint WriteAll (path : string) (chunks : list string) : M unit :=
  match chunks with
  | [] => ret tt
  | c :: rest => bind (Write path c) (fun _ => WriteAll path rest)
  end.

(** [os.WriteFile(path, data, perm)]: open with [O_CREATE|O_TRUNC], write,
    close. *)
Definition WriteFile (path data : string) : M unit :=
  bind (Create path) (fun f => Write f data).

(** [os.Rename(old, new)] of a regular file: it replaces [new] in one
    step and keeps its last-write time. Renaming a directory is outside
    what the code does. *)
Definition Rename (old new : string) : M unit :=
  fun w =>
    match fs w !! old with
    | Some (File c t) =>
        match fs w !! new with
        | Some (Dir _) => (Err (PathError "rename" new EISDIR), w)
        | _ => (Ok tt, commit (fun m => <[new := File c t]> (delete old m)) w)
        end
    | Some (Dir _) => (Err (PathError "rename" old EISDIR), w)
    | None => (Err (PathError "rename" old ENOENT), w)
    end.

(** [os.Remove(path)] *)
Definition Remove (path : string) : M unit :=
  fun w =>
    match fs w !! path with
    | Some _ => (Ok tt, commit (delete path) w)
    | None => (Err (PathError "remove" path ENOENT), w)
    end.

Definition under (dir path : string) : bool :=
  String.eqb path dir || GoStrings.HasPrefix path (dir +:+ "/").

(** [os.RemoveAll(path)]: the path and everything below it; a missing
    path is not an error. *)
Definition RemoveAll (path : string) : M unit :=
  fun w =>
    (Ok tt,
     commit (fun m => filter (fun kv => under path (fst kv) = false) m) w).

(** [os.MkdirAll(path, perm)] *)
Definition MkdirAll (path : string) : M unit :=
  fun w =>
    match fs w !! path with
    | Some (Dir _) => (Ok tt, w)
    | Some (File _ _) => (Err (PathError "mkdir" path ENOTDIR), w)
    | None => (Ok tt, commit (insert path (Dir (now w))) w)
    end.

Record DirEntry := { EntryName : string; EntryIsDir : bool }.

Definition entryLe (a b : DirEntry) : Prop :=
  String.leb (EntryName a) (EntryName b) = true.

#[export] Instance entryLe_dec a b : Decision (entryLe a b).
Proof. unfold entryLe. apply _. Defined.

(** The direct children of [dir]. *)
Definition childOf (dir : string) (kv : string * node) : option DirEntry :=
  let pfx := dir +:+ "/" in
  if GoStrings.HasPrefix (fst kv) pfx then
    let name := GoStrings.TrimPrefix (fst kv) pfx in
    if String.eqb name "" || GoStrings.Contains name "/" then None
    else Some {| EntryName := name; EntryIsDir := IsDir (infoOf (snd kv)) |}
  else None.

(** [os.ReadDir(dir)]: the entries of a directory, sorted by file name. *)
Definition ReadDir (dir : string) : M (list DirEntry) :=
  fun w =>
    match fs w !! dir with
    | Some (Dir _) =>
        (Ok (merge_sort entryLe (omap (childOf dir) (map_to_list (fs w)))), w)
    | Some (File _ _) => (Err (PathError "open" dir ENOTDIR), w)
    | None => (Err (PathError "open" dir ENOENT), w)
    end.

(** [filepath.Join(elem...)]: the non-empty elements with a separator
    between them. *)
Definition JoinPath (elems : list string) : string :=
  GoStrings.Join (List.filter (fun e => negb (String.eqb e "")) elems) "/".

(** What is before and after the last separator of a path. *)
Fixpoint splitLast (path : string) : option (string * string) :=
  match path with
  | EmptyString => None
  | String c rest =>
      match splitLast rest with
      | Some (d, b) => Some (String c d, b)
      | None => if Ascii.eqb c "/" then Some (EmptyString, rest) else None
      end
  end.

(** [filepath.Dir(path)] and [filepath.Base(path)] *)
Definition DirOf (path : string) : string :=
  match splitLast path with
  | None => "."
  | Some (EmptyString, _) => "/"
  | Some (d, _) => d
  end.

Definition Base (path : string) : string :=
  match splitLast path with
  | None => if String.eqb path "" then "." else path
  | Some (_, b) => b
  end.

(** [time.Time.Sub] saturates at the ends of [time.Duration] (int64
    nanoseconds); [time.Since(t)] is [time.Now().Sub(t)]. *)
Definition maxDuration : Z := 2 ^ 63 - 1.
Definition minDuration : Z := - 2 ^ 63.
Definition Sub (t u : Z) : Z := Z.max minDuration (Z.min maxDuration (t - u)).
Definition Since (t : Z) : M Z := fun w => (Ok (Sub (now w) t), w).

Definition Nanosecond : Z := 1.
Definition Second : Z := 1000000000 * Nanosecond.
Definition Minute : Z := 60 * Second.
Definition Hour : Z := 60 * Minute.

End Go.

Notation "'let*' x ':=' m 'in' k" := (Go.bind m (fun x => k))
  (at level 10, x name, m at level 100, k at level 200).
Notation "'run' m 'in' k" := (Go.bind m (fun _ => k))
  (at level 10, m at level 100, k at level 200).

(* ===================================================================== *)
(** ** [pkg/config]: the cluster configuration *)
(* ===================================================================== *)

Module Config.

(** The fields of [config.ClusterConfig] that the code reads, one per
    selector path ([g.Config.ClusterInfo.Name] is [ClusterInfo_Name]);
    the declaration itself lives in [pkg/config]. *)
Record Node := { Name : string; IP : string; MAC : string }.

Record ClusterConfig := {
  ClusterInfo_Name : string;
  ClusterInfo_Domain : string;
  ClusterInfo_OpenShiftVersion : string;
  Bastion_IP : string;
  Registry_IP : string;
  Registry_RegistryUser : string;
  Cluster_ControlPlane : list Node;
  Cluster_Worker : list Node;
  Cluster_Network_MachineNetwork : string;
  Download_LocalPath : string;
  SaveImage_IncludeOperators : bool;
  SaveImage_OperatorCatalog : string;
  SaveImage_Ops : list string;
  SaveImage_AdditionalImages : list string
}.

End Config.

(* ===================================================================== *)
(** ** [pkg/catalognew]: the operator catalog cache *)
(* ===================================================================== *)

Module CatalogNew.
Import Go.

Record OperatorInfo := {
  Name : string;
  DisplayName : string;
  DefaultChannel : string;
  Version : string;
  Description : string
}.

(** What the code reads of [v2alpha1.CollectorSchema] (declared in
    [pkg/mirror]). [CatalogToFBCMap] is a Go map: it is given here as its
    entries in the order the [range] loop meets them. *)
Inductive ImageType := TypeOperatorBundle | TypeOperatorCatalog | TypeOther.

Record CopyImageSchema := { Origin : string; Type_ : ImageType }.

Record Package := {
  PkgName : string;
  PkgDefaultChannel : string;
  PkgDescription : string
}.

Record CatalogResult := { DeclConfig : option (list Package) }.

Record CollectorSchema := {
  AllImages : list CopyImageSchema;
  CatalogToFBCMap : list (string * CatalogResult)
}.

(** The collaborators: the catalog query engine of [pkg/mirror] and the
    JSON codec for [[]OperatorInfo]. [json_Encode] is the text that
    [Encoder.Encode] hands to the file in one write. *)
Class Env := {
  OperatorImageCollector :
    string -> string -> Z -> FS -> outcome CollectorSchema * FS;
  json_Encode : list OperatorInfo -> outcome string;
  json_Decode : string -> outcome (list OperatorInfo)
}.

Record CatalogManagerNew := {
  CatalogImage : string;
  CacheDir : string;
  WorkingDir : string;
  LockFile : string;
  CacheFile : string;
  DownloadTimeout : Z;
  AuthFile : string
}.

Definition NewCatalogManagerNew (catalogImage cacheDir workingDir : string)
  : CatalogManagerNew :=
  let safeName :=
    GoStrings.ReplaceAllByte
      (GoStrings.ReplaceAllByte catalogImage "/" "_") ":" "_" in
  {| CatalogImage := catalogImage;
     CacheDir := cacheDir;
     WorkingDir := workingDir;
     LockFile := JoinPath [cacheDir; "." +:+ safeName +:+ ".lock"];
     CacheFile := JoinPath [cacheDir; safeName +:+ "_new.json"];
     DownloadTimeout := 10 * Minute;
     AuthFile := "" |}.

Definition headOr (d : string) (l : list string) : string :=
  match l with
  | x :: _ => x
  | [] => d
  end.

(** [extractOperatorNameFromBundle] *)
Definition extractOperatorNameFromBundle (bundleImage : string) : string :=
  let ref := GoStrings.TrimPrefix bundleImage "docker://" in
  let ref := GoStrings.TrimPrefix ref "oci://" in
  let parts := GoStrings.SplitByte ref "/" in
  if (2 <=? length parts)%nat then
    let bundlePart := List.last parts "" in
    let bundlePart := headOr "" (GoStrings.SplitByte bundlePart ":") in
    let bundlePart := headOr "" (GoStrings.SplitByte bundlePart "@") in
    if GoStrings.HasSuffix bundlePart "-bundle"
    then GoStrings.TrimSuffix bundlePart "-bundle"
    else bundlePart
  else "".

(** [extractCatalogName] *)
Definition extractCatalogName (catalogRef : string) : string :=
  let ref := GoStrings.TrimPrefix catalogRef "docker://" in
  let ref := GoStrings.TrimPrefix ref "oci://" in
  let parts := GoStrings.SplitByte ref "/" in
  if (0 <? length parts)%nat then
    let name := List.last parts "" in
    let name := headOr "" (GoStrings.SplitByte name ":") in
    headOr "" (GoStrings.SplitByte name "@")
  else "unknown".

Definition fromPackage (pkg : Package) : OperatorInfo :=
  {| Name := PkgName pkg;
     DisplayName := PkgName pkg;
     DefaultChannel := PkgDefaultChannel pkg;
     Version := "";
     Description := PkgDescription pkg |}.

Definition fromImage (operatorMap : gmap string OperatorInfo)
    (image : CopyImageSchema) : gmap string OperatorInfo :=
  match Type_ image with
  | TypeOperatorBundle =>
      let operatorName := extractOperatorNameFromBundle (Origin image) in
      if negb (String.eqb operatorName "") then
        <[operatorName :=
            {| Name := operatorName;
               DisplayName := operatorName;
               DefaultChannel := "stable";
               Version := "";
               Description := "Operator bundle: " +:+ Origin image |}]>
          operatorMap
      else operatorMap
  | TypeOperatorCatalog =>
      let catalogName := extractCatalogName (Origin image) in
      <[catalogName +:+ "-catalog" :=
          {| Name := catalogName +:+ "-catalog";
             DisplayName := catalogName +:+ " Catalog";
             DefaultChannel := "stable";
             Version := "";
             Description := "Catalog image: " +:+ Origin image |}]>
        operatorMap
  | TypeOther => operatorMap
  end.

(** [convertToOperatorInfo]: each tier is tried only when the one before
    gave nothing. The second tier ranges over a Go map; its entries come
    in the order [map_to_list] gives. *)
Definition convertToOperatorInfo (cm : CatalogManagerNew)
    (schema : CollectorSchema) : list OperatorInfo :=
  let operators :=
    flat_map
      (fun entry =>
         match DeclConfig (snd entry) with
         | Some packages => List.map fromPackage packages
         | None => []
         end)
      (CatalogToFBCMap schema) in
  let operators :=
    if (length operators =? 0)%nat then
      List.map snd (map_to_list (fold_left fromImage (AllImages schema) ∅))
    else operators in
  if (length operators =? 0)%nat then
    let catalogName := extractCatalogName (CatalogImage cm) in
    operators ++
      [ {| Name := catalogName +:+ "-catalog";
           DisplayName := catalogName +:+ " Catalog";
           DefaultChannel := "stable";
           Version := "";
           Description := "Catalog image: " +:+ CatalogImage cm |} ]
  else operators.

Section WithEnv.
Context {env : Env}.

(** [downloadCatalogUsingMirror]: a scratch directory named after the
    clock, the collector run against it, the scratch directory removed
    on the way out. *)
Definition downloadCatalogUsingMirror (cm : CatalogManagerNew)
  : M (list OperatorInfo) :=
  let* t := Now in
  let tempWorkingDir :=
    JoinPath [WorkingDir cm; "temp-catalog"; GoStrings.itoa (t / Second)] in
  run wrap "创建临时工作目录失败" (MkdirAll tempWorkingDir) in
  defer (RemoveAll tempWorkingDir)
    (run (if negb (String.eqb (AuthFile cm) "")
          then record (CallSetenv "REGISTRY_AUTH_FILE" (AuthFile cm))
          else ret tt) in
     let* collectorSchema :=
       wrap "收集 operator 信息失败"
         (invoke (CallCollect (CatalogImage cm))
            (OperatorImageCollector (CatalogImage cm) tempWorkingDir
               (DownloadTimeout cm))) in
     ret (convertToOperatorInfo cm collectorSchema)).

(** [isCacheValid]: the cache file can be stat-ed and was written less
    than 24 hours ago. *)
Definition isCacheValid (cm : CatalogManagerNew) : M bool :=
  try (Stat (CacheFile cm))
    (fun r =>
       match r with
       | inr _ => ret false
       | inl info =>
           let* age := Since (ModTime info) in
           ret (age <? 24 * Hour)
       end).

(** [writeOperatorsToCache]: the records go to [CacheFile + ".tmp"],
    which is then renamed over [CacheFile]. *)
Definition writeOperatorsToCache (cm : CatalogManagerNew)
    (operators : list OperatorInfo) : M unit :=
  let tempCacheFile := CacheFile cm +:+ ".tmp" in
  let* file := wrap "创建临时缓存文件失败" (Create tempCacheFile) in
  try (let* text := lift (json_Encode operators) in Write file text)
    (fun r =>
       match r with
       | inr e =>
           try (Remove tempCacheFile)
             (fun _ => fail (Errorf "编码 JSON 失败" e))
       | inl _ =>
           try (Rename tempCacheFile (CacheFile cm))
             (fun r =>
                match r with
                | inr e =>
                    try (Remove tempCacheFile)
                      (fun _ => fail (Errorf "重命名缓存文件失败" e))
                | inl _ => ret tt
                end)
       end).

(** [readAllOperatorsFromCache] *)
Definition readAllOperatorsFromCache (cm : CatalogManagerNew)
  : M (list OperatorInfo) :=
  try (ReadFile (CacheFile cm))
    (fun r =>
       match r with
       | inr e =>
           if IsNotExist e then fail (Errorf "打开缓存文件失败" e)
           else fail (Errorf "解码缓存文件失败" e)
       | inl text => wrap "解码缓存文件失败" (lift (json_Decode text))
       end).

(** [GetAllOperators] *)
Definition GetAllOperators (cm : CatalogManagerNew)
  : M (list OperatorInfo) :=
  run wrap "创建缓存目录失败" (MkdirAll (CacheDir cm)) in
  let* valid := isCacheValid cm in
  if valid then readAllOperatorsFromCache cm
  else
    let* operators :=
      wrap "下载目录索引失败" (downloadCatalogUsingMirror cm) in
    run wrap "写入缓存失败" (writeOperatorsToCache cm operators) in
    ret operators.

(** [GetOperatorInfo] *)
Definition GetOperatorInfo (cm : CatalogManagerNew) (operatorName : string)
  : M OperatorInfo :=
  let* operators := GetAllOperators cm in
  match List.find (fun op => String.eqb (Name op) operatorName) operators with
  | Some op => ret op
  | None => fail (ErrorsNew ("未找到 Operator: " +:+ operatorName))
  end.

End WithEnv.

End CatalogNew.

(* ===================================================================== *)
(** ** [pkg/save]: the operator name resolver *)
(* ===================================================================== *)

Module Save.
Import Go.

Definition operatorsJsonFilename : string := "operators.json".

Record OperatorInfo := {
  Name : string;
  DisplayName : string;
  DefaultChannel : string;
  Version : string;
  Description : string
}.

Record OperatorsCache := {
  UpdatedAt : Z;
  Catalog : string;
  Count : Z;
  Operators : list OperatorInfo
}.

Record Saver := {
  Config : Config.ClusterConfig;
  ClusterName : string;
  ProjectRoot : string;
  ClusterDir : string
}.

(** The collaborators: [utils.ExtractMajorVersion] (in [pkg/utils]) and
    the JSON codec for [operators.json]. *)
Class Env := {
  catalogEnv :: CatalogNew.Env;
  utils_ExtractMajorVersion : string -> string;
  json_Marshal : OperatorsCache -> outcome string;
  json_Unmarshal : string -> outcome OperatorsCache
}.

(** The alias table of [getOperatorDefaultChannel]. *)
Definition aliasMap : gmap string string :=
  list_to_map
    [ ("cluster-logging", "cluster-logging-operator");
      ("logging", "cluster-logging-operator");
      ("local-storage-operator", "local-storage-operator");
      ("local-storage", "local-storage-operator");
      ("openshift-logging", "cluster-logging-operator") ].

Definition matches (key : string) (op : OperatorInfo) : bool :=
  String.eqb (Name op) key || String.eqb (DisplayName op) key.

(** [for _, op := range ops { if op.Name == key || op.DisplayName == key
    { return &op, nil } }] *)
Fixpoint firstMatch (key : string) (ops : list OperatorInfo)
  : option OperatorInfo :=
  match ops with
  | [] => None
  | op :: rest => if matches key op then Some op else firstMatch key rest
  end.

Definition contains (key : string) (op : OperatorInfo) : bool :=
  GoStrings.Contains (Name op) key || GoStrings.Contains (DisplayName op) key.

(** The candidate loop of step 3. *)
Fixpoint collectCandidates (key : string) (ops candidates : list OperatorInfo)
  : list OperatorInfo :=
  match ops with
  | [] => candidates
  | op :: rest =>
      collectCandidates key rest
        (if contains key op then candidates ++ [op] else candidates)
  end.

Definition keywords : list string :=
  ["logging"; "storage"; "monitoring"; "network"; "security"; "backup"].

(** The inner loop of [findSimilarOperators]. *)
Fixpoint collectSimilar (keyword : string) (operators : list OperatorInfo)
    (suggestions : list string) : list string :=
  match operators with
  | [] => suggestions
  | op :: rest =>
      let opName := GoStrings.ToLower (Name op) in
      collectSimilar keyword rest
        (if GoStrings.Contains opName keyword
            && (length suggestions <? 5)%nat
         then suggestions ++ [Name op] else suggestions)
  end.

(** The keyword loop of [findSimilarOperators]: only the first keyword
    found in the target is used. *)
Fixpoint scanKeywords (target : string) (kws : list string)
    (operators : list OperatorInfo) : list string :=
  match kws with
  | [] => []
  | keyword :: rest =>
      if GoStrings.Contains target keyword
      then collectSimilar keyword operators []
      else scanKeywords target rest operators
  end.

(** [findSimilarOperators] *)
Definition findSimilarOperators (target : string)
    (operators : list OperatorInfo) : list string :=
  scanKeywords (GoStrings.ToLower target) keywords operators.

(** Steps 1 to 4 of [getOperatorDefaultChannel], on the decoded records. *)
Definition resolve (operatorName : string) (operators : list OperatorInfo)
  : outcome OperatorInfo :=
  match firstMatch operatorName operators with
  | Some op => Ok op
  | None =>
      let aliased :=
        match aliasMap !! operatorName with
        | Some alias => firstMatch alias operators
        | None => None
        end in
      match aliased with
      | Some op => Ok op
      | None =>
          let candidates := collectCandidates operatorName operators [] in
          match candidates with
          | [candidate] => Ok candidate
          | _ :: _ :: _ =>
              Err (ErrorsNew
                     ("未找到 operator '" +:+ operatorName
                      +:+ "'，但找到了多个可能的匹配: "
                      +:+ GoStrings.Join (List.map Name candidates) ", "))
          | [] =>
              let suggestions := findSimilarOperators operatorName operators in
              if (0 <? length suggestions)%nat then
                Err (ErrorsNew
                       ("未找到 operator '" +:+ operatorName
                        +:+ "'，您是否想要: "
                        +:+ GoStrings.Join suggestions ", "))
              else Err (ErrorsNew ("未找到 operator: " +:+ operatorName))
          end
      end
  end.

Definition fromCatalog (op : CatalogNew.OperatorInfo) : OperatorInfo :=
  {| Name := CatalogNew.Name op;
     DisplayName := CatalogNew.DisplayName op;
     DefaultChannel := CatalogNew.DefaultChannel op;
     Version := CatalogNew.Version op;
     Description := CatalogNew.Description op |}.

Section WithEnv.
Context {env : Env}.

(** [saveOperatorsToClusterDir]: written to [filePath + ".tmp"], then
    renamed over [filePath]. *)
Definition saveOperatorsToClusterDir (operators : list OperatorInfo)
    (filePath catalogImage : string) : M unit :=
  run wrap "创建目录失败" (MkdirAll (DirOf filePath)) in
  let* t := Now in
  let data :=
    {| UpdatedAt := t;
       Catalog := catalogImage;
       Count := Z.of_nat (length operators);
       Operators := operators |} in
  let tempFile := filePath +:+ ".tmp" in
  let* file := wrap "创建临时文件失败" (Create tempFile) in
  try (let* text := lift (json_Marshal data) in Write file text)
    (fun r =>
       match r with
       | inr e =>
           try (Remove tempFile) (fun _ => fail (Errorf "编码 JSON 失败" e))
       | inl _ =>
           try (Rename tempFile filePath)
             (fun r =>
                match r with
                | inr e =>
                    try (Remove tempFile)
                      (fun _ => fail (Errorf "重命名文件失败" e))
                | inl _ => ret tt
                end)
       end).

(** [generateOperatorsCache] *)
Definition generateOperatorsCache (s : Saver) : M unit :=
  let majorVersion :=
    utils_ExtractMajorVersion
      (Config.ClusterInfo_OpenShiftVersion (Config s)) in
  let catalogImage := Config.SaveImage_OperatorCatalog (Config s) in
  let catalogImage :=
    if String.eqb catalogImage ""
    then "registry.redhat.io/redhat/redhat-operator-index:v" +:+ majorVersion
    else catalogImage in
  let cacheDir := JoinPath [ClusterDir s; "catalogs"; "cache"] in
  let workingDir := JoinPath [ClusterDir s; "catalogs"; "working"] in
  run wrap "创建缓存目录失败" (MkdirAll cacheDir) in
  run wrap "创建工作目录失败" (MkdirAll workingDir) in
  let manager :=
    CatalogNew.NewCatalogManagerNew catalogImage cacheDir workingDir in
  let* operators :=
    wrap "获取 operators 失败" (CatalogNew.GetAllOperators manager) in
  let localOperators := List.map fromCatalog operators in
  let operatorsJsonPath := JoinPath [ClusterDir s; operatorsJsonFilename] in
  saveOperatorsToClusterDir localOperators operatorsJsonPath catalogImage.

(** [getOperatorDefaultChannel] *)
Definition getOperatorDefaultChannel (s : Saver) (operatorName : string)
  : M OperatorInfo :=
  let operatorsJsonPath := JoinPath [ClusterDir s; operatorsJsonFilename] in
  run try (Stat operatorsJsonPath)
        (fun r =>
           match r with
           | inr e =>
               if IsNotExist e
               then wrap "生成 operators 缓存失败" (generateOperatorsCache s)
               else ret tt
           | inl _ => ret tt
           end) in
  let* data := wrap "读取 operators.json 失败" (ReadFile operatorsJsonPath) in
  let* operatorsCache :=
    wrap "解析 operators.json 失败" (lift (json_Unmarshal data)) in
  lift (resolve operatorName (Operators operatorsCache)).

End WithEnv.

End Save.

(* ===================================================================== *)
(** ** [pkg/iso/generator.go] *)
(* ===================================================================== *)

Module Iso.
Import Go.

(** *** Constants *)
Definition installDirName : string := "installation".
Definition ignitionDirName : string := "ignition".
Definition isoDirName : string := "iso".
Definition tempDirName : string := "temp".
Definition registryDirName : string := "registry".
Definition ocMirrorWorkspaceDir : string := "oc-mirror-workspace".
Definition imagesDirName : string := "images".
Definition installConfigFilename : string := "install-config.yaml".
Definition agentConfigFilename : string := "agent-config.yaml".
Definition icspFilename : string := "imageContentSourcePolicy.yaml".
Definition pullSecretFilename : string := "pull-secret.txt".
Definition mergedAuthFilename : string := "merged-auth.json".
Definition rootCACertFilename : string := "rootCA.pem".
Definition openshiftInstallCmd : string := "openshift-install".
Definition defaultInterface : string := "ens3".
Definition defaultHostPrefix : Z := 23.

Definition nl : string := String "010"%char EmptyString.

(** *** Struct definitions *)
Record ISOGenerator := {
  Config : Config.ClusterConfig;
  ClusterName : string;
  ProjectRoot : string;
  ClusterDir : string;
  DownloadDir : string
}.

Record GenerateOptions := {
  OutputPath : string;
  BaseISOPath : string;
  SkipVerify : bool;
  Force : bool
}.

(** [InstallConfigData]. Its [ClusterName] and [PrefixLength] are
    [InstallClusterName] and [InstallPrefixLength] here: the generator and
    the agent data have fields of the same names. *)
Record InstallConfigData := {
  BaseDomain : string;
  InstallClusterName : string;
  NumWorkers : Z;
  NumMasters : Z;
  MachineNetwork : string;
  InstallPrefixLength : Z;
  HostPrefix : Z;
  PullSecret : string;
  SSHKeyPub : string;
  AdditionalTrustBundle : string;
  ImageContentSources : string;
  ArchShort : string;
  UseProxy : bool;
  HTTPProxy : string;
  HTTPSProxy : string;
  NoProxy : string
}.

Record HostConfig := {
  Hostname : string;
  Role : string;
  MACAddress : string;
  IPAddress : string;
  Interface : string
}.

(** [AgentConfigData]; its [ClusterName] is [AgentClusterName] here. *)
Record AgentConfigData := {
  AgentClusterName : string;
  RendezvousIP : string;
  Hosts : list HostConfig;
  Port0 : string;
  PrefixLength : Z;
  NextHopAddress : string;
  DNSServers : list string
}.

Record RepositoryDigestMirror := { Source : string; Mirrors : list string }.

(** [ICSP]: [Spec.RepositoryDigestMirrors] of one YAML document. *)
Record ICSP := { RepositoryDigestMirrors : list RepositoryDigestMirror }.

(** A decoded JSON value ([interface{}] after [json.Unmarshal]); a number
    is kept as the bits of its [float64]. *)
Inductive JSON :=
| JNull
| JBool (b : bool)
| JNumber (bits : Z)
| JString (s : string)
| JArray (items : list JSON)
| JObject (fields : gmap string JSON).

Inductive TemplateData :=
| InstallData (d : InstallConfigData)
| AgentData (d : AgentConfigData).

Definition FuncMap : Type := list (string * (nat -> string -> string)).

(** The collaborators of the generator: [pkg/config] and [pkg/utils],
    the embedded templates and [text/template], the JSON and YAML codecs,
    the user's home directory and the external installer. [template_Execute]
    gives the pieces written to the output in order, and the error that
    stopped the rendering if there was one; [yaml_Decode] gives the
    documents decoded before the end of the stream or before the first
    decoding error. *)
Class Env := {
  config_ValidateConfig : Config.ClusterConfig -> outcome unit;
  utils_ExtractNetworkBase : string -> string;
  utils_ExtractPrefixLength : string -> Z;
  utils_ExtractGateway : string -> string;
  utils_ParseTimestamp : string -> option Z;
  utils_CopyFile : string -> string -> FS -> outcome unit * FS;
  utils_MoveFile : string -> string -> FS -> outcome unit * FS;
  utils_CopyFileOrDir : string -> string -> FS -> outcome unit * FS;
  Template : Type;
  templates_ReadFile : string -> outcome string;
  template_Parse : string -> option FuncMap -> string -> outcome Template;
  template_Execute : Template -> TemplateData -> list string * option error;
  json_Unmarshal : string -> outcome (gmap string JSON);
  json_MarshalIndent : gmap string JSON -> outcome string;
  yaml_Decode : string -> list ICSP * option error;
  os_UserHomeDir : outcome string;
  installer : string -> string -> FS -> outcome unit * FS
}.

(** *** Pure parts *)

(** The [indent] template function of [generateInstallConfig]. The
    template passes a constant for [spaces]. *)
Definition indent (spaces : nat) (text : string) : string :=
  if String.eqb text "" then ""
  else
    let indentStr := GoStrings.Repeat " " spaces in
    let lines := GoStrings.SplitByte text "010" in
    GoStrings.Join
      (List.map
         (fun line => if negb (String.eqb line "") then indentStr +:+ line
                      else line)
         lines)
      nl.

Definition masterHost (cp : Config.Node) : HostConfig :=
  {| Hostname := Config.Name cp; Role := "master";
     MACAddress := Config.MAC cp; IPAddress := Config.IP cp;
     Interface := defaultInterface |}.

Definition workerHost (worker : Config.Node) : HostConfig :=
  {| Hostname := Config.Name worker; Role := "worker";
     MACAddress := Config.MAC worker; IPAddress := Config.IP worker;
     Interface := defaultInterface |}.

(** [registry.<name>.<domain>] *)
Definition registryHostname (cfg : Config.ClusterConfig) : string :=
  "registry." +:+ Config.ClusterInfo_Name cfg +:+ "."
  +:+ Config.ClusterInfo_Domain cfg.

Definition registryURL (cfg : Config.ClusterConfig) : string :=
  registryHostname cfg +:+ ":8443".

(** The entry that [createMergedAuthConfig] makes for the registry. *)
Definition registryAuth (cfg : Config.ClusterConfig) : JSON :=
  let authString := Config.Registry_RegistryUser cfg +:+ ":ztesoft123" in
  let authBase64 := Base64.EncodeToString authString in
  JObject (<["auth" := JString authBase64]>
             (<["email" := JString "user@example.com"]> ∅)).

(** The merge of [createMergedAuthConfig]: [pullSecretData["auths"]] must
    be a map; the registry entry is stored in that very map, which
    [pullSecretData] still holds. *)
Definition mergeAuths (cfg : Config.ClusterConfig)
    (pullSecretData : gmap string JSON) : option (gmap string JSON) :=
  match pullSecretData !! "auths" with
  | Some (JObject auths) =>
      Some (<["auths" := JObject (<[registryURL cfg := registryAuth cfg]> auths)]>
              pullSecretData)
  | _ => None
  end.

(** One block of [findAndParseICSP]. *)
Definition mirrorBlock (rdm : RepositoryDigestMirror) : string :=
  "- mirrors:" +:+ nl +:+ "  - "
  +:+ GoStrings.Join (Mirrors rdm) (nl +:+ "  - ")
  +:+ nl +:+ "  source: " +:+ Source rdm.

(** The inner loop of [findAndParseICSP], on the string builder. *)
Fixpoint writeBlocks (rdms : list RepositoryDigestMirror) (builder : string)
  : string :=
  match rdms with
  | [] => builder
  | rdm :: rest => writeBlocks rest ((builder +:+ mirrorBlock rdm) +:+ nl)
  end.

(** The decoding loop of [findAndParseICSP]. *)
Fixpoint decodeLoop (docs : list ICSP) (builder : string) : string :=
  match docs with
  | [] => builder
  | icspDoc :: rest =>
      decodeLoop rest (writeBlocks (RepositoryDigestMirrors icspDoc) builder)
  end.

(** [findAndParseICSP] from the decoder on. *)
Definition parseICSP (stream : list ICSP * option error) : outcome string :=
  match snd stream with
  | Some e => Err (Errorf "解析 ICSP YAML 文档失败" e)
  | None =>
      let resultBuilder := decodeLoop (fst stream) "" in
      if (String.length resultBuilder =? 0)%nat
      then Err (ErrorsNew "ICSP 文件中未找到有效的镜像源配置")
      else Ok (GoStrings.TrimSpace resultBuilder)
  end.

(** The data of [generateAgentConfig]. Indexing [ControlPlane[0]] of an
    empty slice is a run-time panic. *)
Definition agentConfigData (extractPrefixLength : string -> Z)
    (extractGateway : string -> string) (cfg : Config.ClusterConfig)
  : outcome AgentConfigData :=
  let hosts := List.map masterHost (Config.Cluster_ControlPlane cfg) in
  let hosts := hosts ++ List.map workerHost (Config.Cluster_Worker cfg) in
  match Config.Cluster_ControlPlane cfg with
  | [] => Panic "runtime error: index out of range [0] with length 0"
  | first :: _ =>
      Ok {| AgentClusterName := Config.ClusterInfo_Name cfg;
            RendezvousIP := Config.IP first;
            Hosts := hosts;
            Port0 := defaultInterface;
            PrefixLength :=
              extractPrefixLength (Config.Cluster_Network_MachineNetwork cfg);
            NextHopAddress :=
              extractGateway (Config.Cluster_Network_MachineNetwork cfg);
            DNSServers := [Config.Bastion_IP cfg] |}
  end.

Section WithEnv.
Context {env : Env}.

(** *** Step implementations *)

(** [ValidateConfig] *)
Definition ValidateConfig (g : ISOGenerator) : M unit :=
  run lift (config_ValidateConfig (Config g)) in
  let toolPath := JoinPath [DownloadDir g; "bin"; openshiftInstallCmd] in
  run try (Stat toolPath)
        (fun r =>
           match r with
           | inr e =>
               if IsNotExist e
               then fail (ErrorsNew ("缺少必需的工具: " +:+ openshiftInstallCmd
                                     +:+ "，请先运行 'ocpack download' 命令"))
               else ret tt
           | inl _ => ret tt
           end) in
  let pullSecretPath := JoinPath [ClusterDir g; pullSecretFilename] in
  try (Stat pullSecretPath)
    (fun r =>
       match r with
       | inr e =>
           if IsNotExist e
           then fail (ErrorsNew ("缺少 " +:+ pullSecretFilename
                                 +:+ " 文件，请先获取 Red Hat pull-secret"))
           else ret tt
       | inl _ => ret tt
       end).

(** The loop of [createInstallationDirs]. *)
Fixpoint mkdirs (dirs : list string) : M unit :=
  match dirs with
  | [] => ret tt
  | dir :: rest =>
      run wrap ("创建目录 " +:+ dir +:+ " 失败") (MkdirAll dir) in
      mkdirs rest
  end.

(** [createInstallationDirs] *)
Definition createInstallationDirs (installDir : string) : M unit :=
  mkdirs [ installDir;
           JoinPath [installDir; ignitionDirName];
           JoinPath [installDir; isoDirName] ].

(** [executeTemplate]: the output file is created (or truncated) at its
    final path and the template is rendered into it piece by piece. *)
Definition executeTemplate (templatePath outputPath : string)
    (data : TemplateData) (funcMap : option FuncMap) : M unit :=
  let* tmplContent :=
    wrap ("读取模板 " +:+ templatePath +:+ " 失败")
      (lift (templates_ReadFile templatePath)) in
  let* tmpl :=
    wrap ("解析模板 " +:+ templatePath +:+ " 失败")
      (lift (template_Parse (Base templatePath) funcMap tmplContent)) in
  let* file :=
    wrap ("创建文件 " +:+ outputPath +:+ " 失败") (Create outputPath) in
  wrap ("执行模板生成 " +:+ outputPath +:+ " 失败")
    (let rendered := template_Execute tmpl data in
     run WriteAll file (fst rendered) in
     match snd rendered with
     | Some e => fail e
     | None => ret tt
     end).

(** [createMergedAuthConfig] *)
Definition createMergedAuthConfig (g : ISOGenerator) : M unit :=
  let pullSecretPath := JoinPath [ClusterDir g; pullSecretFilename] in
  let* pullSecretContent :=
    wrap ("读取 " +:+ pullSecretFilename +:+ " 失败") (ReadFile pullSecretPath) in
  let* pullSecretData :=
    wrap ("解析 " +:+ pullSecretFilename +:+ " JSON 失败")
      (lift (json_Unmarshal pullSecretContent)) in
  match mergeAuths (Config g) pullSecretData with
  | None => fail (ErrorsNew "pull-secret.txt 格式无效: 缺少 'auths' 字段")
  | Some merged =>
      let* mergedAuthContent :=
        wrap "序列化合并后的认证配置失败" (lift (json_MarshalIndent merged)) in
      let registryDir := JoinPath [ClusterDir g; registryDirName] in
      run wrap "创建 registry 目录失败" (MkdirAll registryDir) in
      let mergedAuthPath := JoinPath [registryDir; mergedAuthFilename] in
      wrap "保存合并后的认证配置失败" (WriteFile mergedAuthPath mergedAuthContent)
  end.

(** [getPullSecret]. It calls itself once the merged file has been
    written; [depth] bounds the nesting of these calls. *)
Fixpoint getPullSecretAt (depth : nat) (g : ISOGenerator) : M string :=
  let mergedAuthPath :=
    JoinPath [ClusterDir g; registryDirName; mergedAuthFilename] in
  try (Stat mergedAuthPath)
    (fun r =>
       match r with
       | inl _ =>
           let* secretBytes :=
             wrap "读取合并认证文件失败" (ReadFile mergedAuthPath) in
           ret (GoStrings.TrimSpace secretBytes)
       | inr _ =>
           try (createMergedAuthConfig g)
             (fun r =>
                match r with
                | inr _ =>
                    let pullSecretPath :=
                      JoinPath [ClusterDir g; pullSecretFilename] in
                    let* secretBytes :=
                      wrap "读取原始 pull-secret 失败" (ReadFile pullSecretPath) in
                    ret (GoStrings.TrimSpace secretBytes)
                | inl _ =>
                    match depth with
                    | O => panic "stack overflow"
                    | S d => getPullSecretAt d g
                    end
                end)
       end).

Definition getPullSecret (g : ISOGenerator) : M string := getPullSecretAt 1 g.

(** [getSSHKey] *)
Definition getSSHKey : M string :=
  let* home := wrap "无法获取用户主目录" (lift os_UserHomeDir) in
  let sshKeyPath := JoinPath [home; ".ssh"; "id_rsa.pub"] in
  let* sshKeyBytes :=
    wrap ("读取 SSH 公钥失败 (" +:+ sshKeyPath +:+ ")") (ReadFile sshKeyPath) in
  ret (GoStrings.TrimSpace sshKeyBytes).

(** The loop of [getAdditionalTrustBundle]. *)
Fixpoint firstReadable (paths : list string) : M string :=
  match paths with
  | [] => fail (ErrorsNew ("在任何预期位置都未找到 " +:+ rootCACertFilename))
  | certPath :: rest =>
      try (ReadFile certPath)
        (fun r =>
           match r with
           | inl caCertBytes => ret caCertBytes
           | inr _ => firstReadable rest
           end)
  end.

(** [getAdditionalTrustBundle] *)
Definition getAdditionalTrustBundle (g : ISOGenerator) : M string :=
  firstReadable
    [ JoinPath [ClusterDir g; registryDirName; Config.Registry_IP (Config g);
                rootCACertFilename];
      JoinPath [ClusterDir g; registryDirName; rootCACertFilename] ].

(** The loop of [findOcMirrorWorkspace]. *)
Fixpoint firstExisting (dirs : list string) : M string :=
  match dirs with
  | [] => fail (ErrorsNew "oc-mirror workspace 目录不存在")
  | dir :: rest =>
      try (Stat dir)
        (fun r =>
           match r with
           | inl _ => ret dir
           | inr _ => firstExisting rest
           end)
  end.

(** [findOcMirrorWorkspace] *)
Definition findOcMirrorWorkspace (g : ISOGenerator) : M string :=
  firstExisting
    [ JoinPath [ClusterDir g; ocMirrorWorkspaceDir];
      JoinPath [ClusterDir g; imagesDirName; ocMirrorWorkspaceDir] ].

(** The loop of [findLatestResultsDir], with [latestDir] and [latestTime]
    as they stand when the entry is met. *)
Fixpoint latestLoop (workspaceDir : string) (entries : list DirEntry)
    (latestDir : string) (latestTime : Z) : M (string * Z) :=
  match entries with
  | [] => ret (latestDir, latestTime)
  | entry :: rest =>
      if negb (EntryIsDir entry)
         || negb (GoStrings.HasPrefix (EntryName entry) "results-")
      then latestLoop workspaceDir rest latestDir latestTime
      else
        let dirPath := JoinPath [workspaceDir; EntryName entry] in
        try (ReadDir dirPath)
          (fun r =>
             let sub := match r with inl l => l | inr _ => [] end in
             if (length sub =? 0)%nat
             then latestLoop workspaceDir rest latestDir latestTime
             else
               match utils_ParseTimestamp
                       (GoStrings.TrimPrefix (EntryName entry) "results-") with
               | Some timeValue =>
                   if timeValue >? latestTime
                   then latestLoop workspaceDir rest dirPath timeValue
                   else latestLoop workspaceDir rest latestDir latestTime
               | None => latestLoop workspaceDir rest latestDir latestTime
               end)
  end.

(** [findLatestResultsDir] once the workspace has been listed. *)
Definition selectLatest (workspaceDir : string) (entries : list DirEntry)
  : M string :=
  let* latest := latestLoop workspaceDir entries "" 0 in
  if String.eqb (fst latest) ""
  then fail (ErrorsNew "未找到有效的 results 目录")
  else ret (fst latest).

(** [findLatestResultsDir] *)
Definition findLatestResultsDir (workspaceDir : string) : M string :=
  let* entries := wrap "读取 workspace 目录失败" (ReadDir workspaceDir) in
  selectLatest workspaceDir entries.

(** [findAndParseICSP] *)
Definition findAndParseICSP (g : ISOGenerator) : M string :=
  let* workspaceDir := findOcMirrorWorkspace g in
  let* latestResultsDir :=
    wrap "查找最新 results 目录失败" (findLatestResultsDir workspaceDir) in
  let icspFile := JoinPath [latestResultsDir; icspFilename] in
  let* icspContent :=
    wrap ("读取 ICSP 文件 " +:+ icspFile +:+ " 失败") (ReadFile icspFile) in
  lift (parseICSP (yaml_Decode icspContent)).

(** [findOpenshiftInstall] *)
Definition findOpenshiftInstall (g : ISOGenerator) : M string :=
  let registryHost := registryHostname (Config g) in
  let extractedBinary :=
    JoinPath [ClusterDir g;
              openshiftInstallCmd +:+ "-"
              +:+ Config.ClusterInfo_OpenShiftVersion (Config g) +:+ "-"
              +:+ registryHost] in
  try (Stat extractedBinary)
    (fun r =>
       match r with
       | inl _ => ret extractedBinary
       | inr _ =>
           let downloadedBinary :=
             JoinPath [DownloadDir g; "bin"; openshiftInstallCmd] in
           try (Stat downloadedBinary)
             (fun r =>
                match r with
                | inl _ => ret downloadedBinary
                | inr _ =>
                    fail (ErrorsNew ("在 " +:+ extractedBinary +:+ " 或 "
                                     +:+ downloadedBinary +:+ " 中均未找到 "
                                     +:+ openshiftInstallCmd +:+ " 工具"))
                end)
       end).

(** [x, _ := f()] and [x, err := f(); if err != nil { print }]: the zero
    string stands for a value that could not be had. *)
Definition orEmpty (m : M string) : M string :=
  try m (fun r => ret (match r with inl v => v | inr _ => "" end)).

(** [generateInstallConfig] *)
Definition generateInstallConfig (g : ISOGenerator) (installDir : string)
  : M unit :=
  let* pullSecret := getPullSecret g in
  let* sshKey := orEmpty getSSHKey in
  let* trustBundle := orEmpty (getAdditionalTrustBundle g) in
  let* imageContentSources := orEmpty (findAndParseICSP g) in
  let cfg := Config g in
  let data :=
    {| BaseDomain := Config.ClusterInfo_Domain cfg;
       InstallClusterName := Config.ClusterInfo_Name cfg;
       NumWorkers := Z.of_nat (length (Config.Cluster_Worker cfg));
       NumMasters := Z.of_nat (length (Config.Cluster_ControlPlane cfg));
       MachineNetwork :=
         utils_ExtractNetworkBase (Config.Cluster_Network_MachineNetwork cfg);
       InstallPrefixLength :=
         utils_ExtractPrefixLength (Config.Cluster_Network_MachineNetwork cfg);
       HostPrefix := defaultHostPrefix;
       PullSecret := pullSecret;
       SSHKeyPub := sshKey;
       AdditionalTrustBundle := trustBundle;
       ImageContentSources := imageContentSources;
       ArchShort := "amd64";
       UseProxy := false;
       HTTPProxy := "";
       HTTPSProxy := "";
       NoProxy := "" |} in
  let funcMap := [("indent", indent)] in
  let configPath := JoinPath [installDir; installConfigFilename] in
  executeTemplate "templates/install-config.yaml" configPath (InstallData data)
    (Some funcMap).

(** [generateAgentConfig] *)
Definition generateAgentConfig (g : ISOGenerator) (installDir : string)
  : M unit :=
  let* data :=
    lift (agentConfigData utils_ExtractPrefixLength utils_ExtractGateway
            (Config g)) in
  let configPath := JoinPath [installDir; agentConfigFilename] in
  executeTemplate "templates/agent-config.yaml" configPath (AgentData data) None.

(** The staging loop of [generateISOFiles]. *)
Fixpoint stageFiles (installDir tempDir : string) (filenames : list string)
  : M unit :=
  match filenames with
  | [] => ret tt
  | filename :: rest =>
      let src := JoinPath [installDir; filename] in
      let dst := JoinPath [tempDir; filename] in
      run wrap ("复制 " +:+ filename +:+ " 失败")
            (invoke (CallTool "CopyFile" src dst) (utils_CopyFile src dst)) in
      stageFiles installDir tempDir rest
  end.

(** The copy-out loop of [generateISOFiles]: a failed copy is reported
    and the loop goes on. *)
Fixpoint copyOut (tempDir ignitionDir : string) (files : list string)
  : M unit :=
  match files with
  | [] => ret tt
  | file :: rest =>
      let srcPath := JoinPath [tempDir; file] in
      run try (Stat srcPath)
            (fun r =>
               match r with
               | inl _ =>
                   let dstPath := JoinPath [ignitionDir; file] in
                   try (invoke (CallTool "CopyFileOrDir" srcPath dstPath)
                          (utils_CopyFileOrDir srcPath dstPath))
                     (fun _ => ret tt)
               | inr _ => ret tt
               end) in
      copyOut tempDir ignitionDir rest
  end.

(** [generateISOFiles] *)
Definition generateISOFiles (g : ISOGenerator)
    (installDir targetISOPath : string) : M string :=
  let* openshiftInstallPath :=
    wrap "查找 openshift-install 失败" (findOpenshiftInstall g) in
  let tempDir := JoinPath [installDir; tempDirName] in
  run wrap "创建临时目录失败" (MkdirAll tempDir) in
  defer (RemoveAll tempDir)
    (run stageFiles installDir tempDir
           [installConfigFilename; agentConfigFilename] in
     run wrap "生成 agent ISO 失败"
           (invoke (CallInstaller openshiftInstallPath tempDir)
              (installer openshiftInstallPath tempDir)) in
     let agentISOPath := JoinPath [tempDir; "agent.x86_64.iso"] in
     run wrap "移动 ISO 文件失败"
           (invoke (CallTool "MoveFile" agentISOPath targetISOPath)
              (utils_MoveFile agentISOPath targetISOPath)) in
     let ignitionDir := JoinPath [installDir; ignitionDirName] in
     run copyOut tempDir ignitionDir
           ["auth"; ".openshift_install.log"; ".openshift_install_state.json"] in
     ret targetISOPath).

(** *** Main logic *)

(** [GenerateISO] *)
Definition GenerateISO (g : ISOGenerator) (options : GenerateOptions)
  : M unit :=
  let installDir := JoinPath [ClusterDir g; installDirName] in
  let targetISOPath :=
    JoinPath [installDir; isoDirName; ClusterName g +:+ "-agent.x86_64.iso"] in
  let* exists_ :=
    if negb (Force options)
    then try (Stat targetISOPath)
           (fun r => ret (match r with inl _ => true | inr _ => false end))
    else ret false in
  if exists_ then ret tt
  else
    run wrap "配置验证失败" (ValidateConfig g) in
    run wrap "创建安装目录失败" (createInstallationDirs installDir) in
    run wrap "生成 install-config.yaml 失败"
          (generateInstallConfig g installDir) in
    run wrap "生成 agent-config.yaml 失败" (generateAgentConfig g installDir) in
    let* generatedPath :=
      wrap "生成 ISO 文件失败" (generateISOFiles g installDir targetISOPath) in
    ret tt.

End WithEnv.

End Iso.

(* ===================================================================== *)
(** ** [pkg/catalognew]: helpers of the catalog command *)
(* ===================================================================== *)

Module CatalogCmd.

(** [extractMajorMinorVersion] *)
Definition extractMajorMinorVersion (version : string) : string :=
  let version := GoStrings.TrimPrefix version "v" in
  let parts := GoStrings.SplitByte version "." in
  if (2 <=? length parts)%nat
  then nth 0 parts "" +:+ "." +:+ nth 1 parts ""
  else version.

End CatalogCmd.

(* ===================================================================== *)
(** ** [pkg/save]: saving the images to disk *)
(* ===================================================================== *)

Module SaveMirror.
Import Go.

Definition imagesDirName : string := "images".
Definition imagesetConfigFilename : string := "imageset-config.yaml".
Definition ocpDefaultChannel : string := "stable".

Record OperatorPackage := { Name : string; Channel : string }.

Record ImageSetConfig := {
  OCPChannel : string;
  OCPVerMajor : string;
  OCPVer : string;
  IncludeOperators : bool;
  OperatorCatalog : string;
  OperatorPackages : list OperatorPackage;
  AdditionalImages : list string;
  WorkspacePath : string
}.

(** The collaborators: those of the resolver, the embedded template and
    [text/template], and the mirror engine behind [runMirrorToDisk].
    [template_Execute] gives the pieces written to the output in order,
    and the error that stopped the rendering if there was one. *)
Class Env := {
  saveEnv :: Save.Env;
  Template : Type;
  templates_ReadFile : string -> outcome string;
  template_Parse : string -> string -> outcome Template;
  template_Execute : Template -> ImageSetConfig -> list string * option error;
  runMirrorToDisk : string -> string -> string -> FS -> outcome unit * FS
}.

(** The loop of [checkExistingMirrorFiles]. *)
Fixpoint archiveLoop (files : list DirEntry) : bool :=
  match files with
  | [] => false
  | file :: rest =>
      if negb (EntryIsDir file)
         && GoStrings.HasPrefix (EntryName file) "mirror_seq"
         && GoStrings.HasSuffix (EntryName file) ".tar"
      then true
      else archiveLoop rest
  end.

(** [checkExistingMirrorFiles] *)
Definition checkExistingMirrorFiles (imagesDir : string) : M bool :=
  try (ReadDir imagesDir)
    (fun r =>
       match r with
       | inr _ => ret false
       | inl files => ret (archiveLoop files)
       end).

Section WithEnv.
Context {env : Env}.

(** The operator loop of [generateImageSetConfig]: an operator whose
    channel cannot be had is kept, by name only. *)
Fixpoint packagesLoop (s : Save.Saver) (ops : list string)
    (operatorPackages : list OperatorPackage) : M (list OperatorPackage) :=
  match ops with
  | [] => ret operatorPackages
  | opName :: rest =>
      try (Save.getOperatorDefaultChannel s opName)
        (fun r =>
           match r with
           | inr _ =>
               packagesLoop s rest
                 (operatorPackages ++ [ {| Name := opName; Channel := "" |} ])
           | inl opInfo =>
               packagesLoop s rest
                 (operatorPackages
                  ++ [ {| Name := opName;
                          Channel := Save.DefaultChannel opInfo |} ])
           end)
  end.

(** [generateImageSetConfig] *)
Definition generateImageSetConfig (s : Save.Saver) (configPath : string)
  : M unit :=
  let version := Config.ClusterInfo_OpenShiftVersion (Save.Config s) in
  let majorVersion := Save.utils_ExtractMajorVersion version in
  let catalogImage := Config.SaveImage_OperatorCatalog (Save.Config s) in
  let catalogImage :=
    if String.eqb catalogImage ""
    then "registry.redhat.io/redhat/redhat-operator-index:v" +:+ majorVersion
    else catalogImage in
  let* operatorPackages :=
    if Config.SaveImage_IncludeOperators (Save.Config s)
       && (0 <? length (Config.SaveImage_Ops (Save.Config s)))%nat
    then packagesLoop s (Config.SaveImage_Ops (Save.Config s)) []
    else ret [] in
  let imagesetConfig :=
    {| OCPChannel := ocpDefaultChannel;
       OCPVerMajor := majorVersion;
       OCPVer := version;
       IncludeOperators := Config.SaveImage_IncludeOperators (Save.Config s);
       OperatorCatalog := catalogImage;
       OperatorPackages := operatorPackages;
       AdditionalImages := Config.SaveImage_AdditionalImages (Save.Config s);
       WorkspacePath := JoinPath [Save.ClusterDir s; "mirror-workspace"] |} in
  let* tmplContent :=
    wrap "读取模板文件失败"
      (lift (templates_ReadFile "templates/imageset-config.yaml")) in
  let* tmpl :=
    wrap "解析模板失败" (lift (template_Parse "imageset" tmplContent)) in
  let* file := wrap "创建配置文件失败" (Create configPath) in
  let rendered := template_Execute tmpl imagesetConfig in
  run WriteAll file (fst rendered) in
  match snd rendered with
  | Some e => fail e
  | None => ret tt
  end.

(** [SaveImages] *)
Definition SaveImages (s : Save.Saver) : M unit :=
  let imagesDir := JoinPath [Save.ClusterDir s; imagesDirName] in
  run wrap "创建镜像目录失败" (MkdirAll imagesDir) in
  let* existing := checkExistingMirrorFiles imagesDir in
  if existing then ret tt
  else
    let imagesetConfigPath :=
      JoinPath [Save.ClusterDir s; imagesetConfigFilename] in
    run wrap "生成 ImageSet 配置文件失败"
          (generateImageSetConfig s imagesetConfigPath) in
    let workingDir := JoinPath [Save.ClusterDir s; "mirror-workspace"] in
    run wrap "创建工作目录失败" (MkdirAll workingDir) in
    run wrap "镜像保存失败"
          (invoke (CallTool "runMirrorToDisk" imagesetConfigPath imagesDir)
             (runMirrorToDisk imagesetConfigPath imagesDir workingDir)) in
    ret tt.

End WithEnv.

End SaveMirror.

(* ===================================================================== *)
(** ** Vocabulary of the statements *)
(* ===================================================================== *)

Import Go.

(** *** Operator name resolution *)

(** The record is named, or displayed as, [key]. *)
Definition hit (key : string) (op : Save.OperatorInfo) : Prop :=
  Save.Name op = key \/ Save.DisplayName op = key.

Definition noHit (key : string) (ops : list Save.OperatorInfo) : Prop :=
  Forall (fun o => ~ hit key o) ops.

(** [op] is the first record of [ops] that [key] hits. *)
Definition firstHit (key : string) (ops : list Save.OperatorInfo)
    (op : Save.OperatorInfo) : Prop :=
  exists before after,
    ops = before ++ op :: after /\ hit key op /\ noHit key before.

Definition substringOf (sub s : string) : Prop :=
  exists pre post, s = pre +:+ sub +:+ post.

Definition looseHit (key : string) (op : Save.OperatorInfo) : Prop :=
  substringOf key (Save.Name op) \/ substringOf key (Save.DisplayName op).

(** [cands] are the records of [ops] that contain [key], in the order of
    [ops], each as often as it occurs. *)
Inductive candidatesOf (key : string)
  : list Save.OperatorInfo -> list Save.OperatorInfo -> Prop :=
| cand_nil : candidatesOf key [] []
| cand_keep op ops cands :
    looseHit key op -> candidatesOf key ops cands ->
    candidatesOf key (op :: ops) (op :: cands)
| cand_skip op ops cands :
    ~ looseHit key op -> candidatesOf key ops cands ->
    candidatesOf key (op :: ops) cands.

(** The error of step 3 when several records contain the key. *)
Definition ambiguousError (key : string) (names : list string) : error :=
  ErrorsNew ("未找到 operator '" +:+ key +:+ "'，但找到了多个可能的匹配: "
             +:+ GoStrings.Join names ", ").

(** *** Mirror metadata *)




(** *** A cluster to try things on: the one of the README *)

Definition demoConfig : Config.ClusterConfig :=
  {| Config.ClusterInfo_Name := "my-cluster";
     Config.ClusterInfo_Domain := "example.com";
     Config.ClusterInfo_OpenShiftVersion := "4.14.0";
     Config.Bastion_IP := "192.168.1.10";
     Config.Registry_IP := "192.168.1.11";
     Config.Registry_RegistryUser := "admin";
     Config.Cluster_ControlPlane :=
       [ {| Config.Name := "master-0"; Config.IP := "192.168.1.21";
            Config.MAC := "52:54:00:12:34:56" |} ];
     Config.Cluster_Worker :=
       [ {| Config.Name := "worker-0"; Config.IP := "192.168.1.31";
            Config.MAC := "52:54:00:12:34:59" |} ];
     Config.Cluster_Network_MachineNetwork := "192.168.1.0/24";
     Config.Download_LocalPath := "downloads";
     Config.SaveImage_IncludeOperators := true;
     Config.SaveImage_OperatorCatalog := "";
     Config.SaveImage_Ops := ["cluster-logging"; "local-storage-operator"];
     Config.SaveImage_AdditionalImages := [] |}.

(** The same cluster with no control-plane host. *)
Definition headlessConfig : Config.ClusterConfig :=
  {| Config.ClusterInfo_Name := "my-cluster";
     Config.ClusterInfo_Domain := "example.com";
     Config.ClusterInfo_OpenShiftVersion := "4.14.0";
     Config.Bastion_IP := "192.168.1.10";
     Config.Registry_IP := "192.168.1.11";
     Config.Registry_RegistryUser := "admin";
     Config.Cluster_ControlPlane := [];
     Config.Cluster_Worker := [];
     Config.Cluster_Network_MachineNetwork := "192.168.1.0/24";
     Config.Download_LocalPath := "downloads";
     Config.SaveImage_IncludeOperators := false;
     Config.SaveImage_OperatorCatalog := "";
     Config.SaveImage_Ops := [];
     Config.SaveImage_AdditionalImages := [] |}.

Definition demoGenerator (cfg : Config.ClusterConfig) : Iso.ISOGenerator :=
  {| Iso.Config := cfg;
     Iso.ClusterName := "my-cluster";
     Iso.ProjectRoot := "/work";
     Iso.ClusterDir := "/work/my-cluster";
     Iso.DownloadDir := "/work/my-cluster/downloads" |}.

(** A pull secret that already has an entry for the cluster's registry. *)
Definition staleAuth : Iso.JSON :=
  Iso.JObject (<["auth" := Iso.JString "b2xkOm9sZA=="]>
                 (<["email" := Iso.JString "ops@example.com"]> ∅)).

Definition quayAuth : Iso.JSON :=
  Iso.JObject (<["auth" := Iso.JString "cXVheTpxdWF5"]> ∅).

Definition staleAuths : gmap string Iso.JSON :=
  <["registry.my-cluster.example.com:8443" := staleAuth]>
    (<["quay.io" := quayAuth]> ∅).

Definition stalePullSecret : gmap string Iso.JSON :=
  <["auths" := Iso.JObject staleAuths]> ∅.

(** A pull secret as Red Hat hands it out. *)
Definition freshAuths : gmap string Iso.JSON := <["quay.io" := quayAuth]> ∅.

Definition freshPullSecret : gmap string Iso.JSON :=
  <["auths" := Iso.JObject freshAuths]> ∅.

(** Two documents with three and two entries. *)
Definition rdm (source : string) (mirrors : list string)
  : Iso.RepositoryDigestMirror :=
  {| Iso.Source := source; Iso.Mirrors := mirrors |}.

Definition twoDocs : list Iso.ICSP :=
  [ {| Iso.RepositoryDigestMirrors :=
         [ rdm "quay.io/a" ["reg:8443/a"];
           rdm "quay.io/b" ["reg:8443/b"; "reg:8443/b2"];
           rdm "quay.io/a" ["reg:8443/a"] ] |};
    {| Iso.RepositoryDigestMirrors :=
         [ rdm "quay.io/c" ["reg:8443/c"];
           rdm "quay.io/d" [] ] |} ].

Definition twoDocsText : string :=
  "- mirrors:" +:+ Iso.nl +:+
  "  - reg:8443/a" +:+ Iso.nl +:+
  "  source: quay.io/a" +:+ Iso.nl +:+
  "- mirrors:" +:+ Iso.nl +:+
  "  - reg:8443/b" +:+ Iso.nl +:+
  "  - reg:8443/b2" +:+ Iso.nl +:+
  "  source: quay.io/b" +:+ Iso.nl +:+
  "- mirrors:" +:+ Iso.nl +:+
  "  - reg:8443/a" +:+ Iso.nl +:+
  "  source: quay.io/a" +:+ Iso.nl +:+
  "- mirrors:" +:+ Iso.nl +:+
  "  - reg:8443/c" +:+ Iso.nl +:+
  "  source: quay.io/c" +:+ Iso.nl +:+
  "- mirrors:" +:+ Iso.nl +:+
  "  - " +:+ Iso.nl +:+
  "  source: quay.io/d".

(** *** Test doubles for the collaborators *)

(** Modelled from the spec: [utils.ParseTimestamp] is in [pkg/utils], which
    is not among the sources; the spec has the suffix of a results
    directory parsed as a purely numeric timestamp, which is read here as
    a decimal [int64]. *)
Fixpoint digitsValue (s : string) (acc : Z) : option Z :=
  match s with
  | EmptyString => Some acc
  | String c rest =>
      let n := Z.of_nat (nat_of_ascii c) in
      if (48 <=? n) && (n <=? 57)
      then digitsValue rest (acc * 10 + (n - 48))
      else None
  end.

Definition parseTimestamp (s : string) : option Z :=
  if String.eqb s "" then None
  else match digitsValue s 0 with
       | Some v => if v <=? maxDuration then Some v else None
       | None => None
       end.

(** A line-based stand-in for the JSON codec of the operator records. *)
Definition encodeOp (op : CatalogNew.OperatorInfo) : string :=
  CatalogNew.Name op +:+ "|" +:+ CatalogNew.DisplayName op +:+ "|"
  +:+ CatalogNew.DefaultChannel op +:+ "|" +:+ CatalogNew.Version op +:+ "|"
  +:+ CatalogNew.Description op +:+ Iso.nl.

Definition encodeOps (ops : list CatalogNew.OperatorInfo) : string :=
  String.concat "" (List.map encodeOp ops).

Definition decodeOp (line : string) : option CatalogNew.OperatorInfo :=
  match GoStrings.SplitByte line "|" with
  | [n; d; c; v; t] =>
      Some {| CatalogNew.Name := n; CatalogNew.DisplayName := d;
              CatalogNew.DefaultChannel := c; CatalogNew.Version := v;
              CatalogNew.Description := t |}
  | _ => None
  end.

Fixpoint decodeLines (lines : list string) : option (list CatalogNew.OperatorInfo) :=
  match lines with
  | [] => Some []
  | [EmptyString] => Some []
  | line :: rest =>
      match decodeOp line, decodeLines rest with
      | Some op, Some ops => Some (op :: ops)
      | _, _ => None
      end
  end.

Definition decodeOps (text : string) : outcome (list CatalogNew.OperatorInfo) :=
  match decodeLines (GoStrings.SplitByte text "010") with
  | Some ops => Ok ops
  | None => Err (ErrorsNew "json: cannot unmarshal")
  end.

Definition pkg (name channel : string) : CatalogNew.Package :=
  {| CatalogNew.PkgName := name; CatalogNew.PkgDefaultChannel := channel;
     CatalogNew.PkgDescription := "" |}.

(** What the catalog query engine finds in the demo catalog. *)
Definition demoSchema : CatalogNew.CollectorSchema :=
  {| CatalogNew.AllImages := [];
     CatalogNew.CatalogToFBCMap :=
       [ ("registry.redhat.io/redhat/redhat-operator-index:v4.14",
          {| CatalogNew.DeclConfig :=
               Some [ pkg "cluster-logging-operator" "stable-6.0";
                      pkg "local-storage-operator" "stable" ] |}) ] |}.

Definition demoCatalogEnv : CatalogNew.Env :=
  {| CatalogNew.OperatorImageCollector :=
       fun catalog dir timeout fs =>
         (Ok demoSchema, <[dir +:+ "/index.json" := File "fbc" 0]> fs);
     CatalogNew.json_Encode := fun ops => Ok (encodeOps ops);
     CatalogNew.json_Decode := decodeOps |}.

Definition demoSaveEnv : Save.Env :=
  {| Save.catalogEnv := demoCatalogEnv;
     Save.utils_ExtractMajorVersion :=
       fun v => GoStrings.Join (firstn 2 (GoStrings.SplitByte v ".")) ".";
     Save.json_Marshal :=
       fun c => Ok (encodeOps
                      (List.map
                         (fun op =>
                            {| CatalogNew.Name := Save.Name op;
                               CatalogNew.DisplayName := Save.DisplayName op;
                               CatalogNew.DefaultChannel := Save.DefaultChannel op;
                               CatalogNew.Version := Save.Version op;
                               CatalogNew.Description := Save.Description op |})
                         (Save.Operators c)));
     Save.json_Unmarshal :=
       fun text =>
         match decodeOps text with
         | Ok ops =>
             Ok {| Save.UpdatedAt := 0; Save.Catalog := "";
                   Save.Count := Z.of_nat (length ops);
                   Save.Operators := List.map Save.fromCatalog ops |}
         | Err e => Err e
         | Panic p => Panic p
         end |}.

Definition copyDouble (src dst : string) (m : FS) : outcome unit * FS :=
  match m !! src with
  | Some n => (Ok tt, <[dst := n]> m)
  | None => (Err (PathError "open" src ENOENT), m)
  end.

Definition moveDouble (src dst : string) (m : FS) : outcome unit * FS :=
  match m !! src with
  | Some n => (Ok tt, <[dst := n]> (delete src m))
  | None => (Err (PathError "rename" src ENOENT), m)
  end.

Definition demoIsoEnv : Iso.Env :=
  {| Iso.config_ValidateConfig := fun _ => Ok tt;
     Iso.utils_ExtractNetworkBase :=
       fun cidr => CatalogNew.headOr "" (GoStrings.SplitByte cidr "/");
     Iso.utils_ExtractPrefixLength := fun _ => 24;
     Iso.utils_ExtractGateway := fun _ => "192.168.1.1";
     Iso.utils_ParseTimestamp := parseTimestamp;
     Iso.utils_CopyFile := copyDouble;
     Iso.utils_MoveFile := moveDouble;
     Iso.utils_CopyFileOrDir := copyDouble;
     Iso.Template := string;
     Iso.templates_ReadFile := fun path => Ok ("# " +:+ path +:+ Iso.nl);
     Iso.template_Parse := fun name funcs text => Ok text;
     Iso.template_Execute :=
       fun tmpl data =>
         match data with
         | Iso.InstallData d =>
             ([tmpl; "baseDomain: " +:+ Iso.BaseDomain d +:+ Iso.nl;
               "pullSecret: " +:+ Iso.PullSecret d +:+ Iso.nl], None)
         | Iso.AgentData d =>
             ([tmpl; "rendezvousIP: " +:+ Iso.RendezvousIP d +:+ Iso.nl;
               "dns: " +:+ GoStrings.Join (Iso.DNSServers d) "," +:+ Iso.nl],
              None)
         end;
     Iso.json_Unmarshal :=
       fun text =>
         if String.eqb text "fresh pull secret" then Ok freshPullSecret
         else if String.eqb text "stale pull secret" then Ok stalePullSecret
         else Err (ErrorsNew "invalid character");
     Iso.json_MarshalIndent :=
       fun m =>
         match m !! "auths" with
         | Some (Iso.JObject auths) =>
             Ok ("auths: "
                 +:+ GoStrings.Join (List.map fst (map_to_list auths)) ", ")
         | _ => Ok "{}"
         end;
     Iso.yaml_Decode :=
       fun text =>
         if String.eqb text "two documents" then (twoDocs, None)
         else ([], None);
     Iso.os_UserHomeDir := Ok "/root";
     Iso.installer :=
       fun binary dir m =>
         (Ok tt, <[dir +:+ "/agent.x86_64.iso" := File "iso image" 0]> m) |}.

(** *** Worlds to try things on *)

Definition worldOf (files : list (string * node)) (clock : Z) : World :=
  {| fs := list_to_map files; now := clock; seen := []; calls := [] |}.

(** A cluster directory after a mirroring run: [results-100] and
    [results-50] hold the policy file, [results-200] is empty. *)
Definition mirroredFiles : list (string * node) :=
  [ ("/work/my-cluster", Dir 0);
    ("/work/my-cluster/pull-secret.txt", File "fresh pull secret" 0);
    ("/work/my-cluster/downloads/bin/openshift-install", File "elf" 0);
    ("/work/my-cluster/oc-mirror-workspace", Dir 0);
    ("/work/my-cluster/oc-mirror-workspace/results-100", Dir 0);
    ("/work/my-cluster/oc-mirror-workspace/results-100/imageContentSourcePolicy.yaml",
     File "two documents" 0);
    ("/work/my-cluster/oc-mirror-workspace/results-50", Dir 0);
    ("/work/my-cluster/oc-mirror-workspace/results-50/imageContentSourcePolicy.yaml",
     File "old" 0);
    ("/work/my-cluster/oc-mirror-workspace/results-200", Dir 0) ].

Definition mirroredWorld : World := worldOf mirroredFiles 1000.

(** The same directory once the image has been built. *)
Definition builtWorld : World :=
  worldOf
    (("/work/my-cluster/installation/iso/my-cluster-agent.x86_64.iso",
      File "iso image" 900) :: mirroredFiles)
    1000.

(** A cluster directory with its [operators.json]. *)
Definition demoSaver : Save.Saver :=
  {| Save.Config := demoConfig;
     Save.ClusterName := "my-cluster";
     Save.ProjectRoot := "/work";
     Save.ClusterDir := "/work/my-cluster" |}.

Definition operatorsText : string :=
  "cluster-logging-operator|Red Hat OpenShift Logging|stable-6.0||" +:+ Iso.nl
  +:+ "logging-view-plugin|Logging UI|stable||" +:+ Iso.nl
  +:+ "local-storage-operator|Local Storage|stable||" +:+ Iso.nl
  +:+ "loki-operator|Loki Operator|stable-6.0||" +:+ Iso.nl.

Definition opRecord (name display channel : string) : Save.OperatorInfo :=
  {| Save.Name := name; Save.DisplayName := display;
     Save.DefaultChannel := channel; Save.Version := "";
     Save.Description := "" |}.

Definition opLogging : Save.OperatorInfo :=
  opRecord "cluster-logging-operator" "Red Hat OpenShift Logging" "stable-6.0".
Definition opPlugin : Save.OperatorInfo :=
  opRecord "logging-view-plugin" "Logging UI" "stable".
Definition opStorage : Save.OperatorInfo :=
  opRecord "local-storage-operator" "Local Storage" "stable".
Definition opLoki : Save.OperatorInfo :=
  opRecord "loki-operator" "Loki Operator" "stable-6.0".

Definition operatorsCache : Save.OperatorsCache :=
  {| Save.UpdatedAt := 0; Save.Catalog := ""; Save.Count := 4;
     Save.Operators := [opLogging; opPlugin; opStorage; opLoki] |}.

Definition savedWorld : World :=
  worldOf
    [ ("/work/my-cluster", Dir 0);
      ("/work/my-cluster/operators.json", File operatorsText 0) ]
    1000.

(** *** Results directories *)

Definition noResults : error := ErrorsNew "未找到有效的 results 目录".

(** An entry of the workspace listing is eligible, with time stamp [t],
    when it is a directory, its name carries the run prefix, it has at
    least one entry of its own, and the rest of its name parses to [t]. *)
Definition eligible {env : Iso.Env} (w : World) (workspaceDir : string)
    (entry : DirEntry) (t : Z) : Prop :=
  EntryIsDir entry = true
  /\ GoStrings.HasPrefix (EntryName entry) "results-" = true
  /\ (exists sub,
        fst (ReadDir (JoinPath [workspaceDir; EntryName entry]) w) = Ok sub
        /\ sub <> [])
  /\ Iso.utils_ParseTimestamp (GoStrings.TrimPrefix (EntryName entry) "results-")
     = Some t.

(** The time stamp of an entry, if it is eligible. *)
Definition stampOf {env : Iso.Env} (w : World) (workspaceDir : string)
    (entry : DirEntry) : option Z :=
  if negb (EntryIsDir entry)
     || negb (GoStrings.HasPrefix (EntryName entry) "results-")
  then None
  else match fst (ReadDir (JoinPath [workspaceDir; EntryName entry]) w) with
       | Ok (_ :: _) =>
           Iso.utils_ParseTimestamp
             (GoStrings.TrimPrefix (EntryName entry) "results-")
       | _ => None
       end.

Definition resultsEntry (name : string) : DirEntry :=
  {| EntryName := name; EntryIsDir := true |}.

(** A workspace whose only run is stamped zero. *)
Definition epochWorld : World :=
  worldOf
    [ ("/ws", Dir 0);
      ("/ws/results-0", Dir 0);
      ("/ws/results-0/imageContentSourcePolicy.yaml", File "two documents" 0) ]
    1000.

Definition keepOptions : Iso.GenerateOptions :=
  {| Iso.OutputPath := ""; Iso.BaseISOPath := ""; Iso.SkipVerify := false;
     Iso.Force := false |}.

Definition forceOptions : Iso.GenerateOptions :=
  {| Iso.OutputPath := ""; Iso.BaseISOPath := ""; Iso.SkipVerify := false;
     Iso.Force := true |}.

(** *** Writes and what a reader can observe *)

(** The file-system states that became visible on the way from [w] to
    [w']: a process stopped on the way leaves one of them (or the state of
    [w]) behind. *)
Definition visibleBetween (w w' : World) (s : FS) : Prop :=
  exists new, seen w' = new ++ seen w /\ In s new.

(** The write-temp-then-rename discipline, as a program: the text goes to
    [target + ".tmp"], which is renamed over [target]; a failure on the way
    removes the temporary file. [renameOver] is what happens once the
    temporary file is open. *)
Definition renameOver (target : string) (encoded : outcome string)
    (encodeMsg renameMsg : string) (file : string) : M unit :=
  let tmp := target +:+ ".tmp" in
  try (let* text := lift encoded in Write file text)
    (fun r =>
       match r with
       | inr e => try (Remove tmp) (fun _ => fail (Errorf encodeMsg e))
       | inl _ =>
           try (Rename tmp target)
             (fun r =>
                match r with
                | inr e => try (Remove tmp) (fun _ => fail (Errorf renameMsg e))
                | inl _ => ret tt
                end)
       end).

Definition tempThenRename (target : string) (encoded : outcome string)
    (createMsg encodeMsg renameMsg : string) : M unit :=
  let* file := wrap createMsg (Create (target +:+ ".tmp")) in
  renameOver target encoded encodeMsg renameMsg file.

(** *** The catalog cache *)

(** The cache file is there and was last written less than 24 hours
    before now. *)
Definition cacheFresh (cm : CatalogNew.CatalogManagerNew) (w : World) : Prop :=
  exists n,
    fs w !! CatalogNew.CacheFile cm = Some n
    /\ now w - ModTime (infoOf n) < 24 * Hour.



Definition demoManager : CatalogNew.CatalogManagerNew :=
  CatalogNew.NewCatalogManagerNew
    "registry.redhat.io/redhat/redhat-operator-index:v4.14"
    "/work/my-cluster/catalogs/cache" "/work/my-cluster/catalogs/working".

Definition demoCacheFile : string :=
  "/work/my-cluster/catalogs/cache/registry.redhat.io_redhat_redhat-operator-index_v4.14_new.json".

Definition cachedOp : CatalogNew.OperatorInfo :=
  {| CatalogNew.Name := "web-terminal"; CatalogNew.DisplayName := "Web Terminal";
     CatalogNew.DefaultChannel := "fast"; CatalogNew.Version := "";
     CatalogNew.Description := "" |}.

Definition fetchedOps : list CatalogNew.OperatorInfo :=
  [ {| CatalogNew.Name := "cluster-logging-operator";
       CatalogNew.DisplayName := "cluster-logging-operator";
       CatalogNew.DefaultChannel := "stable-6.0"; CatalogNew.Version := "";
       CatalogNew.Description := "" |};
    {| CatalogNew.Name := "local-storage-operator";
       CatalogNew.DisplayName := "local-storage-operator";
       CatalogNew.DefaultChannel := "stable"; CatalogNew.Version := "";
       CatalogNew.Description := "" |} ].

Definition day : Z := 24 * Hour.

(** The cache as it is [age] after it was written. *)
Definition cachedWorld (age : Z) : World :=
  worldOf
    [ ("/work/my-cluster/catalogs/cache", Dir 0);
      (demoCacheFile, File (encodeOps [cachedOp]) (10 * day - age)) ]
    (10 * day).

(** The pieces written to a file, one after the other. *)
Fixpoint pieces (chunks : list string) : string :=
  match chunks with
  | [] => ""
  | c :: rest => c +:+ pieces rest
  end.

Definition demoMergedAuthPath : string :=
  "/work/my-cluster/registry/merged-auth.json".

Definition demoAgentConfigPath : string :=
  "/work/my-cluster/installation/agent-config.yaml".

Definition demoAgentConfigText : string :=
  "# templates/agent-config.yaml" +:+ Iso.nl
  +:+ "rendezvousIP: 192.168.1.21" +:+ Iso.nl
  +:+ "dns: 192.168.1.10" +:+ Iso.nl.

(* ===================================================================== *)
(** ** More vocabulary: lines, hosts, paths *)
(* ===================================================================== *)

(** The byte [c] occurs in [s]. *)
Fixpoint hasByte (c : ascii) (s : string) : bool :=
  match s with
  | EmptyString => false
  | String d rest => Ascii.eqb d c || hasByte c rest
  end.

(** What [indent] does to one line. *)
Definition indentLine (spaces : nat) (line : string) : string :=
  if String.eqb line "" then "" else GoStrings.Repeat " " spaces +:+ line.

(** The agent data of the demo cluster, with no host listed. *)
Definition demoAgentData : Iso.AgentConfigData :=
  {| Iso.AgentClusterName := "my-cluster";
     Iso.RendezvousIP := "192.168.1.21";
     Iso.Hosts := [];
     Iso.Port0 := "ens3";
     Iso.PrefixLength := 24;
     Iso.NextHopAddress := "192.168.1.1";
     Iso.DNSServers := ["192.168.1.10"] |}.

(** What the caller keeps of an optional input: its value, or the zero
    string when it could not be had. *)
Definition valueOrEmpty (r : outcome string) : string :=
  match r with
  | Ok v => v
  | _ => ""
  end.

(** A step that only looks: run from [w] it leaves [w] as it is and does
    not panic. *)
Definition quiet {A} (m : M A) (w : World) : Prop :=
  snd (m w) = w /\ forall p, fst (m w) <> Panic p.



(** The mirroring flow on the demo cluster: a template of one line, and a
    mirror engine that leaves one archive in the images directory. *)
Definition demoMirrorEnv : SaveMirror.Env :=
  {| SaveMirror.saveEnv := demoSaveEnv;
     SaveMirror.Template := string;
     SaveMirror.templates_ReadFile := fun path => Ok ("# " +:+ path +:+ Iso.nl);
     SaveMirror.template_Parse := fun name text => Ok text;
     SaveMirror.template_Execute :=
       fun tmpl cfg =>
         ([tmpl;
           "packages: "
           +:+ GoStrings.Join
                 (List.map (fun p => SaveMirror.Name p +:+ "@" +:+ SaveMirror.Channel p)
                    (SaveMirror.OperatorPackages cfg)) ","
           +:+ Iso.nl], None);
     SaveMirror.runMirrorToDisk :=
       fun configPath imagesDir workingDir m =>
         (Ok tt, <[imagesDir +:+ "/mirror_seq1_000000.tar" := File "tar" 0]> m) |}.

(** The demo cluster after a mirroring run. *)
Definition archivedWorld : World :=
  worldOf
    [ ("/work/my-cluster", Dir 0);
      ("/work/my-cluster/images", Dir 0);
      ("/work/my-cluster/images/mirror_seq1_000000.tar", File "tar" 0);
      ("/work/my-cluster/images/working-dir", Dir 0) ]
    1000.

(** The package entry of a configured operator: its name as configured,
    and the default channel of the record it resolves to, if any. *)
Definition packageOf (operators : list Save.OperatorInfo) (opName : string)
  : SaveMirror.OperatorPackage :=
  {| SaveMirror.Name := opName;
     SaveMirror.Channel :=
       match Save.resolve opName operators with
       | Ok opInfo => Save.DefaultChannel opInfo
       | _ => ""
       end |}.

(** *** More worlds to try things on *)

Definition emptyWorld : World := worldOf [] 0.

(** A cluster directory whose registry certificate sits directly in the
    registry directory. *)
Definition certWorld : World :=
  worldOf [ ("/work/my-cluster/registry/rootCA.pem", File "PEM" 0) ] 0.

(** A cluster directory where the credentials have been merged before. *)
Definition mergedWorld : World :=
  worldOf
    [ ("/work/my-cluster/pull-secret.txt", File "fresh pull secret" 0);
      ("/work/my-cluster/registry/merged-auth.json",
       File ("  merged secret" +:+ Iso.nl) 0) ]
    0.

(** A cluster directory with a directory in the place of the record
    file. *)
Definition misplacedRecordsWorld : World :=
  worldOf [ ("/work/my-cluster/operators.json", Dir 0) ] 0.

(** *** Where a write can succeed *)

(** The directory that [path] is to be created in is there. *)
Definition parentIsDir (w : World) (path : string) : Prop :=
  exists t, fs w !! DirOf path = Some (Dir t).

(** Only bytes below 0x80. *)
Fixpoint isASCII (s : string) : bool :=
  match s with
  | EmptyString => true
  | String c rest => (nat_of_ascii c <? 128)%nat && isASCII rest
  end.

(** The mirrored cluster directory once the installation directories
    have been made. *)
Definition preparedWorld : World :=
  worldOf
    ([ ("/work", Dir 0);
       ("/work/my-cluster/installation", Dir 0);
       ("/work/my-cluster/installation/ignition", Dir 0);
       ("/work/my-cluster/installation/iso", Dir 0) ] ++ mirroredFiles)
    1000.

(** The same with an agent configuration left by an earlier run. *)
Definition renderedWorld : World :=
  worldOf
    ([ ("/work", Dir 0);
       ("/work/my-cluster/installation", Dir 0);
       ("/work/my-cluster/installation/ignition", Dir 0);
       ("/work/my-cluster/installation/iso", Dir 0);
       ("/work/my-cluster/installation/agent-config.yaml",
        File "left by an earlier run" 900) ] ++ mirroredFiles)
    1000.

(** A cluster directory where a regular file stands in the place of the
    download directory. *)
Definition strayFileWorld : World :=
  worldOf
    [ ("/work/my-cluster", Dir 0);
      ("/work/my-cluster/downloads", File "" 0);
      ("/work/my-cluster/pull-secret.txt", File "fresh pull secret" 0) ]
    0.

(** A regular file in the place of the cluster directory itself. *)
Definition noClusterDirWorld : World :=
  worldOf [ ("/work", Dir 0); ("/work/my-cluster", File "" 0) ] 0.
(* ===================================================================== *)
(** ** Running the steps of a call *)
(* ===================================================================== *)

Lemma bind_ok {A B} (m : M A) (k : A -> M B) (w w1 : World) (a : A) :
  m w = (Ok a, w1) -> bind m k w = k a w1.
Proof. intros H. unfold bind. now rewrite H. Qed.

Lemma bind_err {A B} (m : M A) (k : A -> M B) (w w1 : World) (e : error) :
  m w = (Err e, w1) -> bind m k w = (Err e, w1).
Proof. intros H. unfold bind. now rewrite H. Qed.

Lemma wrap_ok {A} (msg : string) (m : M A) (w w1 : World) (a : A) :
  m w = (Ok a, w1) -> wrap msg m w = (Ok a, w1).
Proof. intros H. unfold wrap. now rewrite H. Qed.

Lemma wrap_err {A} (msg : string) (m : M A) (w w1 : World) (e : error) :
  m w = (Err e, w1) -> wrap msg m w = (Err (Errorf msg e), w1).
Proof. intros H. unfold wrap. now rewrite H. Qed.

Lemma Stat_run (path : string) (w : World) :
  Stat path w
  = (match fs w !! path with
     | Some n => Ok (infoOf n)
     | None =>
         Err (PathError "stat" path
                (if blocked (fs w) path then ENOTDIR else ENOENT))
     end, w).
Proof. unfold Stat. destruct (fs w !! path); reflexivity. Qed.

Lemma ReadFile_pure (path : string) (w : World) : snd (ReadFile path w) = w.
Proof. unfold ReadFile. destruct (fs w !! path) as [[c t|t]|]; reflexivity. Qed.

Lemma ReadFile_file (path : string) (w : World) (c : string) (t : Z) :
  fs w !! path = Some (File c t) -> ReadFile path w = (Ok c, w).
Proof. intros H. unfold ReadFile. now rewrite H. Qed.

Lemma ReadFile_not_file (path : string) (w : World) :
  (forall c t, fs w !! path <> Some (File c t)) ->
  exists e, ReadFile path w = (Err e, w).
Proof.
  intros H. unfold ReadFile. destruct (fs w !! path) as [[c t|t]|] eqn:E.
  - exfalso. now apply (H c t).
  - eexists. reflexivity.
  - eexists. reflexivity.
Qed.


(* ===================================================================== *)
(** ** Operator name resolution ([pkg/save]) *)
(* ===================================================================== *)

Section Resolve.

Lemma prefix_app (sub s : string) :
  String.prefix sub s = true <-> exists post, s = sub +:+ post.
Proof.
  revert s. induction sub as [|c sub IH]; intros s.
  - split; [intros _; exists s; reflexivity | intros _; now destruct s].
  - destruct s as [|d s]; simpl.
    + split; [discriminate | intros [post H]; discriminate].
    + destruct (ascii_dec c d) as [->|Hne].
      * rewrite IH. split; intros [post H]; exists post.
        -- now rewrite H.
        -- now inversion H.
      * split; [discriminate | intros [post H]; inversion H; congruence].
Qed.

Lemma Contains_substringOf (s sub : string) :
  GoStrings.Contains s sub = true <-> substringOf sub s.
Proof.
  induction s as [|c s IH]; cbn -[String.prefix].
  - rewrite orb_false_r, prefix_app. split.
    + intros [post H]. exists "", post. exact H.
    + intros [pre [post H]]. destruct pre; [|discriminate].
      exists post. exact H.
  - rewrite orb_true_iff, prefix_app, IH. split.
    + intros [[post H]|[pre [post H]]].
      * exists "", post. exact H.
      * exists (String c pre), post. simpl. now rewrite H.
    + intros [pre [post H]]. destruct pre as [|d pre].
      * left. exists post. exact H.
      * right. simpl in H. inversion H. exists pre, post. reflexivity.
Qed.

Lemma matches_hit (key : string) (op : Save.OperatorInfo) :
  Save.matches key op = true <-> hit key op.
Proof.
  unfold Save.matches, hit.
  rewrite orb_true_iff, !String.eqb_eq. reflexivity.
Qed.

Lemma contains_looseHit (key : string) (op : Save.OperatorInfo) :
  Save.contains key op = true <-> looseHit key op.
Proof.
  unfold Save.contains, looseHit.
  rewrite orb_true_iff, !Contains_substringOf. reflexivity.
Qed.

Lemma firstMatch_noHit (key : string) (ops : list Save.OperatorInfo) :
  noHit key ops -> Save.firstMatch key ops = None.
Proof.
  induction 1 as [|op ops Hop _ IH]; simpl; [reflexivity|].
  destruct (Save.matches key op) eqn:E; [|exact IH].
  apply matches_hit in E. contradiction.
Qed.

Lemma firstMatch_firstHit (key : string) (ops : list Save.OperatorInfo)
    (op : Save.OperatorInfo) :
  firstHit key ops op -> Save.firstMatch key ops = Some op.
Proof.
  intros (before & after & -> & Hhit & Hno).
  induction Hno as [|o before Ho _ IH]; simpl.
  - apply matches_hit in Hhit. now rewrite Hhit.
  - destruct (Save.matches key o) eqn:E; [|exact IH].
    apply matches_hit in E. contradiction.
Qed.

Lemma collectCandidates_spec (key : string)
    (ops cands acc : list Save.OperatorInfo) :
  candidatesOf key ops cands ->
  Save.collectCandidates key ops acc = acc ++ cands.
Proof.
  intros H. revert acc.
  induction H as [|op ops cands Hop _ IH|op ops cands Hop _ IH];
    intros acc; simpl.
  - now rewrite app_nil_r.
  - apply contains_looseHit in Hop. rewrite Hop, IH, <- app_assoc. reflexivity.
  - destruct (Save.contains key op) eqn:E.
    + apply contains_looseHit in E. contradiction.
    + apply IH.
Qed.

(** Every record list has its candidates. *)
Lemma candidatesOf_total (key : string) (ops : list Save.OperatorInfo) :
  candidatesOf key ops (Save.collectCandidates key ops []).
Proof.
  assert (G : exists cands, candidatesOf key ops cands).
  { induction ops as [|op ops [cands IH]].
    - exists []. constructor.
    - destruct (Save.contains key op) eqn:E.
      + exists (op :: cands). constructor; [now apply contains_looseHit | exact IH].
      + exists cands. apply cand_skip; [|exact IH].
        intros H. apply contains_looseHit in H. congruence. }
  destruct G as [cands H].
  now rewrite (collectCandidates_spec _ _ _ [] H).
Qed.

(** Steps 1 to 3 on the decoded records. *)
Lemma resolve_tiers (key : string) (ops : list Save.OperatorInfo) :
  (forall op, firstHit key ops op -> Save.resolve key ops = Ok op)
  /\ (forall alias op,
        noHit key ops -> Save.aliasMap !! key = Some alias ->
        firstHit alias ops op -> Save.resolve key ops = Ok op)
  /\ (forall cands,
        noHit key ops ->
        (forall alias, Save.aliasMap !! key = Some alias -> noHit alias ops) ->
        candidatesOf key ops cands ->
        (forall op, cands = [op] -> Save.resolve key ops = Ok op)
        /\ ((2 <= length cands)%nat ->
            Save.resolve key ops
            = Err (ambiguousError key (List.map Save.Name cands)))
        /\ (cands = [] -> exists msg, Save.resolve key ops = Err (ErrorsNew msg))).
Proof.
  unfold Save.resolve. repeat split.
  - intros op H. now rewrite (firstMatch_firstHit _ _ _ H).
  - intros alias op Hno Halias H.
    rewrite (firstMatch_noHit _ _ Hno), Halias.
    now rewrite (firstMatch_firstHit _ _ _ H).
  - intros op ->. rewrite (firstMatch_noHit _ _ H).
    destruct (Save.aliasMap !! key) as [alias|] eqn:Ha.
    + rewrite (firstMatch_noHit _ _ (H0 alias eq_refl)).
      now rewrite (collectCandidates_spec _ _ _ [] H1).
    + now rewrite (collectCandidates_spec _ _ _ [] H1).
  - intros Hlen. rewrite (firstMatch_noHit _ _ H).
    assert (E : Save.collectCandidates key ops [] = cands)
      by now rewrite (collectCandidates_spec _ _ _ [] H1).
    destruct (Save.aliasMap !! key) as [alias|] eqn:Ha;
      [rewrite (firstMatch_noHit _ _ (H0 alias eq_refl))|];
      rewrite E; destruct cands as [|c1 [|c2 cands]]; simpl in Hlen; try lia;
      reflexivity.
  - intros ->. rewrite (firstMatch_noHit _ _ H).
    assert (E : Save.collectCandidates key ops [] = [])
      by now rewrite (collectCandidates_spec _ _ _ [] H1).
    destruct (Save.aliasMap !! key) as [alias|] eqn:Ha;
      [rewrite (firstMatch_noHit _ _ (H0 alias eq_refl))|];
      rewrite E; destruct (0 <? _)%nat; eexists; reflexivity.
Qed.

End Resolve.

(* ===================================================================== *)
(** ** Byte strings *)
(* ===================================================================== *)

Lemma append_nil_r (s : string) : s +:+ "" = s.
Proof.
  induction s as [|c s IH]; [reflexivity|].
  change (String c (s +:+ "") = String c s). now rewrite IH.
Qed.

Lemma append_assoc (a b c : string) : (a +:+ b) +:+ c = a +:+ (b +:+ c).
Proof.
  induction a as [|x a IH]; [reflexivity|].
  change (String x ((a +:+ b) +:+ c) = String x (a +:+ (b +:+ c))).
  now rewrite IH.
Qed.


(* ===================================================================== *)
(** ** The agent configuration data ([generateAgentConfig]) *)
(* ===================================================================== *)

Section AgentConfig.
Context {env : Iso.Env}.

Lemma agentConfigData_ok (cfg : Config.ClusterConfig) (first : Config.Node)
    (others : list Config.Node) :
  Config.Cluster_ControlPlane cfg = first :: others ->
  exists data,
    Iso.agentConfigData Iso.utils_ExtractPrefixLength Iso.utils_ExtractGateway cfg
    = Ok data
    /\ Iso.RendezvousIP data = Config.IP first
    /\ Iso.DNSServers data = [Config.Bastion_IP cfg]
    /\ Iso.Hosts data
       = List.map Iso.masterHost (Config.Cluster_ControlPlane cfg)
         ++ List.map Iso.workerHost (Config.Cluster_Worker cfg).
Proof.
  intros H. unfold Iso.agentConfigData. rewrite H.
  eexists. split; [reflexivity|]. simpl. auto.
Qed.

End AgentConfig.

(** C1, as the code has it: for every configuration with a control-plane
    host, the data handed to the agent configuration template has a
    name-server list of exactly one element, the address of the bastion
    host. *)
Theorem agent_dns_is_bastion (env : Iso.Env) (cfg : Config.ClusterConfig) :
  Config.Cluster_ControlPlane cfg <> [] ->
  exists data,
    Iso.agentConfigData Iso.utils_ExtractPrefixLength Iso.utils_ExtractGateway cfg
    = Ok data
    /\ Iso.DNSServers data = [Config.Bastion_IP cfg].
Proof.
  intros Hne.
  destruct (Config.Cluster_ControlPlane cfg) as [|first others] eqn:E;
    [contradiction|].
  destruct (agentConfigData_ok cfg first others E) as (data & Hd & _ & Hdns & _).
  exists data. split; assumption.
Qed.

Lemma agent_dns_is_bastion_witness :
  exists data,
    Iso.agentConfigData (@Iso.utils_ExtractPrefixLength demoIsoEnv)
      (@Iso.utils_ExtractGateway demoIsoEnv) demoConfig = Ok data
    /\ Iso.DNSServers data = ["192.168.1.10"].
Proof.
  apply (agent_dns_is_bastion demoIsoEnv demoConfig). simpl. discriminate.
Defined.

(** C1 as the specification words it fails on the README's cluster: the
    registry host is at 192.168.1.11, the list holds 192.168.1.10. *)
Lemma agent_dns_not_registry :
  exists data,
    Iso.agentConfigData (@Iso.utils_ExtractPrefixLength demoIsoEnv)
      (@Iso.utils_ExtractGateway demoIsoEnv) demoConfig = Ok data
    /\ Iso.DNSServers data <> [Config.Registry_IP demoConfig]
    /\ Iso.DNSServers data <> [Iso.registryHostname demoConfig].
Proof.
  eexists. split; [reflexivity|]. split; simpl; discriminate.
Qed.

(** C10: with no control-plane host [generateAgentConfig] panics on the
    index, before anything is written, and returns no error; with one, the
    rendezvous address is the first control-plane host's and the data goes
    to the template. *)
Theorem agent_config_needs_control_plane (env : Iso.Env)
    (g : Iso.ISOGenerator) (installDir : string) (w : World) :
  (Config.Cluster_ControlPlane (Iso.Config g) = [] ->
   Iso.generateAgentConfig g installDir w
   = (Panic "runtime error: index out of range [0] with length 0", w))
  /\ (forall first others,
        Config.Cluster_ControlPlane (Iso.Config g) = first :: others ->
        exists data,
          Iso.agentConfigData Iso.utils_ExtractPrefixLength
            Iso.utils_ExtractGateway (Iso.Config g) = Ok data
          /\ Iso.RendezvousIP data = Config.IP first
          /\ Iso.generateAgentConfig g installDir w
             = Iso.executeTemplate "templates/agent-config.yaml"
                 (JoinPath [installDir; Iso.agentConfigFilename])
                 (Iso.AgentData data) None w).
Proof.
  split.
  - intros H. unfold Iso.generateAgentConfig, Iso.agentConfigData, bind, lift.
    rewrite H. reflexivity.
  - intros first others H.
    destruct (agentConfigData_ok (Iso.Config g) first others H)
      as (data & Hd & Hr & _).
    exists data. repeat split; try assumption.
    unfold Iso.generateAgentConfig, bind, lift. rewrite Hd. reflexivity.
Qed.

Lemma agent_config_needs_control_plane_witness :
  Iso.generateAgentConfig (env := demoIsoEnv) (demoGenerator headlessConfig)
    "/work/my-cluster/installation" mirroredWorld
  = (Panic "runtime error: index out of range [0] with length 0", mirroredWorld)
  /\ exists data,
       Iso.agentConfigData (@Iso.utils_ExtractPrefixLength demoIsoEnv)
         (@Iso.utils_ExtractGateway demoIsoEnv) demoConfig = Ok data
       /\ Iso.RendezvousIP data = "192.168.1.21".
Proof.
  split.
  - apply (agent_config_needs_control_plane demoIsoEnv
             (demoGenerator headlessConfig)). reflexivity.
  - destruct (proj2 (agent_config_needs_control_plane demoIsoEnv
                       (demoGenerator demoConfig)
                       "/work/my-cluster/installation" mirroredWorld)
                {| Config.Name := "master-0"; Config.IP := "192.168.1.21";
                   Config.MAC := "52:54:00:12:34:56" |} [] eq_refl)
      as (data & Hd & Hr & _).
    exists data. split; assumption.
Defined.

(* ===================================================================== *)
(** ** Mirror metadata ([findAndParseICSP]) *)
(* ===================================================================== *)







Example mirrored_cluster_blocks :
  fst (Iso.findAndParseICSP (env := demoIsoEnv) (demoGenerator demoConfig)
         mirroredWorld) = Ok twoDocsText.
Proof. vm_compute. reflexivity. Qed.


(* ===================================================================== *)
(** ** The file system primitives *)
(* ===================================================================== *)

Lemma WriteFile_ok (path data : string) (w : World) :
  (forall t, fs w !! path <> Some (Dir t)) ->
  WriteFile path data w
  = (Ok tt,
     {| fs := <[path := File data (now w)]> (<[path := File "" (now w)]> (fs w));
        now := now w;
        seen := <[path := File data (now w)]> (<[path := File "" (now w)]> (fs w))
                :: <[path := File "" (now w)]> (fs w) :: seen w;
        calls := calls w |}).
Proof.
  intros Hnd. unfold WriteFile, bind, Create.
  destruct (fs w !! path) as [[c t|t]|] eqn:E;
    try (exfalso; now apply (Hnd t));
    unfold Write, commit; simpl; rewrite lookup_insert_eq; reflexivity.
Qed.

Lemma MkdirAll_ok (path : string) (w w' : World) :
  MkdirAll path w = (Ok tt, w') ->
  now w' = now w /\ calls w' = calls w
  /\ (forall p, p <> path -> fs w' !! p = fs w !! p).
Proof.
  unfold MkdirAll. destruct (fs w !! path) as [[c t|t]|] eqn:E; intros H;
    inversion H; subst; clear H; simpl; repeat split; try reflexivity.
  intros p Hp. now rewrite lookup_insert_ne.
Qed.

(* ===================================================================== *)
(** ** The merged credentials ([createMergedAuthConfig]) *)
(* ===================================================================== *)

Lemma join_nonempty (a b : string) :
  b <> "" -> JoinPath [a; b] <> "".
Proof.
  intros Hb. unfold JoinPath. simpl.
  destruct a as [|c a]; simpl.
  - destruct b as [|d b]; [contradiction|]. simpl. discriminate.
  - destruct b as [|d b]; [contradiction|]. simpl. discriminate.
Qed.

(** C9, as the code has it: the registry's entry is stored under the
    registry's [host:8443] key, every entry under another key is kept as it
    was, and so is every other top-level field; the key set grows by that
    one key, by one entry when the key was not there. The file that is
    written holds this merged object. *)
Theorem merged_auths_entry (env : Iso.Env) (g : Iso.ISOGenerator) (w : World)
    (text : string) (t : Z) (data auths : gmap string Iso.JSON) :
  fs w !! JoinPath [Iso.ClusterDir g; Iso.pullSecretFilename]
  = Some (File text t) ->
  Iso.json_Unmarshal text = Ok data ->
  data !! "auths" = Some (Iso.JObject auths) ->
  exists auths' merged,
    Iso.mergeAuths (Iso.Config g) data = Some merged
    /\ merged !! "auths" = Some (Iso.JObject auths')
    /\ (forall k, k <> "auths" -> merged !! k = data !! k)
    /\ auths' !! Iso.registryURL (Iso.Config g)
       = Some (Iso.registryAuth (Iso.Config g))
    /\ (forall k, k <> Iso.registryURL (Iso.Config g) ->
                  auths' !! k = auths !! k)
    /\ dom auths' = {[ Iso.registryURL (Iso.Config g) ]} ∪ dom auths
    /\ (auths !! Iso.registryURL (Iso.Config g) = None ->
        size auths' = S (size auths))
    /\ (forall w',
          Iso.createMergedAuthConfig g w = (Ok tt, w') ->
          exists out,
            Iso.json_MarshalIndent merged = Ok out
            /\ fs w' !! JoinPath [JoinPath [Iso.ClusterDir g; Iso.registryDirName];
                                  Iso.mergedAuthFilename]
               = Some (File out (now w))).
Proof.
  intros Hfile Hjson Hauths.
  exists (<[Iso.registryURL (Iso.Config g) := Iso.registryAuth (Iso.Config g)]> auths).
  eexists. split.
  { unfold Iso.mergeAuths. rewrite Hauths. reflexivity. }
  split; [apply lookup_insert_eq|].
  split; [intros k Hk; now apply lookup_insert_ne|].
  split; [apply lookup_insert_eq|].
  split; [intros k Hk; now apply lookup_insert_ne|].
  split; [apply dom_insert_L|].
  split; [intros Hnew; now apply map_size_insert_None|].
  intros w'. unfold Iso.createMergedAuthConfig.
  unfold bind at 1. unfold wrap at 1. unfold ReadFile. rewrite Hfile.
  unfold bind at 1. unfold wrap at 1. unfold lift at 1. rewrite Hjson.
  unfold Iso.mergeAuths. rewrite Hauths.
  unfold bind at 1. unfold wrap at 1. unfold lift at 1.
  destruct (Iso.json_MarshalIndent _) as [out|e|p] eqn:Hout;
    try discriminate.
  unfold bind at 1. unfold wrap at 1.
  destruct (MkdirAll _ w) as [[[]|e|p] w1] eqn:Hmk; try discriminate.
  apply MkdirAll_ok in Hmk. destruct Hmk as (Hnow & _ & _).
  unfold wrap.
  set (target := JoinPath [JoinPath [Iso.ClusterDir g; Iso.registryDirName];
                           Iso.mergedAuthFilename]).
  destruct (fs w1 !! target) as [[c1 t1|t1]|] eqn:Ht.
  - rewrite WriteFile_ok by (intros t2; rewrite Ht; discriminate).
    intros H. inversion H; subst; clear H. exists out. split; [reflexivity|].
    simpl. rewrite lookup_insert_eq, Hnow. reflexivity.
  - unfold WriteFile, bind, Create. rewrite Ht. discriminate.
  - rewrite WriteFile_ok by (intros t2; rewrite Ht; discriminate).
    intros H. inversion H; subst; clear H. exists out. split; [reflexivity|].
    simpl. rewrite lookup_insert_eq, Hnow. reflexivity.
Qed.

Lemma merged_auths_entry_witness :
  exists auths' merged,
    Iso.mergeAuths demoConfig freshPullSecret = Some merged
    /\ merged !! "auths" = Some (Iso.JObject auths')
    /\ auths' !! "registry.my-cluster.example.com:8443"
       = Some (Iso.registryAuth demoConfig)
    /\ auths' !! "quay.io" = Some quayAuth
    /\ size auths' = 2%nat.
Proof.
  destruct (merged_auths_entry demoIsoEnv (demoGenerator demoConfig)
              mirroredWorld "fresh pull secret" 0 freshPullSecret freshAuths)
    as (auths' & merged & Hm & Ha & _ & Hreg & Hkeep & _ & Hsize & _).
  - vm_compute. reflexivity.
  - reflexivity.
  - vm_compute. reflexivity.
  - exists auths', merged. split; [exact Hm|]. split; [exact Ha|].
    split; [exact Hreg|]. split.
    + rewrite Hkeep; [vm_compute; reflexivity | discriminate].
    + rewrite Hsize; [reflexivity | vm_compute; reflexivity].
Defined.

(** C9 as the specification words it fails on a pull secret that already
    has an entry under the registry's key: that entry is replaced, and no
    entry is added. *)
Lemma merge_replaces_existing_entry :
  stalePullSecret !! "auths" = Some (Iso.JObject staleAuths)
  /\ staleAuths !! Iso.registryURL demoConfig = Some staleAuth
  /\ exists auths',
       Iso.mergeAuths demoConfig stalePullSecret
       = Some (<["auths" := Iso.JObject auths']> stalePullSecret)
       /\ auths' !! Iso.registryURL demoConfig <> Some staleAuth
       /\ size auths' = size staleAuths.
Proof.
  split; [vm_compute; reflexivity|]. split; [vm_compute; reflexivity|].
  exists (<[Iso.registryURL demoConfig := Iso.registryAuth demoConfig]> staleAuths).
  split; [reflexivity|]. split.
  - rewrite lookup_insert_eq. intros H.
    apply (f_equal (fun j => match j with
                             | Some (Iso.JObject m) => m !! "auth"
                             | _ => None
                             end)) in H.
    vm_compute in H. discriminate.
  - vm_compute. reflexivity.
Qed.

(* ===================================================================== *)
(** ** [getOperatorDefaultChannel] on a cached record set *)
(* ===================================================================== *)

Lemma getOperatorDefaultChannel_cached (env : Save.Env) (s : Save.Saver)
    (key : string) (w : World) (text : string) (t : Z)
    (cache : Save.OperatorsCache) :
  fs w !! JoinPath [Save.ClusterDir s; Save.operatorsJsonFilename]
  = Some (File text t) ->
  Save.json_Unmarshal text = Ok cache ->
  Save.getOperatorDefaultChannel s key w
  = (Save.resolve key (Save.Operators cache), w).
Proof.
  intros Hfile Hjson. unfold Save.getOperatorDefaultChannel.
  unfold bind, try, wrap, lift, Stat, ReadFile, ret.
  rewrite Hfile. rewrite Hfile. rewrite Hjson.
  destruct (Save.resolve key (Save.Operators cache)); reflexivity.
Qed.

(** C3: on the records decoded from [operators.json], an exact match on
    name or display name wins; failing that, the alias table followed by an
    exact match on the aliased name; only then substring containment, where
    a single candidate is taken and several candidates make the resolution
    fail with an error that lists every candidate's name. *)
Theorem resolution_order (env : Save.Env) (s : Save.Saver) (w : World)
    (text : string) (t : Z) (cache : Save.OperatorsCache) (key : string) :
  fs w !! JoinPath [Save.ClusterDir s; Save.operatorsJsonFilename]
  = Some (File text t) ->
  Save.json_Unmarshal text = Ok cache ->
  (forall op,
     firstHit key (Save.Operators cache) op ->
     Save.getOperatorDefaultChannel s key w = (Ok op, w))
  /\ (forall alias op,
        noHit key (Save.Operators cache) ->
        Save.aliasMap !! key = Some alias ->
        firstHit alias (Save.Operators cache) op ->
        Save.getOperatorDefaultChannel s key w = (Ok op, w))
  /\ (forall cands,
        noHit key (Save.Operators cache) ->
        (forall alias, Save.aliasMap !! key = Some alias ->
                       noHit alias (Save.Operators cache)) ->
        candidatesOf key (Save.Operators cache) cands ->
        (forall op, cands = [op] ->
                    Save.getOperatorDefaultChannel s key w = (Ok op, w))
        /\ ((2 <= length cands)%nat ->
            Save.getOperatorDefaultChannel s key w
            = (Err (ambiguousError key (List.map Save.Name cands)), w))
        /\ (cands = [] ->
            exists msg,
              Save.getOperatorDefaultChannel s key w = (Err (ErrorsNew msg), w))).
Proof.
  intros Hfile Hjson.
  rewrite (getOperatorDefaultChannel_cached env s key w text t cache Hfile Hjson).
  destruct (resolve_tiers key (Save.Operators cache)) as (H1 & H2 & H3).
  split; [|split].
  - intros op Hop. now rewrite (H1 op Hop).
  - intros alias op Hno Ha Hop. now rewrite (H2 alias op Hno Ha Hop).
  - intros cands Hno Hal Hc.
    destruct (H3 cands Hno Hal Hc) as (Hone & Hmany & Hnone).
    split; [|split].
    + intros op E. now rewrite (Hone op E).
    + intros L. now rewrite (Hmany L).
    + intros E. destruct (Hnone E) as [msg Hm]. exists msg. now rewrite Hm.
Qed.

Ltac no_hit :=
  repeat (apply Forall_cons; split; [intros [H|H]; discriminate H|]);
  apply Forall_nil_2.

Ltac keep_candidate :=
  apply cand_keep; [apply contains_looseHit; vm_compute; reflexivity|].

Ltac skip_candidate :=
  apply cand_skip;
  [let H := fresh in intros H; apply contains_looseHit in H;
                     vm_compute in H; discriminate H|].

(** The README's aliases at work: [loki-operator] is found by its name;
    [logging] goes through the alias table to [cluster-logging-operator]
    although two records contain it; [storage] is in one record only;
    [operator] is in three and is refused with their names. *)
Lemma resolution_order_witness :
  Save.getOperatorDefaultChannel (env := demoSaveEnv) demoSaver "loki-operator"
    savedWorld = (Ok opLoki, savedWorld)
  /\ Save.getOperatorDefaultChannel (env := demoSaveEnv) demoSaver "logging"
       savedWorld = (Ok opLogging, savedWorld)
  /\ Save.getOperatorDefaultChannel (env := demoSaveEnv) demoSaver "storage"
       savedWorld = (Ok opStorage, savedWorld)
  /\ Save.getOperatorDefaultChannel (env := demoSaveEnv) demoSaver "operator"
       savedWorld
     = (Err (ambiguousError "operator"
               ["cluster-logging-operator"; "local-storage-operator";
                "loki-operator"]), savedWorld).
Proof.
  assert (Hfile : fs savedWorld
                    !! JoinPath [Save.ClusterDir demoSaver;
                                 Save.operatorsJsonFilename]
                  = Some (File operatorsText 0)) by (vm_compute; reflexivity).
  assert (Hjson : Save.json_Unmarshal (Env := demoSaveEnv) operatorsText
                  = Ok operatorsCache) by (vm_compute; reflexivity).
  split; [|split; [|split]].
  - apply (proj1 (resolution_order demoSaveEnv demoSaver savedWorld
                    operatorsText 0 operatorsCache "loki-operator" Hfile Hjson)).
    exists [opLogging; opPlugin; opStorage], []. split; [reflexivity|].
    split; [left; reflexivity | no_hit].
  - apply (proj1 (proj2 (resolution_order demoSaveEnv demoSaver savedWorld
                           operatorsText 0 operatorsCache "logging" Hfile Hjson))
             "cluster-logging-operator").
    + no_hit.
    + vm_compute. reflexivity.
    + exists [], [opPlugin; opStorage; opLoki]. split; [reflexivity|].
      split; [left; reflexivity | no_hit].
  - apply (proj1 (proj2 (proj2 (resolution_order demoSaveEnv demoSaver
                                  savedWorld operatorsText 0 operatorsCache
                                  "storage" Hfile Hjson))
                    [opStorage] ltac:(no_hit)
                    ltac:(intros alias Ha; vm_compute in Ha; discriminate Ha)
                    ltac:(skip_candidate; skip_candidate; keep_candidate;
                          skip_candidate; apply cand_nil))).
    reflexivity.
  - apply (proj1 (proj2 (proj2 (proj2 (resolution_order demoSaveEnv demoSaver
                                  savedWorld operatorsText 0 operatorsCache
                                  "operator" Hfile Hjson))
                    [opLogging; opStorage; opLoki] ltac:(no_hit)
                    ltac:(intros alias Ha; vm_compute in Ha; discriminate Ha)
                    ltac:(keep_candidate; skip_candidate; keep_candidate;
                          keep_candidate; apply cand_nil)))).
    simpl. lia.
Defined.

(* ===================================================================== *)
(** ** The idempotency gate of [GenerateISO] *)
(* ===================================================================== *)

(** C4: when the target image is there and [Force] is not set,
    [GenerateISO] returns [nil] at once: the world it leaves is the world
    it found, with no file-system state made visible and no collaborator
    called, whatever validation and generation would have done. *)
Theorem existing_image_is_kept (env : Iso.Env) (g : Iso.ISOGenerator)
    (options : Iso.GenerateOptions) (w : World) (n : node) :
  Iso.Force options = false ->
  fs w !! JoinPath [JoinPath [Iso.ClusterDir g; Iso.installDirName];
                    Iso.isoDirName;
                    Iso.ClusterName g +:+ "-agent.x86_64.iso"] = Some n ->
  Iso.GenerateISO g options w = (Ok tt, w).
Proof.
  intros Hforce Hfile. unfold Iso.GenerateISO. cbv zeta.
  rewrite Hforce. cbn [negb]. unfold bind at 1. unfold try, Stat.
  rewrite Hfile. reflexivity.
Qed.

(** The built cluster directory, with a configuration that generation
    would panic on: nothing is run. *)
Lemma existing_image_is_kept_witness :
  Iso.GenerateISO (env := demoIsoEnv) (demoGenerator headlessConfig)
    keepOptions builtWorld = (Ok tt, builtWorld).
Proof.
  apply (existing_image_is_kept demoIsoEnv (demoGenerator headlessConfig)
           keepOptions builtWorld (File "iso image" 900)).
  - reflexivity.
  - vm_compute. reflexivity.
Defined.

Example forced_generation_runs :
  fst (Iso.GenerateISO (env := demoIsoEnv) (demoGenerator headlessConfig)
         forceOptions builtWorld)
  = Panic "runtime error: index out of range [0] with length 0".
Proof. vm_compute. reflexivity. Qed.

Example generation_builds_the_image :
  fst (Iso.GenerateISO (env := demoIsoEnv) (demoGenerator demoConfig)
         keepOptions mirroredWorld) = Ok tt
  /\ fs (snd (Iso.GenerateISO (env := demoIsoEnv) (demoGenerator demoConfig)
                keepOptions mirroredWorld))
     !! "/work/my-cluster/installation/iso/my-cluster-agent.x86_64.iso"
     = Some (File "iso image" 0).
Proof. vm_compute. split; reflexivity. Qed.

(* ===================================================================== *)
(** ** The latest results directory ([findLatestResultsDir]) *)
(* ===================================================================== *)

Section Latest.
Context {env : Iso.Env}.

Lemma ReadDir_pure (dir : string) (w : World) : snd (ReadDir dir w) = w.
Proof. unfold ReadDir. destruct (fs w !! dir) as [[c t|t]|]; reflexivity. Qed.

Lemma stampOf_eligible (w : World) (ws : string) (e : DirEntry) (t : Z) :
  stampOf w ws e = Some t <-> eligible w ws e t.
Proof.
  unfold stampOf, eligible.
  destruct (EntryIsDir e); simpl.
  2:{ split; [discriminate | intros (H & _); discriminate]. }
  destruct (GoStrings.HasPrefix (EntryName e) "results-"); simpl.
  2:{ split; [discriminate | intros (_ & H & _); discriminate]. }
  destruct (fst (ReadDir (JoinPath [ws; EntryName e]) w)) as [[|x sub]|err|p].
  - split; [discriminate|]. intros (_ & _ & (s & Hs & Hne) & _).
    inversion Hs; subst. contradiction.
  - split.
    + intros H. repeat split; try assumption.
      exists (x :: sub). split; [reflexivity | discriminate].
    + intros (_ & _ & _ & H). exact H.
  - split; [discriminate|]. intros (_ & _ & (s & Hs & _) & _). discriminate.
  - split; [discriminate|]. intros (_ & _ & (s & Hs & _) & _). discriminate.
Qed.

(** One turn of the loop. *)
Lemma latestLoop_cons (ws : string) (e : DirEntry) (rest : list DirEntry)
    (ld : string) (lt : Z) (w : World) :
  Iso.latestLoop ws (e :: rest) ld lt w
  = match stampOf w ws e with
    | Some t =>
        if t >? lt
        then Iso.latestLoop ws rest (JoinPath [ws; EntryName e]) t w
        else Iso.latestLoop ws rest ld lt w
    | None => Iso.latestLoop ws rest ld lt w
    end.
Proof.
  unfold stampOf. cbn [Iso.latestLoop].
  destruct (negb (EntryIsDir e)
            || negb (GoStrings.HasPrefix (EntryName e) "results-"));
    [reflexivity|].
  unfold try, ReadDir.
  destruct (fs w !! JoinPath [ws; EntryName e]) as [[c t|t]|];
    try reflexivity.
  cbn [fst]. destruct (merge_sort _ _) as [|x l]; [reflexivity|].
  cbn [length Nat.eqb].
  destruct (Iso.utils_ParseTimestamp _) as [z|]; [|reflexivity].
  destruct (z >? lt); reflexivity.
Qed.

(** Nothing in the rest of the listing beats the directory in hand. *)
Lemma latestLoop_keeps (ws : string) (entries : list DirEntry)
    (ld : string) (lt : Z) (w : World) :
  (forall e t, In e entries -> stampOf w ws e = Some t -> t <= lt) ->
  Iso.latestLoop ws entries ld lt w = (Ok (ld, lt), w).
Proof.
  induction entries as [|e rest IH]; intros Hle; [reflexivity|].
  rewrite latestLoop_cons.
  assert (Hrest : forall e' t, In e' rest -> stampOf w ws e' = Some t -> t <= lt)
    by (intros e' t Hin; apply Hle; now right).
  destruct (stampOf w ws e) as [t|] eqn:Hs; [|now apply IH].
  assert (t <= lt) by (apply (Hle e t); [now left | exact Hs]).
  destruct (t >? lt) eqn:Hgt; [lia | now apply IH].
Qed.

(** The first entry with the greatest time stamp is the one in hand at
    the end, provided it beats what was in hand at the start. *)
Lemma latestLoop_picks (ws : string) (before after : list DirEntry)
    (e : DirEntry) (t : Z) (ld : string) (lt : Z) (w : World) :
  stampOf w ws e = Some t ->
  lt < t ->
  (forall e' t', In e' before -> stampOf w ws e' = Some t' -> t' < t) ->
  (forall e' t', In e' after -> stampOf w ws e' = Some t' -> t' <= t) ->
  Iso.latestLoop ws (before ++ e :: after) ld lt w
  = (Ok (JoinPath [ws; EntryName e], t), w).
Proof.
  intros Hs Hlt Hbefore Hafter. revert ld lt Hlt.
  induction before as [|b before IH]; intros ld lt Hlt.
  - cbn [app]. rewrite latestLoop_cons, Hs.
    destruct (t >? lt) eqn:Hgt; [|lia].
    now apply latestLoop_keeps.
  - cbn [app]. rewrite latestLoop_cons.
    assert (Hb : forall e' t', In e' before -> stampOf w ws e' = Some t' -> t' < t)
      by (intros e' t' Hin; apply Hbefore; now right).
    destruct (stampOf w ws b) as [tb|] eqn:Hsb; [|now apply IH].
    assert (tb < t) by (apply (Hbefore b tb); [now left | exact Hsb]).
    destruct (tb >? lt); now apply IH.
Qed.

End Latest.

Section LatestCases.
Context {env : Iso.Env}.

Lemma prefixed_nonempty (name : string) :
  GoStrings.HasPrefix name "results-" = true -> name <> "".
Proof. intros H ->. discriminate H. Qed.

(** Every listing either has a first entry with the greatest positive
    time stamp, or has no entry with a positive time stamp at all. *)
Lemma latest_cases (w : World) (ws : string) (entries : list DirEntry) :
  (exists before e after t,
     entries = before ++ e :: after /\ stampOf w ws e = Some t /\ 0 < t
     /\ (forall e' t', In e' before -> stampOf w ws e' = Some t' -> t' < t)
     /\ (forall e' t', In e' after -> stampOf w ws e' = Some t' -> t' <= t))
  \/ (forall e t, In e entries -> stampOf w ws e = Some t -> t <= 0).
Proof.
  induction entries as [|x rest IH].
  - right. intros e t [].
  - destruct (stampOf w ws x) as [tx|] eqn:Hx.
    + destruct (Z_lt_le_dec 0 tx) as [Hpos|Hneg].
      * destruct IH as [(before & e & after & t & -> & Hs & Ht & Hb & Ha)|Hnone].
        -- destruct (Z_lt_le_dec tx t) as [Hlt|Hge].
           ++ left. exists (x :: before), e, after, t.
              repeat split; try assumption.
              intros e' t' [<-|Hin] Hs'; [congruence | now apply (Hb e')].
           ++ left. exists [], x, (before ++ e :: after), tx.
              repeat split; try assumption.
              ** intros e' t' [].
              ** intros e' t' Hin Hs'. apply in_app_or in Hin.
                 destruct Hin as [Hin|[<-|Hin]].
                 --- specialize (Hb e' t' Hin Hs'). lia.
                 --- assert (t' = t) by congruence. lia.
                 --- specialize (Ha e' t' Hin Hs'). lia.
        -- left. exists [], x, rest, tx. repeat split; try assumption.
           ++ intros e' t' [].
           ++ intros e' t' Hin Hs'. specialize (Hnone e' t' Hin Hs'). lia.
      * destruct IH as [(before & e & after & t & -> & Hs & Ht & Hb & Ha)|Hnone].
        -- left. exists (x :: before), e, after, t.
           repeat split; try assumption.
           intros e' t' [<-|Hin] Hs'; [|now apply (Hb e')].
           assert (t' = tx) by congruence. lia.
        -- right. intros e t [<-|Hin] Hs'; [|now apply (Hnone e)].
           assert (t = tx) by congruence. lia.
    + destruct IH as [(before & e & after & t & -> & Hs & Ht & Hb & Ha)|Hnone].
      * left. exists (x :: before), e, after, t.
        repeat split; try assumption.
        intros e' t' [<-|Hin] Hs'; [congruence | now apply (Hb e')].
      * right. intros e t [<-|Hin] Hs'; [congruence | now apply (Hnone e)].
Qed.

End LatestCases.

(** C7, as the code has it: among the entries that are directories named
    with the run prefix, not empty, and whose suffix parses to a time stamp
    above zero, the first one with the greatest time stamp is selected; if
    there is none, the operation fails. Every listing is in one of the two
    cases, and [findLatestResultsDir] is this selection on the listing of
    the workspace. *)
Theorem latest_results_selected (env : Iso.Env) (ws : string)
    (entries : list DirEntry) (w : World) :
  (forall before e after t,
     entries = before ++ e :: after ->
     eligible w ws e t -> 0 < t ->
     (forall e' t', In e' before -> eligible w ws e' t' -> t' < t) ->
     (forall e' t', In e' after -> eligible w ws e' t' -> t' <= t) ->
     Iso.selectLatest ws entries w = (Ok (JoinPath [ws; EntryName e]), w))
  /\ ((forall e t, In e entries -> eligible w ws e t -> t <= 0) ->
      Iso.selectLatest ws entries w = (Err noResults, w))
  /\ ((exists before e after t,
         entries = before ++ e :: after /\ eligible w ws e t /\ 0 < t
         /\ (forall e' t', In e' before -> eligible w ws e' t' -> t' < t)
         /\ (forall e' t', In e' after -> eligible w ws e' t' -> t' <= t))
      \/ (forall e t, In e entries -> eligible w ws e t -> t <= 0))
  /\ (fst (ReadDir ws w) = Ok entries ->
      Iso.findLatestResultsDir ws w = Iso.selectLatest ws entries w).
Proof.
  split; [|split; [|split]].
  - intros before e after t -> He Hpos Hb Ha.
    unfold Iso.selectLatest, bind.
    rewrite (latestLoop_picks ws before after e t "" 0 w).
    + cbn [fst].
      destruct (String.eqb (JoinPath [ws; EntryName e]) "") eqn:E;
        [|reflexivity].
      apply String.eqb_eq in E. exfalso.
      apply (join_nonempty ws (EntryName e)); [|exact E].
      apply prefixed_nonempty. apply He.
    + now apply stampOf_eligible.
    + exact Hpos.
    + intros e' t' Hin Hs. apply (Hb e' t' Hin). now apply stampOf_eligible.
    + intros e' t' Hin Hs. apply (Ha e' t' Hin). now apply stampOf_eligible.
  - intros Hnone. unfold Iso.selectLatest, bind.
    rewrite latestLoop_keeps; [reflexivity|].
    intros e t Hin Hs. apply (Hnone e t Hin). now apply stampOf_eligible.
  - destruct (latest_cases w ws entries)
      as [(before & e & after & t & E & Hs & Ht & Hb & Ha)|Hnone].
    + left. exists before, e, after, t. split; [exact E|].
      split; [now apply stampOf_eligible|]. split; [exact Ht|]. split.
      * intros e' t' Hin He'. apply (Hb e' t' Hin). now apply stampOf_eligible.
      * intros e' t' Hin He'. apply (Ha e' t' Hin). now apply stampOf_eligible.
    + right. intros e t Hin He. apply (Hnone e t Hin).
      now apply stampOf_eligible.
  - intros Hl. unfold Iso.findLatestResultsDir, bind, wrap.
    pose proof (ReadDir_pure ws w) as Hw.
    destruct (ReadDir ws w) as [r w1]. simpl in Hl, Hw. subst. reflexivity.
Qed.

Ltac by_stamp H :=
  apply stampOf_eligible in H; vm_compute in H; try discriminate H;
  try (injection H as <-; lia).

(** The specification's example: [results-100] and [results-50] hold a
    file, [results-200] is empty; the listing comes sorted by name. *)
Lemma latest_results_selected_witness :
  fst (ReadDir "/work/my-cluster/oc-mirror-workspace" mirroredWorld)
  = Ok [resultsEntry "results-100"; resultsEntry "results-200";
        resultsEntry "results-50"]
  /\ Iso.findLatestResultsDir (env := demoIsoEnv)
       "/work/my-cluster/oc-mirror-workspace" mirroredWorld
     = (Ok "/work/my-cluster/oc-mirror-workspace/results-100", mirroredWorld).
Proof.
  assert (Hl : fst (ReadDir "/work/my-cluster/oc-mirror-workspace" mirroredWorld)
               = Ok [resultsEntry "results-100"; resultsEntry "results-200";
                     resultsEntry "results-50"]) by (vm_compute; reflexivity).
  split; [exact Hl|].
  destruct (latest_results_selected demoIsoEnv
              "/work/my-cluster/oc-mirror-workspace"
              [resultsEntry "results-100"; resultsEntry "results-200";
               resultsEntry "results-50"] mirroredWorld)
    as (Hpick & _ & _ & Hlist).
  rewrite (Hlist Hl).
  apply (Hpick [] (resultsEntry "results-100")
           [resultsEntry "results-200"; resultsEntry "results-50"] 100).
  - reflexivity.
  - apply stampOf_eligible. vm_compute. reflexivity.
  - lia.
  - intros e' t' [].
  - intros e' t' [<-|[<-|[]]] He; by_stamp He.
Defined.

(** C7 as the specification words it fails on a workspace whose only run
    is stamped zero: the directory is eligible, its time stamp is the
    greatest there is, and the operation fails. *)
Lemma zero_stamp_is_not_selected :
  fst (ReadDir "/ws" epochWorld) = Ok [resultsEntry "results-0"]
  /\ eligible (env := demoIsoEnv) epochWorld "/ws" (resultsEntry "results-0") 0
  /\ Iso.findLatestResultsDir (env := demoIsoEnv) "/ws" epochWorld
     = (Err noResults, epochWorld).
Proof.
  split; [vm_compute; reflexivity|]. split.
  - apply stampOf_eligible. vm_compute. reflexivity.
  - vm_compute. reflexivity.
Qed.

(* ===================================================================== *)
(** ** Writing through a temporary file *)
(* ===================================================================== *)

Lemma length_append (a b : string) :
  String.length (a +:+ b) = (String.length a + String.length b)%nat.
Proof.
  induction a as [|c a IH]; [reflexivity|].
  change (S (String.length (a +:+ b)) = S (String.length a + String.length b)%nat).
  now rewrite IH.
Qed.

Lemma suffix_differs (s suffix : string) : suffix <> "" -> s +:+ suffix <> s.
Proof.
  intros Hs H. apply (f_equal String.length) in H.
  rewrite length_append in H.
  destruct suffix; [contradiction|]. simpl in H. lia.
Qed.

Lemma tmp_differs (target : string) : target +:+ ".tmp" <> target.
Proof. apply suffix_differs. discriminate. Qed.

(** Once the temporary file is open and empty: the four ways on. *)
Lemma renameOver_cases (target : string) (encoded : outcome string)
    (encodeMsg renameMsg : string) (w0 w1 : World) :
  let tmp := target +:+ ".tmp" in
  fs w1 !! tmp = Some (File "" (now w0)) ->
  now w1 = now w0 ->
  fs w1 !! target = fs w0 !! target ->
  let res := renameOver target encoded encodeMsg renameMsg tmp w1 in
  (exists e, encoded = Err e
             /\ res = (Err (Errorf encodeMsg e), commit (delete tmp) w1))
  \/ (exists p, encoded = Panic p /\ res = (Panic p, w1))
  \/ (exists text,
        encoded = Ok text
        /\ let w2 := commit (insert tmp (File text (now w0))) w1 in
           (exists t, fs w0 !! target = Some (Dir t)
                      /\ res = (Err (Errorf renameMsg
                                       (PathError "rename" target EISDIR)),
                                commit (delete tmp) w2))
           \/ ((forall t, fs w0 !! target <> Some (Dir t))
               /\ res = (Ok tt,
                         commit (fun m => <[target := File text (now w0)]>
                                            (delete tmp m)) w2))).
Proof.
  intros tmp Hw1 Hnow1 Htgt1 res. subst res.
  pose proof (tmp_differs target) as Hne. fold tmp in Hne.
  unfold renameOver. fold tmp.
  destruct encoded as [text|e|p].
  - right. right. exists text. split; [reflexivity|]. cbv zeta.
    set (w2 := commit (insert tmp (File text (now w0))) w1).
    assert (Hw2 : fs w2 !! tmp = Some (File text (now w0)))
      by (subst w2; cbn [fs commit]; apply lookup_insert_eq).
    assert (Htgt2 : fs w2 !! target = fs w0 !! target)
      by (subst w2; cbn [fs commit]; rewrite lookup_insert_ne by congruence;
          exact Htgt1).
    assert (Hwrite : (let* text := lift (Ok text) in Write tmp text) w1
                     = (Ok tt, w2)).
    { unfold bind, lift, Write. rewrite Hw1, Hnow1. reflexivity. }
    match goal with
    | |- context [try ?body ?k w1] =>
        assert (Hrun :
          try body k w1
          = match fs w0 !! target with
            | Some (Dir _) =>
                (Err (Errorf renameMsg (PathError "rename" target EISDIR)),
                 commit (delete tmp) w2)
            | _ =>
                (Ok tt,
                 commit (fun fs0 => <[target := File text (now w0)]>
                                      (delete tmp fs0)) w2)
            end)
    end.
    { unfold try at 1. rewrite Hwrite.
      unfold try at 1. unfold Rename. rewrite Hw2, Htgt2.
      destruct (fs w0 !! target) as [[c1 t1|t1]|] eqn:Etgt; try reflexivity.
      unfold try, Remove, fail. rewrite Hw2. reflexivity. }
    rewrite Hrun.
    destruct (fs w0 !! target) as [[c1 t1|t1]|] eqn:Etgt.
    + right. split; [intros t; discriminate | reflexivity].
    + left. exists t1. split; reflexivity.
    + right. split; [intros t; discriminate | reflexivity].
  - left. exists e. split; [reflexivity|].
    unfold try at 1. unfold bind, lift.
    unfold try, Remove, fail. rewrite Hw1. reflexivity.
  - right. left. exists p. split; reflexivity.
Qed.

(** [tempThenRename] either finds a directory in the temporary file's
    place, or opens the temporary file and goes on. *)
Lemma tempThenRename_create (target : string) (encoded : outcome string)
    (createMsg encodeMsg renameMsg : string) (w : World) :
  let tmp := target +:+ ".tmp" in
  (exists t, fs w !! tmp = Some (Dir t)
             /\ tempThenRename target encoded createMsg encodeMsg renameMsg w
                = (Err (Errorf createMsg (PathError "open" tmp EISDIR)), w))
  \/ ((forall t, fs w !! tmp <> Some (Dir t))
      /\ tempThenRename target encoded createMsg encodeMsg renameMsg w
         = renameOver target encoded encodeMsg renameMsg tmp
             (commit (insert tmp (File "" (now w))) w)).
Proof.
  intros tmp. unfold tempThenRename. fold tmp. unfold bind, wrap, Create.
  destruct (fs w !! tmp) as [[c0 t0|t0]|] eqn:Etmp.
  - right. split; [intros t; discriminate | reflexivity].
  - left. exists t0. split; reflexivity.
  - right. split; [intros t; discriminate | reflexivity].
Qed.

Lemma visibleBetween_inv (w w' : World) (new : list FS) (s : FS) :
  seen w' = new ++ seen w -> visibleBetween w w' s -> In s new.
Proof.
  intros H (new' & H' & Hin). rewrite H in H'.
  apply app_inv_tail in H'. now subst.
Qed.

Ltac look :=
  cbn [fs commit now seen calls fst snd];
  rewrite ?lookup_delete_ne, ?lookup_insert_ne by congruence;
  rewrite ?lookup_insert_eq, ?lookup_delete_eq.

(** What a reader of [target] can see while [tempThenRename] runs and
    after it: the content that was there, until the rename puts the whole
    new text in its place. *)
Lemma tempThenRename_atomic (target : string) (encoded : outcome string)
    (createMsg encodeMsg renameMsg : string) (w : World) :
  let tmp := target +:+ ".tmp" in
  let r := tempThenRename target encoded createMsg encodeMsg renameMsg w in
  now (snd r) = now w
  /\ calls (snd r) = calls w
  /\ (forall s, visibleBetween w (snd r) s ->
                s !! target = fs w !! target
                \/ exists text, encoded = Ok text
                                /\ s !! target = Some (File text (now w)))
  /\ (fst r = Ok tt ->
      exists text s1 s2,
        encoded = Ok text
        /\ seen (snd r) = fs (snd r) :: s2 :: s1 :: seen w
        /\ s1 !! tmp = Some (File "" (now w))
        /\ s1 !! target = fs w !! target
        /\ s2 !! tmp = Some (File text (now w))
        /\ s2 !! target = fs w !! target
        /\ fs (snd r) !! tmp = None
        /\ fs (snd r) !! target = Some (File text (now w)))
  /\ (fst r <> Ok tt -> fs (snd r) !! target = fs w !! target)
  /\ ((forall t, fs w !! tmp <> Some (Dir t)) ->
      (forall t, fs w !! target <> Some (Dir t)) ->
      forall text, encoded = Ok text -> fst r = Ok tt).
Proof.
  intros tmp r. subst r tmp.
  pose proof (tmp_differs target) as Hne.
  destruct (tempThenRename_create target encoded createMsg encodeMsg renameMsg w)
    as [(t0 & Hdir & ->)|(Hnd & ->)].
  { cbn [fst snd]. repeat split; try reflexivity; try discriminate.
    - intros s Hs. apply (visibleBetween_inv w w [] s eq_refl) in Hs.
      destruct Hs.
    - intros H _ _ _. now apply H in Hdir. }
  remember (commit (insert (target +:+ ".tmp") (File "" (now w))) w) as w1
    eqn:Ew1.
  destruct (renameOver_cases target encoded encodeMsg renameMsg w w1)
    as [(e & He & ->)|[(p & Hp & ->)|(text & Ht & [(t1 & Hdir & ->)|(Hnt & ->)])]];
    try (subst w1; look; reflexivity).
  - (* the encoder failed *)
    cbn [fst snd]. repeat split; try reflexivity; try discriminate.
    + subst w1. reflexivity.
    + subst w1. reflexivity.
    + intros s Hs.
      apply (visibleBetween_inv w _
               [delete (target +:+ ".tmp") (fs w1); fs w1] s) in Hs;
        [|subst w1; reflexivity].
      left. destruct Hs as [<-|[<-|[]]]; subst w1; look; reflexivity.
    + intros _. subst w1. look. reflexivity.
    + intros _ _ text Ht. congruence.
  - (* the encoder panicked *)
    cbn [fst snd]. repeat split; try reflexivity; try discriminate.
    + subst w1. reflexivity.
    + subst w1. reflexivity.
    + intros s Hs.
      apply (visibleBetween_inv w _ [fs w1] s) in Hs;
        [|subst w1; reflexivity].
      left. destruct Hs as [<-|[]]; subst w1; look; reflexivity.
    + intros _. subst w1. look. reflexivity.
    + intros _ _ text Ht. congruence.
  - (* a directory is in the target's place *)
    cbv zeta. cbn [fst snd]. repeat split; try reflexivity; try discriminate.
    + subst w1. reflexivity.
    + subst w1. reflexivity.
    + intros s Hs.
      apply (visibleBetween_inv w _
               [delete (target +:+ ".tmp")
                  (<[target +:+ ".tmp" := File text (now w)]> (fs w1));
                <[target +:+ ".tmp" := File text (now w)]> (fs w1); fs w1] s)
        in Hs; [|subst w1; reflexivity].
      left. destruct Hs as [<-|[<-|[<-|[]]]]; subst w1; look; reflexivity.
    + intros _. subst w1. look. reflexivity.
    + intros _ H. now apply H in Hdir.
  - (* the rename went through *)
    cbv zeta. cbn [fst snd]. repeat split; try reflexivity.
    + subst w1. reflexivity.
    + subst w1. reflexivity.
    + intros s Hs.
      apply (visibleBetween_inv w _
               [<[target := File text (now w)]>
                  (delete (target +:+ ".tmp")
                     (<[target +:+ ".tmp" := File text (now w)]> (fs w1)));
                <[target +:+ ".tmp" := File text (now w)]> (fs w1); fs w1] s)
        in Hs; [|subst w1; reflexivity].
      destruct Hs as [<-|[<-|[<-|[]]]].
      * right. exists text. split; [exact Ht|]. look. reflexivity.
      * left. subst w1. look. reflexivity.
      * left. subst w1. look. reflexivity.
    + intros _.
      exists text, (fs w1), (<[target +:+ ".tmp" := File text (now w)]> (fs w1)).
      split; [exact Ht|]. split; [subst w1; reflexivity|].
      subst w1. repeat split; look; reflexivity.
    + intros H. contradiction.
Qed.

Lemma writeOperatorsToCache_discipline (env : CatalogNew.Env)
    (cm : CatalogNew.CatalogManagerNew) (ops : list CatalogNew.OperatorInfo) :
  CatalogNew.writeOperatorsToCache cm ops
  = tempThenRename (CatalogNew.CacheFile cm) (CatalogNew.json_Encode ops)
      "创建临时缓存文件失败" "编码 JSON 失败" "重命名缓存文件失败".
Proof. reflexivity. Qed.



(* ===================================================================== *)
(** ** Writing in place ([os.WriteFile], [os.Create] and [Execute]) *)
(* ===================================================================== *)

Lemma MkdirAll_seen (path : string) (w w' : World) :
  MkdirAll path w = (Ok tt, w') ->
  now w' = now w /\ exists pre, seen w' = pre ++ seen w.
Proof.
  unfold MkdirAll. destruct (fs w !! path) as [[c t|t]|]; intros H;
    inversion H; subst; clear H; split; try reflexivity.
  - now exists [].
  - now exists [<[path := Dir (now w)]> (fs w)].
Qed.

(** A file written piece by piece grows where it is: after each piece the
    file holds what has been written so far. *)
Lemma WriteAll_grows (path : string) (chunks : list string) :
  forall (w : World) (acc : string) (t0 : Z),
    fs w !! path = Some (File acc t0) ->
    fst (WriteAll path chunks w) = Ok tt
    /\ now (snd (WriteAll path chunks w)) = now w
    /\ (exists t', fs (snd (WriteAll path chunks w)) !! path
                   = Some (File (acc +:+ pieces chunks) t'))
    /\ exists new,
         seen (snd (WriteAll path chunks w)) = new ++ seen w
         /\ forall n, (1 <= n <= length chunks)%nat ->
              exists s, In s new
                        /\ s !! path
                           = Some (File (acc +:+ pieces (firstn n chunks))
                                        (now w)).
Proof.
  induction chunks as [|c rest IH]; intros w acc t0 Hfile.
  - cbn [WriteAll ret fst snd pieces]. rewrite append_nil_r.
    repeat split; try reflexivity.
    + now exists t0.
    + exists []. split; [reflexivity|]. intros n Hn. simpl in Hn. lia.
  - set (w1 := commit (insert path (File (acc +:+ c) (now w))) w).
    assert (Hstep : WriteAll path (c :: rest) w = WriteAll path rest w1).
    { cbn [WriteAll]. unfold bind. unfold Write at 1. rewrite Hfile.
      reflexivity. }
    rewrite Hstep.
    assert (Hw1 : fs w1 !! path = Some (File (acc +:+ c) (now w)))
      by (subst w1; cbn [fs commit]; apply lookup_insert_eq).
    destruct (IH w1 (acc +:+ c) (now w) Hw1)
      as (Hok & Hnow & (t' & Hfin) & new & Hseen & Hvis).
    repeat split.
    + exact Hok.
    + rewrite Hnow. reflexivity.
    + exists t'. rewrite Hfin. cbn [pieces]. now rewrite append_assoc.
    + exists (new ++ [fs w1]). split.
      * rewrite Hseen. subst w1. cbn [seen commit]. now rewrite <- app_assoc.
      * intros n Hn. destruct n as [|[|n]]; [lia| |].
        -- exists (fs w1). split; [apply in_or_app; right; now left|].
           rewrite Hw1. cbn [firstn pieces]. now rewrite append_nil_r.
        -- destruct (Hvis (S n)) as (s & Hin & Hs);
             [cbn [length] in Hn; lia|].
           exists s. split; [apply in_or_app; now left|].
           rewrite Hs. change (firstn (S (S n)) (c :: rest))
                         with (c :: firstn (S n) rest).
           cbn [pieces]. rewrite append_assoc.
           replace (now w1) with (now w) by reflexivity. reflexivity.
Qed.

Section InPlace.
Context {env : Iso.Env}.

(** [executeTemplate] opens the document at its final path and renders
    into it: every prefix of the rendering is, at some point, what the
    file at that path holds. *)
Lemma executeTemplate_in_place (templatePath outputPath : string)
    (data : Iso.TemplateData) (funcMap : option Iso.FuncMap) (w : World)
    (text : string) (tmpl : Iso.Template) :
  Iso.templates_ReadFile templatePath = Ok text ->
  Iso.template_Parse (Base templatePath) funcMap text = Ok tmpl ->
  (forall t, fs w !! outputPath <> Some (Dir t)) ->
  let chunks := fst (Iso.template_Execute tmpl data) in
  let r := Iso.executeTemplate templatePath outputPath data funcMap w in
  (forall n, (n <= length chunks)%nat ->
     exists s, visibleBetween w (snd r) s
               /\ s !! outputPath
                  = Some (File (pieces (firstn n chunks)) (now w)))
  /\ (exists t', fs (snd r) !! outputPath = Some (File (pieces chunks) t'))
  /\ (fst r = Ok tt <-> snd (Iso.template_Execute tmpl data) = None).
Proof.
  intros Hread Hparse Hnd chunks r. subst r chunks.
  set (w1 := commit (insert outputPath (File "" (now w))) w).
  assert (Hcreate : Create outputPath w = (Ok outputPath, w1)).
  { unfold Create. destruct (fs w !! outputPath) as [[c t|t]|] eqn:E;
      try reflexivity. exfalso. now apply (Hnd t). }
  assert (Hw1 : fs w1 !! outputPath = Some (File "" (now w)))
    by (subst w1; cbn [fs commit]; apply lookup_insert_eq).
  destruct (Iso.template_Execute tmpl data) as [chunks err] eqn:Hex.
  cbn [fst snd].
  destruct (WriteAll_grows outputPath chunks w1 "" (now w) Hw1)
    as (Hok & Hnow & (t' & Hfin) & new & Hseen & Hvis).
  destruct (WriteAll outputPath chunks w1) as [res w2] eqn:Hrun.
  cbn [fst snd] in Hok, Hnow, Hfin, Hseen. subst res.
  assert (Hexec :
    Iso.executeTemplate templatePath outputPath data funcMap w
    = (match err with
       | Some e => Err (Errorf ("执行模板生成 " +:+ outputPath +:+ " 失败") e)
       | None => Ok tt
       end, w2)).
  { unfold Iso.executeTemplate, bind, wrap, lift.
    rewrite Hread. cbv beta iota. rewrite Hparse. cbv beta iota.
    rewrite Hcreate. cbv beta iota. rewrite Hex. cbn [fst snd].
    rewrite Hrun. cbv beta iota. destruct err; reflexivity. }
  rewrite Hexec. cbn [fst snd].
  assert (Hbetween : forall s, In s (new ++ [fs w1]) -> visibleBetween w w2 s).
  { intros s Hin. exists (new ++ [fs w1]). split; [|exact Hin].
    rewrite Hseen. subst w1. cbn [seen commit]. now rewrite <- app_assoc. }
  split; [|split].
  - intros n Hn. destruct n as [|n].
    + exists (fs w1). split; [|exact Hw1].
      apply Hbetween, in_or_app. right. now left.
    + destruct (Hvis (S n)) as (s & Hin & Hs); [lia|].
      exists s. split; [|exact Hs]. apply Hbetween, in_or_app. now left.
  - exists t'. exact Hfin.
  - destruct err; split; intros H; congruence.
Qed.

(** [createMergedAuthConfig] writes the merged credentials at their final
    path: when it succeeds, the file was visible truncated on the way, and
    is there at the end. *)
Lemma createMergedAuthConfig_in_place (g : Iso.ISOGenerator) (w w' : World) :
  Iso.createMergedAuthConfig g w = (Ok tt, w') ->
  (exists s,
     visibleBetween w w' s
     /\ s !! JoinPath [JoinPath [Iso.ClusterDir g; Iso.registryDirName];
                       Iso.mergedAuthFilename]
        = Some (File "" (now w)))
  /\ exists out,
       fs w' !! JoinPath [JoinPath [Iso.ClusterDir g; Iso.registryDirName];
                          Iso.mergedAuthFilename]
       = Some (File out (now w)).
Proof.
  unfold Iso.createMergedAuthConfig.
  unfold bind at 1. unfold wrap at 1.
  destruct (ReadFile _ w) as [[text|e|p] w0] eqn:Hread; try discriminate.
  assert (w0 = w) as ->.
  { unfold ReadFile in Hread.
    destruct (fs w !! _) as [[c t|t]|]; now inversion Hread. }
  unfold bind at 1. unfold wrap at 1. unfold lift at 1.
  destruct (Iso.json_Unmarshal text) as [data|e|p]; try discriminate.
  destruct (Iso.mergeAuths (Iso.Config g) data) as [merged|]; [|discriminate].
  unfold bind at 1. unfold wrap at 1. unfold lift at 1.
  destruct (Iso.json_MarshalIndent merged) as [out|e|p]; try discriminate.
  unfold bind at 1. unfold wrap at 1.
  destruct (MkdirAll _ w) as [[[]|e|p] w1] eqn:Hmk; try discriminate.
  apply MkdirAll_seen in Hmk. destruct Hmk as (Hnow & pre & Hpre).
  unfold wrap.
  set (target := JoinPath [JoinPath [Iso.ClusterDir g; Iso.registryDirName];
                           Iso.mergedAuthFilename]).
  destruct (fs w1 !! target) as [[c1 t1|t1]|] eqn:Ht.
  2:{ unfold WriteFile, bind, Create. rewrite Ht. discriminate. }
  all: rewrite WriteFile_ok by (intros t2; rewrite Ht; discriminate).
  all: intros H; inversion H; subst w'; clear H.
  all: split;
    [ exists (<[target := File "" (now w1)]> (fs w1)); split;
        [|rewrite lookup_insert_eq, Hnow; reflexivity];
      eexists (_ :: _ :: pre); split;
        [cbn [seen]; rewrite Hpre; reflexivity | right; now left]
    | exists out; cbn [fs]; rewrite lookup_insert_eq, Hnow; reflexivity ].
Qed.

Lemma append_cons (c : ascii) (s t : string) :
  String c s +:+ t = String c (s +:+ t).
Proof. reflexivity. Qed.

Lemma merged_path (dir : string) :
  JoinPath [JoinPath [dir; Iso.registryDirName]; Iso.mergedAuthFilename]
  = JoinPath [dir; Iso.registryDirName; Iso.mergedAuthFilename].
Proof.
  destruct dir as [|c dir]; [reflexivity|].
  unfold JoinPath, GoStrings.Join, Iso.registryDirName, Iso.mergedAuthFilename.
  cbn [List.filter String.eqb negb String.concat].
  rewrite !append_cons. cbn [List.filter String.eqb negb String.concat].
  rewrite !append_cons. f_equal. now rewrite !append_assoc.
Qed.

(** Once the merged file is there, [getPullSecret] reads it and calls
    nothing. *)
Lemma getPullSecretAt_merged (depth : nat) (g : Iso.ISOGenerator) (w : World)
    (n : node) :
  fs w !! JoinPath [Iso.ClusterDir g; Iso.registryDirName; Iso.mergedAuthFilename]
  = Some n ->
  Iso.getPullSecretAt depth g w = Iso.getPullSecretAt 0 g w.
Proof.
  intros H. destruct depth; [reflexivity|].
  cbn [Iso.getPullSecretAt]. unfold try at 1 3. unfold Stat. rewrite H.
  reflexivity.
Qed.

Lemma getPullSecretAt_next (d1 d2 : nat) (g : Iso.ISOGenerator) (w : World) :
  (forall w' out t,
     fs w' !! JoinPath [Iso.ClusterDir g; Iso.registryDirName;
                        Iso.mergedAuthFilename] = Some (File out t) ->
     Iso.getPullSecretAt d1 g w' = Iso.getPullSecretAt d2 g w') ->
  Iso.getPullSecretAt (S d1) g w = Iso.getPullSecretAt (S d2) g w.
Proof.
  intros Hsame. cbn [Iso.getPullSecretAt]. unfold try, Stat.
  destruct (fs w !! _) as [n|]; [reflexivity|].
  destruct (Iso.createMergedAuthConfig g w) as [[[]|e|p] w1] eqn:Hrun;
    try reflexivity.
  destruct (createMergedAuthConfig_in_place g w w1 Hrun) as (_ & out & Hout).
  rewrite merged_path in Hout. exact (Hsame w1 out (now w) Hout).
Qed.

(** [getPullSecret] calls itself at most once: the call that follows a
    successful merge finds the merged file. Any allowance of one nested
    call or more gives the same run. *)
Lemma getPullSecret_nesting (depth : nat) (g : Iso.ISOGenerator) (w : World) :
  Iso.getPullSecretAt (S depth) g w = Iso.getPullSecret g w.
Proof.
  unfold Iso.getPullSecret. apply getPullSecretAt_next.
  intros w' out t H. now apply (getPullSecretAt_merged depth g w' _ H).
Qed.

End InPlace.

(** C2, as the code has it: of the writes the specification names, the
    cache file is the one written to a temporary file that is renamed over
    it, so that a reader sees the old content or the whole new text. The
    merged credentials are written at their final path, where the file is
    visible truncated before it is filled; the generated documents are
    created at their final path, in a directory that is there, and
    rendered into it, where every prefix of the rendering is visible on
    the way. *)
Theorem only_the_cache_is_renamed_into_place (catalogEnv : CatalogNew.Env)
    (isoEnv : Iso.Env) :
  (forall cm ops w s,
     visibleBetween w (snd (CatalogNew.writeOperatorsToCache cm ops w)) s ->
     s !! CatalogNew.CacheFile cm = fs w !! CatalogNew.CacheFile cm
     \/ exists text, CatalogNew.json_Encode ops = Ok text
                     /\ s !! CatalogNew.CacheFile cm = Some (File text (now w)))
  /\ (forall g w w',
        Iso.createMergedAuthConfig g w = (Ok tt, w') ->
        exists s,
          visibleBetween w w' s
          /\ s !! JoinPath [JoinPath [Iso.ClusterDir g; Iso.registryDirName];
                            Iso.mergedAuthFilename]
             = Some (File "" (now w)))
  /\ (forall templatePath outputPath data funcMap w text tmpl,
        Iso.templates_ReadFile templatePath = Ok text ->
        Iso.template_Parse (Base templatePath) funcMap text = Ok tmpl ->
        parentIsDir w outputPath ->
        (forall t, fs w !! outputPath <> Some (Dir t)) ->
        forall n,
          (n <= length (fst (Iso.template_Execute tmpl data)))%nat ->
          exists s,
            visibleBetween w
              (snd (Iso.executeTemplate templatePath outputPath data funcMap w))
              s
            /\ s !! outputPath
               = Some (File (pieces (firstn n (fst (Iso.template_Execute tmpl data))))
                            (now w))).
Proof.
  split; [|split].
  - intros cm ops w s Hs. rewrite writeOperatorsToCache_discipline in Hs.
    destruct (tempThenRename_atomic (CatalogNew.CacheFile cm)
                (CatalogNew.json_Encode ops) "创建临时缓存文件失败"
                "编码 JSON 失败" "重命名缓存文件失败" w)
      as (_ & _ & Hvis & _).
    now apply Hvis.
  - intros g w w' H. now apply createMergedAuthConfig_in_place.
  - intros templatePath outputPath data funcMap w text tmpl Hr Hp _ Hnd n Hn.
    destruct (executeTemplate_in_place templatePath outputPath data funcMap w
                text tmpl Hr Hp Hnd) as (Hvis & _).
    now apply Hvis.
Qed.

(** On the demo cluster: the merged credentials are seen empty, and the
    agent configuration, rendered into the installation directory, is
    seen with its first piece only. *)
Lemma only_the_cache_is_renamed_into_place_witness :
  (exists s,
     visibleBetween mirroredWorld
       (snd (Iso.createMergedAuthConfig (env := demoIsoEnv)
               (demoGenerator demoConfig) mirroredWorld)) s
     /\ s !! demoMergedAuthPath = Some (File "" 1000))
  /\ (exists s,
        visibleBetween preparedWorld
          (snd (Iso.executeTemplate (env := demoIsoEnv)
                  "templates/agent-config.yaml" demoAgentConfigPath
                  (Iso.AgentData demoAgentData) None preparedWorld)) s
        /\ s !! demoAgentConfigPath
           = Some (File ("# templates/agent-config.yaml" +:+ Iso.nl) 1000)).
Proof.
  destruct (only_the_cache_is_renamed_into_place demoCatalogEnv demoIsoEnv)
    as (_ & Hmerged & Hdoc).
  split.
  - destruct (Iso.createMergedAuthConfig (env := demoIsoEnv)
                (demoGenerator demoConfig) mirroredWorld) as [r w'] eqn:Hrun.
    assert (Hr : r = Ok tt).
    { apply (f_equal fst) in Hrun. vm_compute in Hrun. now subst r. }
    subst r. exact (Hmerged _ _ _ Hrun).
  - apply (Hdoc "templates/agent-config.yaml" demoAgentConfigPath
             (Iso.AgentData demoAgentData) None preparedWorld
             ("# templates/agent-config.yaml" +:+ Iso.nl)
             ("# templates/agent-config.yaml" +:+ Iso.nl)
             eq_refl eq_refl
             ltac:(exists 0; vm_compute; reflexivity)
             ltac:(intros t H; vm_compute in H; discriminate H) 1%nat).
    simpl. lia.
Defined.

(** C2 as the specification words it fails on the demo cluster: while the
    agent configuration is generated into the installation directory, a
    reader finds at its path a file that is neither absent nor the
    document; while the credentials are merged, a reader finds an empty
    file at theirs. *)
Lemma documents_are_seen_half_written :
  (exists s,
     visibleBetween preparedWorld
       (snd (Iso.generateAgentConfig (env := demoIsoEnv)
               (demoGenerator demoConfig) "/work/my-cluster/installation"
               preparedWorld)) s
     /\ s !! demoAgentConfigPath
        = Some (File ("# templates/agent-config.yaml" +:+ Iso.nl) 1000))
  /\ fs (snd (Iso.generateAgentConfig (env := demoIsoEnv)
                (demoGenerator demoConfig) "/work/my-cluster/installation"
                preparedWorld)) !! demoAgentConfigPath
     = Some (File demoAgentConfigText 1000)
  /\ (exists s,
        visibleBetween mirroredWorld
          (snd (Iso.createMergedAuthConfig (env := demoIsoEnv)
                  (demoGenerator demoConfig) mirroredWorld)) s
        /\ s !! demoMergedAuthPath = Some (File "" 1000))
  /\ fs (snd (Iso.createMergedAuthConfig (env := demoIsoEnv)
                (demoGenerator demoConfig) mirroredWorld)) !! demoMergedAuthPath
     = Some (File "auths: quay.io, registry.my-cluster.example.com:8443" 1000).
Proof.
  split; [|split; [|split]].
  - exists (nth 2 (seen (snd (Iso.generateAgentConfig (env := demoIsoEnv)
                                (demoGenerator demoConfig)
                                "/work/my-cluster/installation" preparedWorld)))
                ∅).
    split.
    + eexists. split; [symmetry; apply app_nil_r|].
      apply nth_In. vm_compute. lia.
    + vm_compute. reflexivity.
  - vm_compute. reflexivity.
  - exists (nth 1 (seen (snd (Iso.createMergedAuthConfig (env := demoIsoEnv)
                                (demoGenerator demoConfig) mirroredWorld)))
                ∅).
    split.
    + eexists. split; [symmetry; apply app_nil_r|].
      apply nth_In. vm_compute. lia.
    + vm_compute. reflexivity.
  - vm_compute. reflexivity.
Qed.

(* ===================================================================== *)
(** ** The catalog cache ([GetAllOperators]) *)
(* ===================================================================== *)

(** The saturation of [time.Time.Sub] does not matter to the comparison
    with 24 hours. *)
Lemma Sub_within_day (a b : Z) :
  (Sub a b <? 24 * Hour) = (a - b <? 24 * Hour).
Proof.
  unfold Sub, maxDuration, minDuration, Hour, Minute, Second, Nanosecond.
  destruct (a - b <? _) eqn:E; [apply Z.ltb_lt in E; apply Z.ltb_lt
                               | apply Z.ltb_ge in E; apply Z.ltb_ge]; lia.
Qed.

Lemma join_two (a b : string) :
  b <> "" ->
  JoinPath [a; b] = if String.eqb a "" then b else a +:+ "/" +:+ b.
Proof.
  intros Hb. unfold JoinPath. cbn [List.filter].
  destruct b as [|c b]; [contradiction|].
  destruct a as [|d a]; reflexivity.
Qed.


Section Cache.
Context {env : CatalogNew.Env}.

Lemma isCacheValid_fresh (cm : CatalogNew.CatalogManagerNew) (w : World) :
  exists b, CatalogNew.isCacheValid cm w = (Ok b, w)
            /\ (b = true <-> cacheFresh cm w).
Proof.
  unfold CatalogNew.isCacheValid, try, Stat, cacheFresh.
  destruct (fs w !! CatalogNew.CacheFile cm) as [n|] eqn:E.
  - unfold bind, Since, ret. eexists. split; [reflexivity|].
    rewrite Sub_within_day, Z.ltb_lt. split.
    + intros H. exists n. split; [reflexivity | exact H].
    + intros (n' & Hn & H). now inversion Hn; subst.
  - exists false. split; [reflexivity|]. split; [discriminate|].
    intros (n & Hn & _). discriminate.
Qed.

Lemma readAllOperatorsFromCache_pure (cm : CatalogNew.CatalogManagerNew)
    (w : World) :
  snd (CatalogNew.readAllOperatorsFromCache cm w) = w.
Proof.
  unfold CatalogNew.readAllOperatorsFromCache, try, ReadFile.
  destruct (fs w !! CatalogNew.CacheFile cm) as [[c t|t]|]; try reflexivity.
  unfold wrap, lift. destruct (CatalogNew.json_Decode c); reflexivity.
Qed.

Lemma readAllOperatorsFromCache_decodes (cm : CatalogNew.CatalogManagerNew)
    (w : World) (text : string) (t : Z) (ops : list CatalogNew.OperatorInfo) :
  fs w !! CatalogNew.CacheFile cm = Some (File text t) ->
  CatalogNew.json_Decode text = Ok ops ->
  fst (CatalogNew.readAllOperatorsFromCache cm w) = Ok ops.
Proof.
  intros Hf Hd. unfold CatalogNew.readAllOperatorsFromCache, try, ReadFile.
  rewrite Hf. unfold wrap, lift. now rewrite Hd.
Qed.


End Cache.

Lemma MkdirAll_succeeds (path : string) (w : World) :
  (forall c t, fs w !! path <> Some (File c t)) ->
  exists w0,
    MkdirAll path w = (Ok tt, w0)
    /\ now w0 = now w /\ calls w0 = calls w
    /\ forall p, p <> path -> fs w0 !! p = fs w !! p.
Proof.
  intros Hnf. unfold MkdirAll.
  destruct (fs w !! path) as [[c t|t]|] eqn:E.
  - exfalso. now apply (Hnf c t).
  - exists w. repeat split; reflexivity.
  - eexists. split; [reflexivity|]. repeat split; try reflexivity.
    intros p Hp. cbn [fs commit]. now rewrite lookup_insert_ne.
Qed.



(* ===================================================================== *)
(** ** Splitting and joining *)
(* ===================================================================== *)

Lemma SplitByte_nonempty (s : string) (c : ascii) : GoStrings.SplitByte s c <> [].
Proof.
  destruct s as [|d s]; cbn [GoStrings.SplitByte]; [discriminate|].
  destruct (Ascii.eqb d c); [discriminate|].
  destruct (GoStrings.SplitByte s c); discriminate.
Qed.

Lemma SplitByte_no_sep (s : string) (c : ascii) :
  Forall (fun p => hasByte c p = false) (GoStrings.SplitByte s c).
Proof.
  induction s as [|d s IH]; cbn [GoStrings.SplitByte].
  - repeat constructor.
  - destruct (Ascii.eqb d c) eqn:E.
    + constructor; [reflexivity | exact IH].
    + destruct (GoStrings.SplitByte s c) as [|p ps].
      * repeat constructor. cbn [hasByte]. now rewrite E.
      * inversion IH; subst. constructor; [|assumption].
        cbn [hasByte]. now rewrite E.
Qed.

Lemma Join_cons (x y : string) (rest : list string) (sep : string) :
  GoStrings.Join (x :: y :: rest) sep
  = x +:+ sep +:+ GoStrings.Join (y :: rest) sep.
Proof. reflexivity. Qed.

(** [strings.Join(strings.Split(s, sep), sep) == s] *)
Lemma Join_SplitByte (s : string) (c : ascii) :
  GoStrings.Join (GoStrings.SplitByte s c) (String c "") = s.
Proof.
  induction s as [|d s IH]; [reflexivity|].
  cbn [GoStrings.SplitByte].
  pose proof (SplitByte_nonempty s c) as Hne.
  destruct (GoStrings.SplitByte s c) as [|p ps]; [contradiction|].
  destruct (Ascii.eqb d c) eqn:E.
  - apply Ascii.eqb_eq in E. subst d. rewrite Join_cons, IH. reflexivity.
  - destruct ps as [|q ps].
    + cbn in IH |- *. now rewrite IH.
    + rewrite Join_cons in IH |- *. rewrite append_cons. now rewrite IH.
Qed.

Lemma SplitByte_app_no_sep (p rest : string) (c : ascii) :
  hasByte c p = false ->
  GoStrings.SplitByte (p +:+ String c rest) c
  = p :: GoStrings.SplitByte rest c.
Proof.
  induction p as [|d p IH]; intros Hp.
  - change ("" +:+ String c rest) with (String c rest).
    cbn [GoStrings.SplitByte]. now rewrite Ascii.eqb_refl.
  - cbn [hasByte] in Hp. apply orb_false_iff in Hp. destruct Hp as (Hd & Hp).
    rewrite append_cons. cbn [GoStrings.SplitByte]. rewrite Hd, (IH Hp).
    reflexivity.
Qed.

Lemma SplitByte_no_sep_single (p : string) (c : ascii) :
  hasByte c p = false -> GoStrings.SplitByte p c = [p].
Proof.
  induction p as [|d p IH]; intros Hp; [reflexivity|].
  cbn [hasByte] in Hp. apply orb_false_iff in Hp. destruct Hp as (Hd & Hp).
  cbn [GoStrings.SplitByte]. now rewrite Hd, (IH Hp).
Qed.

(** [strings.Split(strings.Join(parts, sep), sep) == parts] when no part
    holds the separator and there is at least one part. *)
Lemma SplitByte_Join (parts : list string) (c : ascii) :
  parts <> [] ->
  Forall (fun p => hasByte c p = false) parts ->
  GoStrings.SplitByte (GoStrings.Join parts (String c "")) c = parts.
Proof.
  intros Hne Hall. induction Hall as [|p ps Hp Hps IH]; [contradiction|].
  destruct ps as [|q ps].
  - cbn. now apply SplitByte_no_sep_single.
  - rewrite Join_cons. change (String c "" +:+ ?x) with (String c x).
    rewrite (SplitByte_app_no_sep _ _ _ Hp), IH; [reflexivity | discriminate].
Qed.

(* ===================================================================== *)
(** ** The [indent] template function *)
(* ===================================================================== *)

Lemma hasByte_app (c : ascii) (a b : string) :
  hasByte c (a +:+ b) = hasByte c a || hasByte c b.
Proof.
  induction a as [|d a IH]; [reflexivity|].
  rewrite append_cons. cbn [hasByte]. now rewrite IH, orb_assoc.
Qed.

Lemma hasByte_Repeat_blank (n : nat) : hasByte "010" (GoStrings.Repeat " " n) = false.
Proof.
  induction n as [|n IH]; [reflexivity|].
  cbn [GoStrings.Repeat]. now rewrite hasByte_app, IH.
Qed.

Lemma indent_lines_eq (spaces : nat) (lines : list string) :
  List.map
    (fun line => if negb (String.eqb line "")
                 then GoStrings.Repeat " " spaces +:+ line else line) lines
  = List.map (indentLine spaces) lines.
Proof.
  apply map_ext. intros line. unfold indentLine.
  destruct (String.eqb line "") eqn:E; [|reflexivity].
  apply String.eqb_eq in E. now subst.
Qed.

(** X1: [indent] keeps the line structure of its input: the lines of the
    result are the lines of the input, each non-empty one with [spaces]
    blanks in front and each empty one left empty; nothing is added at the
    end, and with no blanks the text comes back as it was. *)
Theorem indent_keeps_lines (spaces : nat) (text : string) :
  GoStrings.SplitByte (Iso.indent spaces text) "010"
  = List.map (indentLine spaces) (GoStrings.SplitByte text "010")
  /\ Iso.indent 0 text = text.
Proof.
  unfold Iso.indent. split.
  - destruct (String.eqb text "") eqn:E.
    + apply String.eqb_eq in E. subst. reflexivity.
    + rewrite indent_lines_eq. apply SplitByte_Join.
      * pose proof (SplitByte_nonempty text "010").
        destruct (GoStrings.SplitByte text "010"); [contradiction|discriminate].
      * apply Forall_map.
        eapply Forall_impl; [apply SplitByte_no_sep|].
        intros line Hline. cbn beta in Hline |- *. unfold indentLine.
        destruct (String.eqb line ""); [reflexivity|].
        now rewrite hasByte_app, hasByte_Repeat_blank, Hline.
  - destruct (String.eqb text "") eqn:E.
    + apply String.eqb_eq in E. now subst.
    + rewrite <- (Join_SplitByte text "010") at 2. f_equal.
      rewrite <- (map_id (GoStrings.SplitByte text "010")) at 2.
      apply map_ext. intros line. destruct (negb _); reflexivity.
Qed.

(* ===================================================================== *)
(** ** The hosts of the agent configuration *)
(* ===================================================================== *)



(* ===================================================================== *)
(** ** Fallback chains: trust bundle, workspace, installer binary *)
(* ===================================================================== *)

Section Chains.
Context {env : Iso.Env}.

Lemma firstReadable_pure (paths : list string) (w : World) :
  snd (Iso.firstReadable paths w) = w.
Proof.
  induction paths as [|p rest IH]; [reflexivity|].
  cbn [Iso.firstReadable]. unfold try.
  pose proof (ReadFile_pure p w) as Hp.
  destruct (ReadFile p w) as [[c|e|msg] w1]; cbn [snd] in Hp; subst w1;
    [reflexivity | exact IH | reflexivity].
Qed.

Lemma firstExisting_pure (dirs : list string) (w : World) :
  snd (Iso.firstExisting dirs w) = w.
Proof.
  induction dirs as [|d rest IH]; [reflexivity|].
  cbn [Iso.firstExisting]. unfold try. rewrite Stat_run.
  destruct (fs w !! d); [reflexivity | exact IH].
Qed.

End Chains.

(** X3: [getAdditionalTrustBundle] reads and changes nothing; the
    certificate under the registry's address wins over the one directly
    under the registry directory, which is used when the first cannot be
    read; with neither readable the result is the not-found error. *)
Theorem trust_bundle_fallback (g : Iso.ISOGenerator) (w : World) :
  let scoped := JoinPath [Iso.ClusterDir g; Iso.registryDirName;
                          Config.Registry_IP (Iso.Config g);
                          Iso.rootCACertFilename] in
  let generic := JoinPath [Iso.ClusterDir g; Iso.registryDirName;
                           Iso.rootCACertFilename] in
  snd (Iso.getAdditionalTrustBundle g w) = w
  /\ (forall pem t,
        fs w !! scoped = Some (File pem t) ->
        fst (Iso.getAdditionalTrustBundle g w) = Ok pem)
  /\ (forall pem t,
        (forall c t', fs w !! scoped <> Some (File c t')) ->
        fs w !! generic = Some (File pem t) ->
        fst (Iso.getAdditionalTrustBundle g w) = Ok pem)
  /\ ((forall c t, fs w !! scoped <> Some (File c t)) ->
      (forall c t, fs w !! generic <> Some (File c t)) ->
      fst (Iso.getAdditionalTrustBundle g w)
      = Err (ErrorsNew ("在任何预期位置都未找到 " +:+ Iso.rootCACertFilename))).
Proof.
  intros scoped generic. unfold Iso.getAdditionalTrustBundle.
  fold scoped generic. split; [apply firstReadable_pure|].
  cbn [Iso.firstReadable]. unfold try. split; [|split].
  - intros pem t H. now rewrite (ReadFile_file _ _ _ _ H).
  - intros pem t Hs Hg. destruct (ReadFile_not_file scoped w Hs) as [e ->].
    now rewrite (ReadFile_file _ _ _ _ Hg).
  - intros Hs Hg. destruct (ReadFile_not_file scoped w Hs) as [e ->].
    destruct (ReadFile_not_file generic w Hg) as [e' ->]. reflexivity.
Qed.

(** X4: [findOcMirrorWorkspace] changes nothing; the workspace directly
    under the cluster directory wins over the one under [images]; with
    neither there the result is an error. *)
Theorem mirror_workspace_fallback (g : Iso.ISOGenerator) (w : World) :
  let direct := JoinPath [Iso.ClusterDir g; Iso.ocMirrorWorkspaceDir] in
  let nested := JoinPath [Iso.ClusterDir g; Iso.imagesDirName;
                          Iso.ocMirrorWorkspaceDir] in
  (forall n, fs w !! direct = Some n ->
             Iso.findOcMirrorWorkspace g w = (Ok direct, w))
  /\ (forall n, fs w !! direct = None -> fs w !! nested = Some n ->
                Iso.findOcMirrorWorkspace g w = (Ok nested, w))
  /\ (fs w !! direct = None -> fs w !! nested = None ->
      Iso.findOcMirrorWorkspace g w
      = (Err (ErrorsNew "oc-mirror workspace 目录不存在"), w)).
Proof.
  intros direct nested. unfold Iso.findOcMirrorWorkspace. fold direct nested.
  cbn [Iso.firstExisting]. unfold try. rewrite !Stat_run.
  split; [|split].
  - intros n H. now rewrite H.
  - intros n H1 H2. rewrite H1. cbn beta iota. now rewrite H2.
  - intros H1 H2. rewrite H1. cbn beta iota. now rewrite H2.
Qed.

(** X5: [findOpenshiftInstall] changes nothing; the binary extracted for
    this version and registry host wins over the downloaded one; with
    neither there the error names both places. *)
Theorem installer_binary_fallback (g : Iso.ISOGenerator) (w : World) :
  let extracted :=
    JoinPath [Iso.ClusterDir g;
              Iso.openshiftInstallCmd +:+ "-"
              +:+ Config.ClusterInfo_OpenShiftVersion (Iso.Config g) +:+ "-"
              +:+ Iso.registryHostname (Iso.Config g)] in
  let downloaded := JoinPath [Iso.DownloadDir g; "bin"; Iso.openshiftInstallCmd] in
  (forall n, fs w !! extracted = Some n ->
             Iso.findOpenshiftInstall g w = (Ok extracted, w))
  /\ (forall n, fs w !! extracted = None -> fs w !! downloaded = Some n ->
                Iso.findOpenshiftInstall g w = (Ok downloaded, w))
  /\ (fs w !! extracted = None -> fs w !! downloaded = None ->
      Iso.findOpenshiftInstall g w
      = (Err (ErrorsNew ("在 " +:+ extracted +:+ " 或 " +:+ downloaded
                         +:+ " 中均未找到 " +:+ Iso.openshiftInstallCmd
                         +:+ " 工具")), w)).
Proof.
  intros extracted downloaded. unfold Iso.findOpenshiftInstall.
  cbv zeta. fold extracted downloaded. unfold try. rewrite !Stat_run.
  split; [|split].
  - intros n H. now rewrite H.
  - intros n H1 H2. rewrite H1. cbn beta iota. now rewrite H2.
  - intros H1 H2. rewrite H1. cbn beta iota. now rewrite H2.
Qed.

(* ===================================================================== *)
(** ** Validation before anything is written *)
(* ===================================================================== *)

(** One existence check of [ValidateConfig]: the error is raised for a
    path that is not there and could be; any other outcome of [os.Stat]
    passes. *)
Lemma missing_check (path msg : string) (w : World) :
  try (Stat path)
    (fun r =>
       match r with
       | inr e => if IsNotExist e then fail (ErrorsNew msg) else ret tt
       | inl _ => ret tt
       end) w
  = (match fs w !! path with
     | Some _ => Ok tt
     | None => if blocked (fs w) path then Ok tt else Err (ErrorsNew msg)
     end, w).
Proof.
  unfold try, Stat. destruct (fs w !! path); [reflexivity|].
  destruct (blocked (fs w) path); reflexivity.
Qed.

Lemma ValidateConfig_run {env : Iso.Env} (g : Iso.ISOGenerator) (w : World) :
  Iso.ValidateConfig g w
  = (match Iso.config_ValidateConfig (Iso.Config g) with
     | Ok _ =>
         match fs w !! JoinPath [Iso.DownloadDir g; "bin"; Iso.openshiftInstallCmd],
               blocked (fs w)
                 (JoinPath [Iso.DownloadDir g; "bin"; Iso.openshiftInstallCmd])
         with
         | None, false =>
             Err (ErrorsNew ("缺少必需的工具: " +:+ Iso.openshiftInstallCmd
                             +:+ "，请先运行 'ocpack download' 命令"))
         | _, _ =>
             match fs w !! JoinPath [Iso.ClusterDir g; Iso.pullSecretFilename],
                   blocked (fs w)
                     (JoinPath [Iso.ClusterDir g; Iso.pullSecretFilename])
             with
             | None, false =>
                 Err (ErrorsNew ("缺少 " +:+ Iso.pullSecretFilename
                                 +:+ " 文件，请先获取 Red Hat pull-secret"))
             | _, _ => Ok tt
             end
         end
     | Err e => Err e
     | Panic p => Panic p
     end, w).
Proof.
  unfold Iso.ValidateConfig. cbv zeta. unfold bind at 1. unfold lift.
  destruct (Iso.config_ValidateConfig (Iso.Config g)) as [[]|e|p];
    [|reflexivity|reflexivity].
  unfold bind. rewrite missing_check.
  destruct (fs w !! JoinPath [Iso.DownloadDir g; "bin"; Iso.openshiftInstallCmd])
    as [n|];
    [|destruct (blocked (fs w)
                  (JoinPath [Iso.DownloadDir g; "bin"; Iso.openshiftInstallCmd]))];
    try reflexivity.
  all: rewrite missing_check.
  all: destruct (fs w !! JoinPath [Iso.ClusterDir g; Iso.pullSecretFilename])
         as [n'|]; try reflexivity.
  all: destruct (blocked (fs w)
                   (JoinPath [Iso.ClusterDir g; Iso.pullSecretFilename]));
         reflexivity.
Qed.

Lemma ValidateConfig_pure {env : Iso.Env} (g : Iso.ISOGenerator) (w : World) :
  snd (Iso.ValidateConfig g w) = w.
Proof. now rewrite ValidateConfig_run. Qed.

(** X6: [ValidateConfig] changes nothing and checks in a fixed order: an
    error of the configuration check is returned as it is; then a missing
    installer binary is reported, whether or not the pull secret is there;
    then a missing pull secret; otherwise validation passes. A path counts
    as missing only when [os.Stat] says it does not exist: a path that
    cannot be walked, because a regular file stands where one of its
    directories should be, passes the check like a path that is there. *)
Theorem validation_checks_in_order (env : Iso.Env) (g : Iso.ISOGenerator)
    (w : World) :
  let toolPath := JoinPath [Iso.DownloadDir g; "bin"; Iso.openshiftInstallCmd] in
  let pullSecretPath := JoinPath [Iso.ClusterDir g; Iso.pullSecretFilename] in
  let missing path := fs w !! path = None /\ blocked (fs w) path = false in
  snd (Iso.ValidateConfig g w) = w
  /\ (forall e, Iso.config_ValidateConfig (Iso.Config g) = Err e ->
                fst (Iso.ValidateConfig g w) = Err e)
  /\ (Iso.config_ValidateConfig (Iso.Config g) = Ok tt ->
      missing toolPath ->
      fst (Iso.ValidateConfig g w)
      = Err (ErrorsNew ("缺少必需的工具: " +:+ Iso.openshiftInstallCmd
                        +:+ "，请先运行 'ocpack download' 命令")))
  /\ (Iso.config_ValidateConfig (Iso.Config g) = Ok tt ->
      ~ missing toolPath ->
      missing pullSecretPath ->
      fst (Iso.ValidateConfig g w)
      = Err (ErrorsNew ("缺少 " +:+ Iso.pullSecretFilename
                        +:+ " 文件，请先获取 Red Hat pull-secret")))
  /\ (Iso.config_ValidateConfig (Iso.Config g) = Ok tt ->
      ~ missing toolPath ->
      ~ missing pullSecretPath ->
      fst (Iso.ValidateConfig g w) = Ok tt).
Proof.
  intros toolPath pullSecretPath missing.
  split; [apply ValidateConfig_pure|].
  rewrite ValidateConfig_run. fold toolPath pullSecretPath. cbn [fst].
  subst missing. cbv beta.
  split; [|split; [|split]].
  - intros e ->. reflexivity.
  - intros -> [-> ->]. reflexivity.
  - intros -> Ht [-> ->].
    destruct (fs w !! toolPath) as [n|]; [reflexivity|].
    destruct (blocked (fs w) toolPath); [reflexivity|].
    exfalso. apply Ht. now split.
  - intros -> Ht Hp.
    assert (Hsecret :
      match fs w !! pullSecretPath, blocked (fs w) pullSecretPath with
      | None, false =>
          Err (ErrorsNew ("缺少 " +:+ Iso.pullSecretFilename
                          +:+ " 文件，请先获取 Red Hat pull-secret"))
      | _, _ => Ok tt
      end = Ok tt).
    { destruct (fs w !! pullSecretPath) as [n|]; [reflexivity|].
      destruct (blocked (fs w) pullSecretPath); [reflexivity|].
      exfalso. apply Hp. now split. }
    destruct (fs w !! toolPath) as [n|]; [exact Hsecret|].
    destruct (blocked (fs w) toolPath); [exact Hsecret|].
    exfalso. apply Ht. now split.
Qed.

(** X7: when generation is not skipped (it is forced, or the image is
    not there) and validation fails, [GenerateISO] returns that error
    wrapped as a validation failure and has created or changed nothing. *)
Theorem failed_validation_changes_nothing (env : Iso.Env)
    (g : Iso.ISOGenerator) (options : Iso.GenerateOptions) (w : World)
    (e : error) :
  Iso.Force options = true
  \/ fs w !! JoinPath [JoinPath [Iso.ClusterDir g; Iso.installDirName];
                       Iso.isoDirName;
                       Iso.ClusterName g +:+ "-agent.x86_64.iso"] = None ->
  fst (Iso.ValidateConfig g w) = Err e ->
  Iso.GenerateISO g options w = (Err (Errorf "配置验证失败" e), w).
Proof.
  intros Hgo Hval.
  pose proof (ValidateConfig_pure g w) as Hpure.
  destruct (Iso.ValidateConfig g w) as [r w1] eqn:Hrun.
  cbn [fst snd] in Hval, Hpure. subst r w1.
  unfold Iso.GenerateISO. cbv zeta.
  assert (Hex :
    (if negb (Iso.Force options)
     then try (Stat (JoinPath [JoinPath [Iso.ClusterDir g; Iso.installDirName];
                               Iso.isoDirName;
                               Iso.ClusterName g +:+ "-agent.x86_64.iso"]))
            (fun r => ret (match r with inl _ => true | inr _ => false end))
     else ret false) w = (Ok false, w)).
  { destruct Hgo as [Hf|Hnone].
    - rewrite Hf. reflexivity.
    - destruct (Iso.Force options); [reflexivity|].
      cbn [negb]. unfold try. now rewrite Stat_run, Hnone. }
  unfold bind at 1. rewrite Hex.
  unfold bind at 1. unfold wrap at 1. rewrite Hrun. reflexivity.
Qed.

Lemma failed_validation_changes_nothing_witness :
  @Iso.GenerateISO demoIsoEnv (demoGenerator demoConfig) forceOptions
    (worldOf [] 0)
  = (Err (Errorf "配置验证失败"
            (ErrorsNew ("缺少必需的工具: " +:+ Iso.openshiftInstallCmd
                        +:+ "，请先运行 'ocpack download' 命令"))),
     worldOf [] 0).
Proof.
  apply (failed_validation_changes_nothing demoIsoEnv).
  - left. reflexivity.
  - vm_compute. reflexivity.
Defined.

(* ===================================================================== *)
(** ** The installation directories ([createInstallationDirs]) *)
(* ===================================================================== *)

Lemma MkdirAll_run (path : string) (w : World) :
  (forall c t, fs w !! path <> Some (File c t)) ->
  fst (MkdirAll path w) = Ok tt
  /\ (exists t, fs (snd (MkdirAll path w)) !! path = Some (Dir t))
  /\ (forall p, p <> path -> fs (snd (MkdirAll path w)) !! p = fs w !! p)
  /\ (forall p n, fs w !! p = Some n ->
                  fs (snd (MkdirAll path w)) !! p = Some n).
Proof.
  intros Hnf. unfold MkdirAll.
  destruct (fs w !! path) as [[c t|t]|] eqn:E.
  - exfalso. now apply (Hnf c t).
  - cbn [fst snd]. repeat split; eauto.
  - cbn [fst snd fs commit]. repeat split.
    + exists (now w). now rewrite lookup_insert_eq.
    + intros p Hp. now rewrite lookup_insert_ne.
    + intros p n Hp. rewrite lookup_insert_ne; [exact Hp|congruence].
Qed.

Section Dirs.
Context {env : Iso.Env}.

Lemma mkdirs_run (dirs : list string) :
  forall w : World,
    (forall d c t, In d dirs -> fs w !! d <> Some (File c t)) ->
    fst (Iso.mkdirs dirs w) = Ok tt
    /\ (forall d, In d dirs ->
                  exists t, fs (snd (Iso.mkdirs dirs w)) !! d = Some (Dir t))
    /\ (forall p, ~ In p dirs -> fs (snd (Iso.mkdirs dirs w)) !! p = fs w !! p)
    /\ (forall p n, fs w !! p = Some n ->
                    fs (snd (Iso.mkdirs dirs w)) !! p = Some n).
Proof.
  induction dirs as [|dir rest IH]; intros w Hnf.
  - cbn. repeat split; tauto.
  - cbn [Iso.mkdirs]. unfold bind, wrap.
    destruct (MkdirAll_run dir w) as (Hok & [t Hd] & Hothers & Hkeep).
    { intros c t. apply Hnf. now left. }
    destruct (MkdirAll dir w) as [r w1]. cbn [fst snd] in *. subst r.
    destruct (IH w1) as (Hok' & Hdirs & Hrest & Hkeep').
    { intros d c t' Hin Hfile.
      destruct (decide (d = dir)) as [->|Hne]; [congruence|].
      rewrite (Hothers d Hne) in Hfile. apply (Hnf d c t'); [now right|exact Hfile]. }
    repeat split.
    + exact Hok'.
    + intros d [<-|Hin]; [|now apply Hdirs].
      exists t. now apply Hkeep'.
    + intros p Hp. rewrite Hrest by (intros Hin; apply Hp; now right).
      apply Hothers. intros ->. apply Hp. now left.
    + intros p n Hp. apply Hkeep'. now apply Hkeep.
Qed.

Lemma mkdirs_noop (dirs : list string) (w : World) :
  (forall d, In d dirs -> exists t, fs w !! d = Some (Dir t)) ->
  Iso.mkdirs dirs w = (Ok tt, w).
Proof.
  induction dirs as [|dir rest IH]; intros Hd; [reflexivity|].
  cbn [Iso.mkdirs]. unfold bind, wrap, MkdirAll.
  destruct (Hd dir (or_introl eq_refl)) as [t ->].
  apply IH. intros d Hin. apply Hd. now right.
Qed.

Lemma mkdirs_blocked (dirs : list string) :
  forall (w : World) d c t,
    In d dirs -> fs w !! d = Some (File c t) ->
    exists e, fst (Iso.mkdirs dirs w) = Err e.
Proof.
  induction dirs as [|dir rest IH]; intros w d c t Hin Hfile; [destruct Hin|].
  cbn [Iso.mkdirs]. unfold bind, wrap.
  destruct (fs w !! dir) as [[c0 t0|t0]|] eqn:E.
  - unfold MkdirAll. rewrite E. eexists. reflexivity.
  - unfold MkdirAll. rewrite E. destruct Hin as [->|Hin]; [congruence|].
    apply (IH w d c t Hin Hfile).
  - unfold MkdirAll. rewrite E. destruct Hin as [->|Hin]; [congruence|].
    apply (IH _ d c t Hin). cbn [fs commit].
    rewrite lookup_insert_ne; [exact Hfile|congruence].
Qed.

End Dirs.

(** X8: in a directory that is there, [createInstallationDirs] succeeds
    exactly when none of the installation directory, its [ignition] and
    its [iso] subdirectory is a regular file. On success the three are
    directories, whatever was in the file system is still there
    unchanged, no other path appears, and running it again changes
    nothing. *)
Theorem installation_dirs_created (installDir : string) (w : World) :
  parentIsDir w installDir ->
  let dirs := [ installDir;
                JoinPath [installDir; Iso.ignitionDirName];
                JoinPath [installDir; Iso.isoDirName] ] in
  let w' := snd (Iso.createInstallationDirs installDir w) in
  (fst (Iso.createInstallationDirs installDir w) = Ok tt
   <-> forall d c t, In d dirs -> fs w !! d <> Some (File c t))
  /\ (fst (Iso.createInstallationDirs installDir w) = Ok tt ->
      (forall d, In d dirs -> exists t, fs w' !! d = Some (Dir t))
      /\ (forall p n, fs w !! p = Some n -> fs w' !! p = Some n)
      /\ (forall p, ~ In p dirs -> fs w' !! p = fs w !! p)
      /\ Iso.createInstallationDirs installDir w' = (Ok tt, w')).
Proof.
  intros _ dirs w'. unfold Iso.createInstallationDirs in *. fold dirs in w' |- *.
  assert (Hiff : fst (Iso.mkdirs dirs w) = Ok tt
                 <-> forall d c t, In d dirs -> fs w !! d <> Some (File c t)).
  { split.
    - intros Hok d c t Hin Hfile.
      destruct (mkdirs_blocked dirs w d c t Hin Hfile) as [e He]. congruence.
    - intros Hnf. now apply mkdirs_run. }
  split; [exact Hiff|].
  intros Hok. pose proof (proj1 Hiff Hok) as Hnf.
  destruct (mkdirs_run dirs w Hnf) as (_ & Hdirs & Hrest & Hkeep).
  fold w' in Hdirs, Hrest, Hkeep.
  repeat split; try assumption.
  now apply mkdirs_noop.
Qed.

(* ===================================================================== *)
(** ** The temporary directory of [generateISOFiles] *)
(* ===================================================================== *)

Lemma defer_RemoveAll_clears {A} (dir : string) (body : M A) (w : World)
    (path : string) :
  under dir path = true ->
  fs (snd (defer (RemoveAll dir) body w)) !! path = None.
Proof.
  intros Hunder. unfold defer, RemoveAll.
  destruct (body w) as [r w1]. cbn [snd fs commit].
  apply map_lookup_filter_None_2. right. intros n _. cbn [fst]. congruence.
Qed.

Lemma defer_RemoveAll_keeps {A} (dir : string) (body : M A) (w : World)
    (path : string) :
  under dir path = false ->
  fs (snd (defer (RemoveAll dir) body w)) !! path = fs (snd (body w)) !! path.
Proof.
  intros Hout. unfold defer, RemoveAll.
  destruct (body w) as [r w1]. cbn [snd fs commit].
  destruct (fs w1 !! path) as [n|] eqn:E.
  - apply map_lookup_filter_Some_2; [exact E|exact Hout].
  - apply map_lookup_filter_None_2. now left.
Qed.

(** X9: [generateISOFiles] leaves nothing behind in its temporary
    directory. If the installer binary is not found, or the temporary
    directory cannot be made, it fails having changed nothing. Otherwise,
    however the staging, the installer, the move and the copies end,
    no path at or below the temporary directory is left when it returns:
    neither what the run put there nor what was there before. *)
Theorem temp_dir_is_always_removed (env : Iso.Env) (g : Iso.ISOGenerator)
    (installDir targetISOPath : string) (w : World) :
  let tempDir := JoinPath [installDir; Iso.tempDirName] in
  let r := Iso.generateISOFiles g installDir targetISOPath w in
  (forall e, fst (Iso.findOpenshiftInstall g w) = Err e ->
             r = (Err (Errorf "查找 openshift-install 失败" e), w))
  /\ (forall binary c t,
        fst (Iso.findOpenshiftInstall g w) = Ok binary ->
        fs w !! tempDir = Some (File c t) ->
        r = (Err (Errorf "创建临时目录失败" (PathError "mkdir" tempDir ENOTDIR)),
             w))
  /\ (forall binary,
        fst (Iso.findOpenshiftInstall g w) = Ok binary ->
        (forall c t, fs w !! tempDir <> Some (File c t)) ->
        forall path, under tempDir path = true -> fs (snd r) !! path = None).
Proof.
  intros tempDir r. subst r. unfold Iso.generateISOFiles.
  cbv zeta. fold tempDir.
  assert (Hpure : snd (Iso.findOpenshiftInstall g w) = w).
  { unfold Iso.findOpenshiftInstall, try, Stat, ret, fail. cbv zeta.
    destruct (fs w !! _); [reflexivity|]. cbn beta iota.
    destruct (fs w !! _); reflexivity. }
  destruct (Iso.findOpenshiftInstall g w) as [found w0] eqn:Hfind.
  cbn [fst snd] in Hpure. subst w0.
  split; [|split].
  - intros e He. cbn [fst] in He. subst found.
    unfold bind at 1. unfold wrap at 1. now rewrite Hfind.
  - intros binary c t Hb Hfile. cbn [fst] in Hb. subst found.
    unfold bind at 1. unfold wrap at 1. rewrite Hfind.
    unfold bind at 1. unfold wrap at 1. unfold MkdirAll. now rewrite Hfile.
  - intros binary Hb Hnf path Hunder. cbn [fst] in Hb. subst found.
    unfold bind at 1. unfold wrap at 1. rewrite Hfind.
    unfold bind at 1. unfold wrap at 1.
    destruct (MkdirAll_succeeds tempDir w Hnf) as (w1 & Hmk & _).
    rewrite Hmk. now apply defer_RemoveAll_clears.
Qed.

(* ===================================================================== *)
(** ** Rendering a template to a file ([executeTemplate]) *)
(* ===================================================================== *)

Lemma WriteAll_others (path : string) (chunks : list string) :
  forall w : World,
    (forall p, p <> path -> fs (snd (WriteAll path chunks w)) !! p = fs w !! p)
    /\ calls (snd (WriteAll path chunks w)) = calls w.
Proof.
  induction chunks as [|c rest IH]; intros w; [now split|].
  cbn [WriteAll]. unfold bind.
  destruct (Write path c w) as [r w1] eqn:Hw. unfold Write in Hw.
  destruct (fs w !! path) as [[old t|t]|]; inversion Hw; subst r w1; clear Hw;
    try (now split).
  destruct (IH (commit (insert path (File (old +:+ c) (now w))) w)) as [Hfs Hcalls].
  split.
  - intros p Hp. rewrite (Hfs p Hp). cbn [fs commit]. now rewrite lookup_insert_ne.
  - rewrite Hcalls. reflexivity.
Qed.

(** X10: a template that cannot be read or parsed, or an output path
    that is a directory, makes [executeTemplate] fail before any file is
    opened: the error names the step, and nothing has changed. *)
Theorem template_failures_leave_no_output (env : Iso.Env)
    (templatePath outputPath : string) (data : Iso.TemplateData)
    (funcMap : option Iso.FuncMap) (w : World) :
  (forall e,
     Iso.templates_ReadFile templatePath = Err e ->
     Iso.executeTemplate templatePath outputPath data funcMap w
     = (Err (Errorf ("读取模板 " +:+ templatePath +:+ " 失败") e), w))
  /\ (forall text e,
        Iso.templates_ReadFile templatePath = Ok text ->
        Iso.template_Parse (Base templatePath) funcMap text = Err e ->
        Iso.executeTemplate templatePath outputPath data funcMap w
        = (Err (Errorf ("解析模板 " +:+ templatePath +:+ " 失败") e), w))
  /\ (forall text tmpl t,
        Iso.templates_ReadFile templatePath = Ok text ->
        Iso.template_Parse (Base templatePath) funcMap text = Ok tmpl ->
        fs w !! outputPath = Some (Dir t) ->
        Iso.executeTemplate templatePath outputPath data funcMap w
        = (Err (Errorf ("创建文件 " +:+ outputPath +:+ " 失败")
                  (PathError "open" outputPath EISDIR)), w)).
Proof.
  unfold Iso.executeTemplate, bind, wrap, lift. split; [|split].
  - intros e ->. reflexivity.
  - intros text e -> . cbv beta iota. intros ->. reflexivity.
  - intros text tmpl t ->. cbv beta iota. intros ->. cbv beta iota.
    intros Hdir. unfold Create. rewrite Hdir. reflexivity.
Qed.

(** X11: once the template is read and parsed, and with the directory of
    the output path in place, [executeTemplate] replaces the file at the
    output path: whatever it held before, it ends up holding the rendered
    pieces in order and nothing else (all of them, or those rendered
    before the error that stopped the rendering); every other path is as
    it was, and no collaborator is called on the file system. *)
Theorem template_output_replaces_file (env : Iso.Env)
    (templatePath outputPath : string) (data : Iso.TemplateData)
    (funcMap : option Iso.FuncMap) (w : World) (text : string)
    (tmpl : Iso.Template) :
  Iso.templates_ReadFile templatePath = Ok text ->
  Iso.template_Parse (Base templatePath) funcMap text = Ok tmpl ->
  parentIsDir w outputPath ->
  (forall t, fs w !! outputPath <> Some (Dir t)) ->
  let r := Iso.executeTemplate templatePath outputPath data funcMap w in
  (exists t', fs (snd r) !! outputPath
              = Some (File (pieces (fst (Iso.template_Execute tmpl data))) t'))
  /\ (forall p, p <> outputPath -> fs (snd r) !! p = fs w !! p)
  /\ calls (snd r) = calls w.
Proof.
  intros Hread Hparse _ Hnd r.
  destruct (executeTemplate_in_place templatePath outputPath data funcMap w
              text tmpl Hread Hparse Hnd) as (_ & Hfin & _).
  split; [exact Hfin|]. subst r.
  set (w1 := commit (insert outputPath (File "" (now w))) w).
  assert (Hcreate : Create outputPath w = (Ok outputPath, w1)).
  { unfold Create. destruct (fs w !! outputPath) as [[c t|t]|] eqn:E;
      try reflexivity. exfalso. now apply (Hnd t). }
  destruct (Iso.template_Execute tmpl data) as [chunks err] eqn:Hex.
  destruct (WriteAll_others outputPath chunks w1) as [Hfs Hcalls].
  destruct (WriteAll_grows outputPath chunks w1 "" (now w)) as (Hok & _).
  { subst w1. cbn [fs commit]. apply lookup_insert_eq. }
  destruct (WriteAll outputPath chunks w1) as [res w2] eqn:Hrun.
  cbn [fst snd] in Hfs, Hcalls, Hok. subst res.
  assert (Hexec :
    snd (Iso.executeTemplate templatePath outputPath data funcMap w) = w2).
  { unfold Iso.executeTemplate, bind, wrap, lift.
    rewrite Hread. cbv beta iota. rewrite Hparse. cbv beta iota.
    rewrite Hcreate. cbv beta iota. rewrite Hex. cbn [fst snd].
    rewrite Hrun. cbv beta iota. destruct err; reflexivity. }
  rewrite Hexec. split.
  - intros p Hp. rewrite (Hfs p Hp). subst w1. cbn [fs commit].
    now rewrite lookup_insert_ne.
  - rewrite Hcalls. reflexivity.
Qed.

(** On the demo cluster, rendering the agent configuration over the one
    an earlier run left replaces its bytes and leaves the pull secret. *)
Lemma template_output_replaces_file_witness :
  let r := Iso.executeTemplate (env := demoIsoEnv) "templates/agent-config.yaml"
             demoAgentConfigPath (Iso.AgentData demoAgentData) None
             renderedWorld in
  fs renderedWorld !! demoAgentConfigPath
  = Some (File "left by an earlier run" 900)
  /\ (exists t', fs (snd r) !! demoAgentConfigPath
                 = Some (File demoAgentConfigText t'))
  /\ fs (snd r) !! "/work/my-cluster/pull-secret.txt"
     = Some (File "fresh pull secret" 0).
Proof.
  intros r.
  destruct (template_output_replaces_file demoIsoEnv
              "templates/agent-config.yaml" demoAgentConfigPath
              (Iso.AgentData demoAgentData)
              None renderedWorld ("# templates/agent-config.yaml" +:+ Iso.nl)
              ("# templates/agent-config.yaml" +:+ Iso.nl))
    as (Hfin & Hrest & _).
  - reflexivity.
  - reflexivity.
  - exists 0. vm_compute. reflexivity.
  - intros t. vm_compute. discriminate.
  - split; [vm_compute; reflexivity|]. split; [exact Hfin|].
    subst r. rewrite Hrest; [vm_compute; reflexivity|].
    vm_compute. discriminate.
Defined.

(* ===================================================================== *)
(** ** The pull secret ([getPullSecret], [createMergedAuthConfig]) *)
(* ===================================================================== *)

(** X12: a merged credentials file that is already there decides the
    pull secret: its trimmed content is returned, the original pull secret
    is not looked at and nothing is written. If a directory sits at that
    path instead, the call fails; it does not fall back on the original
    pull secret. *)
Theorem merged_file_decides_pull_secret (env : Iso.Env) (g : Iso.ISOGenerator)
    (w : World) :
  let mergedAuthPath :=
    JoinPath [Iso.ClusterDir g; Iso.registryDirName; Iso.mergedAuthFilename] in
  (forall content t,
     fs w !! mergedAuthPath = Some (File content t) ->
     Iso.getPullSecret g w = (Ok (GoStrings.TrimSpace content), w))
  /\ (forall t,
        fs w !! mergedAuthPath = Some (Dir t) ->
        Iso.getPullSecret g w
        = (Err (Errorf "读取合并认证文件失败"
                  (PathError "read" mergedAuthPath EISDIR)), w)).
Proof.
  intros mergedAuthPath. unfold Iso.getPullSecret.
  cbn [Iso.getPullSecretAt]. fold mergedAuthPath.
  split.
  - intros content t H. unfold try, Stat. rewrite H.
    unfold bind, wrap, ReadFile. rewrite H. reflexivity.
  - intros t H. unfold try, Stat. rewrite H.
    unfold bind, wrap, ReadFile. rewrite H. reflexivity.
Qed.

(** X13: with no merged file there and a merge that fails before it
    writes anything, the original pull secret is used as it is (trimmed),
    and nothing is written; if the original cannot be read either, that
    read error is the result. *)
Theorem pull_secret_falls_back_to_original (env : Iso.Env)
    (g : Iso.ISOGenerator) (w : World) (e : error) :
  fs w !! JoinPath [Iso.ClusterDir g; Iso.registryDirName; Iso.mergedAuthFilename]
  = None ->
  Iso.createMergedAuthConfig g w = (Err e, w) ->
  let pullSecretPath := JoinPath [Iso.ClusterDir g; Iso.pullSecretFilename] in
  (forall raw t,
     fs w !! pullSecretPath = Some (File raw t) ->
     Iso.getPullSecret g w = (Ok (GoStrings.TrimSpace raw), w))
  /\ (forall e',
        fst (ReadFile pullSecretPath w) = Err e' ->
        Iso.getPullSecret g w
        = (Err (Errorf "读取原始 pull-secret 失败" e'), w)).
Proof.
  intros Hnone Hrun pullSecretPath.
  assert (Hstep :
    Iso.getPullSecret g w
    = bind (wrap "读取原始 pull-secret 失败" (ReadFile pullSecretPath))
        (fun secretBytes => ret (GoStrings.TrimSpace secretBytes)) w).
  { unfold Iso.getPullSecret. cbn [Iso.getPullSecretAt].
    unfold try at 1. unfold Stat. rewrite Hnone.
    unfold try at 1. rewrite Hrun. reflexivity. }
  rewrite Hstep. split.
  - intros raw t Hraw. unfold bind, wrap, ReadFile. now rewrite Hraw.
  - intros e' Hread. pose proof (ReadFile_pure pullSecretPath w) as Hpure.
    destruct (ReadFile pullSecretPath w) as [r w1] eqn:E.
    cbn [fst snd] in Hread, Hpure. subst r w1.
    apply bind_err, wrap_err. exact E.
Qed.

(** On a cluster directory whose pull secret is not JSON: decoding fails,
    nothing is written, and the text is used as it is. *)
Lemma pull_secret_falls_back_to_original_witness :
  Iso.getPullSecret (env := demoIsoEnv) (demoGenerator demoConfig)
    (worldOf [("/work/my-cluster", Dir 0);
              ("/work/my-cluster/pull-secret.txt", File "  not json  " 0)] 5)
  = (Ok "not json",
     worldOf [("/work/my-cluster", Dir 0);
              ("/work/my-cluster/pull-secret.txt", File "  not json  " 0)] 5).
Proof.
  refine (proj1 (pull_secret_falls_back_to_original demoIsoEnv
                   (demoGenerator demoConfig)
                   (worldOf [("/work/my-cluster", Dir 0);
                             ("/work/my-cluster/pull-secret.txt",
                              File "  not json  " 0)] 5)
                   (Errorf "解析 pull-secret.txt JSON 失败"
                      (ErrorsNew "invalid character")) _ _)
            "  not json  " 0 _).
  - vm_compute. reflexivity.
  - vm_compute. reflexivity.
  - vm_compute. reflexivity.
Defined.

(** X14: with no merged file there and a merge that succeeds,
    [getPullSecret] returns the trimmed content of the merged file that
    was just written, after one nested call; asking again gives the same
    answer and changes nothing more. *)
Theorem pull_secret_after_merge (env : Iso.Env) (g : Iso.ISOGenerator)
    (w w1 : World) :
  let mergedAuthPath :=
    JoinPath [Iso.ClusterDir g; Iso.registryDirName; Iso.mergedAuthFilename] in
  fs w !! mergedAuthPath = None ->
  Iso.createMergedAuthConfig g w = (Ok tt, w1) ->
  exists out,
    fs w1 !! mergedAuthPath = Some (File out (now w))
    /\ Iso.getPullSecret g w = (Ok (GoStrings.TrimSpace out), w1)
    /\ Iso.getPullSecret g w1 = (Ok (GoStrings.TrimSpace out), w1).
Proof.
  intros mergedAuthPath Hnone Hrun.
  destruct (createMergedAuthConfig_in_place g w w1 Hrun) as (_ & out & Hout).
  rewrite merged_path in Hout. fold mergedAuthPath in Hout.
  exists out. split; [exact Hout|].
  assert (Hread : forall d, Iso.getPullSecretAt d g w1
                            = (Ok (GoStrings.TrimSpace out), w1)).
  { intros d. destruct d; cbn [Iso.getPullSecretAt]; fold mergedAuthPath;
      unfold try, Stat; rewrite Hout; unfold bind, wrap, ReadFile;
      rewrite Hout; reflexivity. }
  split; [|apply Hread].
  unfold Iso.getPullSecret. cbn [Iso.getPullSecretAt]. fold mergedAuthPath.
  unfold try at 1. unfold Stat at 1. rewrite Hnone.
  unfold try at 1. rewrite Hrun. apply (Hread 0%nat).
Qed.

Lemma pull_secret_after_merge_witness :
  exists out,
    fs (snd (Iso.createMergedAuthConfig (env := demoIsoEnv)
               (demoGenerator demoConfig) mirroredWorld))
      !! "/work/my-cluster/registry/merged-auth.json"
    = Some (File out 1000)
    /\ Iso.getPullSecret (env := demoIsoEnv) (demoGenerator demoConfig)
         mirroredWorld
       = (Ok (GoStrings.TrimSpace out),
          snd (Iso.createMergedAuthConfig (env := demoIsoEnv)
                 (demoGenerator demoConfig) mirroredWorld))
    /\ Iso.getPullSecret (env := demoIsoEnv) (demoGenerator demoConfig)
         (snd (Iso.createMergedAuthConfig (env := demoIsoEnv)
                 (demoGenerator demoConfig) mirroredWorld))
       = (Ok (GoStrings.TrimSpace out),
          snd (Iso.createMergedAuthConfig (env := demoIsoEnv)
                 (demoGenerator demoConfig) mirroredWorld)).
Proof.
  apply (pull_secret_after_merge demoIsoEnv (demoGenerator demoConfig)
           mirroredWorld).
  - vm_compute. reflexivity.
  - destruct (Iso.createMergedAuthConfig (env := demoIsoEnv)
                (demoGenerator demoConfig) mirroredWorld) as [r w'] eqn:Hrun.
    assert (Hr : r = Ok tt).
    { apply (f_equal fst) in Hrun. vm_compute in Hrun. now subst r. }
    now subst r.
Defined.


(* ===================================================================== *)
(** ** The optional inputs of [generateInstallConfig] *)
(* ===================================================================== *)

Lemma quiet_ret {A} (a : A) (w : World) : quiet (ret a) w.
Proof. split; [reflexivity|discriminate]. Qed.

Lemma quiet_fail {A} (e : error) (w : World) : quiet (fail (A := A) e) w.
Proof. split; [reflexivity|discriminate]. Qed.

Lemma quiet_lift {A} (r : outcome A) (w : World) :
  (forall p, r <> Panic p) -> quiet (lift r) w.
Proof. intros H. split; [reflexivity|exact H]. Qed.

Lemma quiet_Stat (path : string) (w : World) : quiet (Stat path) w.
Proof. unfold quiet, Stat. destruct (fs w !! path); split; easy. Qed.

Lemma quiet_ReadFile (path : string) (w : World) : quiet (ReadFile path) w.
Proof.
  unfold quiet, ReadFile. destruct (fs w !! path) as [[c t|t]|]; split; easy.
Qed.

Lemma quiet_ReadDir (dir : string) (w : World) : quiet (ReadDir dir) w.
Proof.
  unfold quiet, ReadDir. destruct (fs w !! dir) as [[c t|t]|]; split; easy.
Qed.

Lemma quiet_wrap {A} (msg : string) (m : M A) (w : World) :
  quiet m w -> quiet (wrap msg m) w.
Proof.
  unfold quiet, wrap. destruct (m w) as [[a|e|p] w1]; cbn [fst snd];
    intros [Hw Hp]; split; try easy.
Qed.

Lemma quiet_bind {A B} (m : M A) (k : A -> M B) (w : World) :
  quiet m w -> (forall a, quiet (k a) w) -> quiet (bind m k) w.
Proof.
  unfold quiet at 1 3, bind. destruct (m w) as [[a|e|p] w1]; cbn [fst snd];
    intros [-> Hp] Hk.
  - apply Hk.
  - split; easy.
  - exfalso. now apply (Hp p).
Qed.

Lemma quiet_try {A B} (m : M A) (k : A + error -> M B) (w : World) :
  quiet m w -> (forall r, quiet (k r) w) -> quiet (try m k) w.
Proof.
  unfold quiet at 1 3, try. destruct (m w) as [[a|e|p] w1]; cbn [fst snd];
    intros [-> Hp] Hk.
  - apply Hk.
  - apply Hk.
  - exfalso. now apply (Hp p).
Qed.

Lemma orEmpty_quiet (m : M string) (w : World) :
  quiet m w -> Iso.orEmpty m w = (Ok (valueOrEmpty (fst (m w))), w).
Proof.
  unfold quiet, Iso.orEmpty, try. destruct (m w) as [[v|e|p] w1];
    cbn [fst snd]; intros [-> Hp]; try reflexivity.
  exfalso. now apply (Hp p).
Qed.

Section Optional.
Context {env : Iso.Env}.

Lemma quiet_getSSHKey (w : World) :
  (forall p, Iso.os_UserHomeDir <> Panic p) -> quiet Iso.getSSHKey w.
Proof.
  intros Hhome. unfold Iso.getSSHKey.
  apply quiet_bind; [apply quiet_wrap, quiet_lift, Hhome|].
  intros home. apply quiet_bind; [apply quiet_wrap, quiet_ReadFile|].
  intros bytes. apply quiet_ret.
Qed.

Lemma quiet_firstReadable (paths : list string) (w : World) :
  quiet (Iso.firstReadable paths) w.
Proof.
  induction paths as [|p rest IH]; [apply quiet_fail|].
  cbn [Iso.firstReadable]. apply quiet_try; [apply quiet_ReadFile|].
  intros [bytes|e]; [apply quiet_ret|exact IH].
Qed.

Lemma quiet_firstExisting (dirs : list string) (w : World) :
  quiet (Iso.firstExisting dirs) w.
Proof.
  induction dirs as [|d rest IH]; [apply quiet_fail|].
  cbn [Iso.firstExisting]. apply quiet_try; [apply quiet_Stat|].
  intros [info|e]; [apply quiet_ret|exact IH].
Qed.

Lemma quiet_latestLoop (ws : string) (entries : list DirEntry) (w : World) :
  forall latestDir latestTime,
    quiet (Iso.latestLoop ws entries latestDir latestTime) w.
Proof.
  induction entries as [|entry rest IH]; intros latestDir latestTime;
    [apply quiet_ret|].
  cbn [Iso.latestLoop].
  destruct (negb (EntryIsDir entry)
            || negb (GoStrings.HasPrefix (EntryName entry) "results-"));
    [apply IH|].
  apply quiet_try; [apply quiet_ReadDir|].
  intros r. destruct (length _ =? 0)%nat; [apply IH|].
  destruct (Iso.utils_ParseTimestamp _) as [timeValue|]; [|apply IH].
  destruct (timeValue >? latestTime); apply IH.
Qed.

Lemma quiet_findAndParseICSP (g : Iso.ISOGenerator) (w : World) :
  quiet (Iso.findAndParseICSP g) w.
Proof.
  unfold Iso.findAndParseICSP.
  apply quiet_bind; [apply quiet_firstExisting|]. intros workspaceDir.
  apply quiet_bind.
  { apply quiet_wrap. unfold Iso.findLatestResultsDir.
    apply quiet_bind; [apply quiet_wrap, quiet_ReadDir|]. intros entries.
    unfold Iso.selectLatest. apply quiet_bind; [apply quiet_latestLoop|].
    intros latest. destruct (String.eqb _ _); [apply quiet_fail|apply quiet_ret]. }
  intros latestResultsDir.
  apply quiet_bind; [apply quiet_wrap, quiet_ReadFile|]. intros icspContent.
  apply quiet_lift. intros p. unfold Iso.parseICSP.
  destruct (snd (Iso.yaml_Decode icspContent)); [discriminate|].
  destruct (String.length _ =? 0)%nat; discriminate.
Qed.

End Optional.

(** X16: of the inputs of [generateInstallConfig] only the pull secret
    is required. An error of [getPullSecret] is returned as it is and no
    document is written. With a pull secret at hand the document is
    rendered whether or not the SSH key, the trust bundle and the mirror
    policy can be had: looking for them changes nothing, each one that
    cannot be had is passed to the template as the empty string, and the
    numbers of masters and workers are the lengths of the two host lists. *)
Theorem only_the_pull_secret_is_required (env : Iso.Env)
    (g : Iso.ISOGenerator) (installDir : string) (w : World) :
  (forall e w1,
     Iso.getPullSecret g w = (Err e, w1) ->
     Iso.generateInstallConfig g installDir w = (Err e, w1))
  /\ (forall secret w1,
        Iso.getPullSecret g w = (Ok secret, w1) ->
        (forall p, Iso.os_UserHomeDir <> Panic p) ->
        exists data,
          Iso.generateInstallConfig g installDir w
          = Iso.executeTemplate "templates/install-config.yaml"
              (JoinPath [installDir; Iso.installConfigFilename])
              (Iso.InstallData data) (Some [("indent", Iso.indent)]) w1
          /\ Iso.PullSecret data = secret
          /\ Iso.SSHKeyPub data = valueOrEmpty (fst (Iso.getSSHKey w1))
          /\ Iso.AdditionalTrustBundle data
             = valueOrEmpty (fst (Iso.getAdditionalTrustBundle g w1))
          /\ Iso.ImageContentSources data
             = valueOrEmpty (fst (Iso.findAndParseICSP g w1))
          /\ Iso.NumMasters data
             = Z.of_nat (length (Config.Cluster_ControlPlane (Iso.Config g)))
          /\ Iso.NumWorkers data
             = Z.of_nat (length (Config.Cluster_Worker (Iso.Config g)))).
Proof.
  split.
  - intros e w1 Hps. unfold Iso.generateInstallConfig.
    unfold bind at 1. now rewrite Hps.
  - intros secret w1 Hps Hhome. eexists. split.
    + unfold Iso.generateInstallConfig.
      unfold bind at 1. rewrite Hps.
      unfold bind at 1. rewrite (orEmpty_quiet _ w1 (quiet_getSSHKey w1 Hhome)).
      unfold bind at 1.
      rewrite (orEmpty_quiet (Iso.getAdditionalTrustBundle g) w1
                 (quiet_firstReadable _ w1)).
      unfold bind at 1.
      rewrite (orEmpty_quiet _ w1 (quiet_findAndParseICSP g w1)).
      reflexivity.
    + cbn [Iso.PullSecret Iso.SSHKeyPub Iso.AdditionalTrustBundle
           Iso.ImageContentSources Iso.NumMasters Iso.NumWorkers].
      repeat split; reflexivity.
Qed.

(* ===================================================================== *)
(** ** Copying the installer's by-products ([generateISOFiles]) *)
(* ===================================================================== *)

(** X17: the loop that copies [auth] and the installer's log and state
    files out of the temporary directory never returns an error: a copy
    that fails is reported and the loop goes on. A file that is not in the
    temporary directory is skipped without calling the copy tool, so with
    none of them there the loop changes nothing. *)
Theorem failed_copies_are_not_errors (env : Iso.Env)
    (tempDir ignitionDir : string) (files : list string) (w : World) :
  (forall e, fst (Iso.copyOut tempDir ignitionDir files w) <> Err e)
  /\ ((forall file, In file files -> fs w !! JoinPath [tempDir; file] = None) ->
      Iso.copyOut tempDir ignitionDir files w = (Ok tt, w)).
Proof.
  split.
  - revert w. induction files as [|file rest IH]; intros w e; [discriminate|].
    cbn [Iso.copyOut]. unfold bind, try, Stat.
    destruct (fs w !! JoinPath [tempDir; file]).
    + unfold invoke.
      destruct (Iso.utils_CopyFileOrDir _ _ (fs w)) as [[[]|e0|p] fs'];
        cbn beta iota; unfold ret; cbn beta iota;
        try apply IH; discriminate.
    + unfold ret. cbn beta iota. apply IH.
  - induction files as [|file rest IH]; intros Hnone; [reflexivity|].
    cbn [Iso.copyOut]. unfold bind, try, Stat.
    rewrite (Hnone file (or_introl eq_refl)). unfold ret. cbn beta iota.
    apply IH. intros f Hin. apply Hnone. now right.
Qed.

(* ===================================================================== *)
(** ** From the collector's schema to operator records *)
(* ===================================================================== *)






(* ===================================================================== *)
(** ** Writing the cache and reading it back *)
(* ===================================================================== *)

(** X19: what [writeOperatorsToCache] has written,
    [readAllOperatorsFromCache] reads back, for a codec that decodes what
    it encoded: once the write has succeeded, reading gives the very
    records that were written and changes nothing, and [isCacheValid]
    finds the cache valid. *)
Theorem cache_round_trip (env : CatalogNew.Env)
    (cm : CatalogNew.CatalogManagerNew) (ops : list CatalogNew.OperatorInfo)
    (w : World) (text : string) :
  CatalogNew.json_Encode ops = Ok text ->
  CatalogNew.json_Decode text = Ok ops ->
  fst (CatalogNew.writeOperatorsToCache cm ops w) = Ok tt ->
  let w' := snd (CatalogNew.writeOperatorsToCache cm ops w) in
  CatalogNew.readAllOperatorsFromCache cm w' = (Ok ops, w')
  /\ CatalogNew.isCacheValid cm w' = (Ok true, w').
Proof.
  intros Henc Hdec Hrun w'. subst w'. revert Hrun.
  rewrite writeOperatorsToCache_discipline. intros Hrun.
  destruct (tempThenRename_atomic (CatalogNew.CacheFile cm)
              (CatalogNew.json_Encode ops) "创建临时缓存文件失败"
              "编码 JSON 失败" "重命名缓存文件失败" w)
    as (Hnow & _ & _ & Hok & _ & _).
  destruct (Hok Hrun)
    as (text' & s1 & s2 & Ht & _ & _ & _ & _ & _ & _ & Hfin).
  rewrite Henc in Ht. injection Ht as <-.
  set (w' := snd (tempThenRename _ _ _ _ _ w)) in *.
  split.
  - pose proof (readAllOperatorsFromCache_pure cm w') as Hpure.
    pose proof (readAllOperatorsFromCache_decodes cm w' text (now w) ops
                  Hfin Hdec) as Hread.
    destruct (CatalogNew.readAllOperatorsFromCache cm w') as [r w2].
    cbn [fst snd] in Hpure, Hread. now subst.
  - destruct (isCacheValid_fresh cm w') as (b & Hvalid & Hb).
    rewrite Hvalid. f_equal. f_equal. apply Hb.
    exists (File text (now w)). split; [exact Hfin|].
    cbn [infoOf ModTime]. subst w'. rewrite Hnow, Z.sub_diag. reflexivity.
Qed.

(** Overwriting the day-old cache of the demo catalog, in its directory. *)
Lemma cache_round_trip_witness :
  fst (CatalogNew.readAllOperatorsFromCache (env := demoCatalogEnv)
         demoManager
         (snd (CatalogNew.writeOperatorsToCache (env := demoCatalogEnv)
                 demoManager fetchedOps (cachedWorld (25 * Hour)))))
  = Ok fetchedOps.
Proof.
  destruct (cache_round_trip demoCatalogEnv demoManager fetchedOps
              (cachedWorld (25 * Hour)) (encodeOps fetchedOps))
    as (Hread & _).
  - reflexivity.
  - vm_compute. reflexivity.
  - vm_compute. reflexivity.
  - now rewrite Hread.
Defined.

(* ===================================================================== *)
(** ** Looking one operator up ([GetOperatorInfo]) *)
(* ===================================================================== *)

Lemma find_first_named (name : string) (before after : list CatalogNew.OperatorInfo)
    (op : CatalogNew.OperatorInfo) :
  CatalogNew.Name op = name ->
  Forall (fun o => CatalogNew.Name o <> name) before ->
  List.find (fun o => String.eqb (CatalogNew.Name o) name)
    (before ++ op :: after) = Some op.
Proof.
  intros Hop Hbefore. induction Hbefore as [|o rest Ho _ IH].
  - cbn. apply String.eqb_eq in Hop. now rewrite Hop.
  - cbn. apply String.eqb_neq in Ho. now rewrite Ho.
Qed.

Lemma find_none_named (name : string) (ops : list CatalogNew.OperatorInfo) :
  Forall (fun o => CatalogNew.Name o <> name) ops ->
  List.find (fun o => String.eqb (CatalogNew.Name o) name) ops = None.
Proof.
  induction 1 as [|o rest Ho _ IH]; [reflexivity|].
  cbn. apply String.eqb_neq in Ho. now rewrite Ho.
Qed.

(** X20: [GetOperatorInfo] looks the name up in what [GetAllOperators]
    returns, and does nothing else: an error of [GetAllOperators] is
    returned as it is; otherwise the result is the first record whose name
    is the given one, byte for byte, whatever follows it; with no such
    record it is the not-found error. *)
Theorem operator_lookup_is_exact (env : CatalogNew.Env)
    (cm : CatalogNew.CatalogManagerNew) (operatorName : string) (w : World) :
  (forall e w',
     CatalogNew.GetAllOperators cm w = (Err e, w') ->
     CatalogNew.GetOperatorInfo cm operatorName w = (Err e, w'))
  /\ (forall before op after w',
        CatalogNew.GetAllOperators cm w = (Ok (before ++ op :: after), w') ->
        CatalogNew.Name op = operatorName ->
        Forall (fun o => CatalogNew.Name o <> operatorName) before ->
        CatalogNew.GetOperatorInfo cm operatorName w = (Ok op, w'))
  /\ (forall ops w',
        CatalogNew.GetAllOperators cm w = (Ok ops, w') ->
        Forall (fun o => CatalogNew.Name o <> operatorName) ops ->
        CatalogNew.GetOperatorInfo cm operatorName w
        = (Err (ErrorsNew ("未找到 Operator: " +:+ operatorName)), w')).
Proof.
  unfold CatalogNew.GetOperatorInfo, bind. split; [|split].
  - intros e w' ->. reflexivity.
  - intros before op after w' -> Hop Hbefore.
    now rewrite (find_first_named _ before after op Hop Hbefore).
  - intros ops w' -> Hnone. now rewrite (find_none_named _ ops Hnone).
Qed.

(* ===================================================================== *)
(** ** The scratch directory of [downloadCatalogUsingMirror] *)
(* ===================================================================== *)


(* ===================================================================== *)
(** ** Names derived from image references *)
(* ===================================================================== *)

Lemma ReplaceAllByte_removes (s : string) (old : ascii) (new : string) :
  hasByte old new = false ->
  hasByte old (GoStrings.ReplaceAllByte s old new) = false.
Proof.
  intros Hnew. induction s as [|c s IH]; [reflexivity|].
  cbn [GoStrings.ReplaceAllByte]. destruct (Ascii.eqb c old) eqn:E.
  - now rewrite hasByte_app, Hnew, IH.
  - cbn [hasByte]. now rewrite E, IH.
Qed.

Lemma ReplaceAllByte_keeps_absent (c : ascii) (s : string) (old : ascii)
    (new : string) :
  hasByte c s = false -> hasByte c new = false ->
  hasByte c (GoStrings.ReplaceAllByte s old new) = false.
Proof.
  intros Hs Hnew. induction s as [|d s IH]; [reflexivity|].
  cbn [hasByte] in Hs. apply orb_false_iff in Hs. destruct Hs as [Hd Hs].
  cbn [GoStrings.ReplaceAllByte]. destruct (Ascii.eqb d old).
  - now rewrite hasByte_app, Hnew, IH.
  - cbn [hasByte]. now rewrite Hd, IH.
Qed.

Lemma ReplaceAllByte_app (s t : string) (old : ascii) (new : string) :
  GoStrings.ReplaceAllByte (s +:+ t) old new
  = GoStrings.ReplaceAllByte s old new +:+ GoStrings.ReplaceAllByte t old new.
Proof.
  induction s as [|c s IH]; [reflexivity|].
  rewrite append_cons. cbn [GoStrings.ReplaceAllByte].
  destruct (Ascii.eqb c old); rewrite IH.
  - now rewrite append_assoc.
  - reflexivity.
Qed.

Lemma ReplaceAllByte_length (s : string) (old new : ascii) :
  String.length (GoStrings.ReplaceAllByte s old (String new ""))
  = String.length s.
Proof.
  induction s as [|c s IH]; [reflexivity|].
  cbn [GoStrings.ReplaceAllByte]. destruct (Ascii.eqb c old).
  - change (String new "" +:+ ?x) with (String new x).
    cbn [String.length]. now rewrite IH.
  - cbn [String.length]. now rewrite IH.
Qed.

Lemma splitLast_flat (name : string) :
  hasByte "/" name = false -> splitLast name = None.
Proof.
  induction name as [|c name IH]; intros H; [reflexivity|].
  cbn [hasByte] in H. apply orb_false_iff in H. destruct H as [Hc Hn].
  cbn [splitLast]. now rewrite (IH Hn), Hc.
Qed.

Lemma splitLast_app (dir name : string) :
  hasByte "/" name = false ->
  splitLast (dir +:+ String "/" name) = Some (dir, name).
Proof.
  intros Hn. induction dir as [|c dir IH].
  - change ("" +:+ String "/" name) with (String "/" name).
    cbn [splitLast]. now rewrite (splitLast_flat _ Hn).
  - rewrite append_cons. cbn [splitLast]. now rewrite IH.
Qed.

(** The last element of a path joined from a directory and a name. *)
Lemma Base_JoinPath (dir name : string) :
  name <> "" -> hasByte "/" name = false ->
  Base (JoinPath [dir; name]) = name.
Proof.
  intros Hne Hn. rewrite (join_two _ _ Hne). unfold Base.
  destruct (String.eqb dir "").
  - rewrite (splitLast_flat _ Hn). destruct name; [contradiction|reflexivity].
  - change (dir +:+ "/" +:+ name) with (dir +:+ String "/" name).
    now rewrite (splitLast_app _ _ Hn).
Qed.

(** X22: the cache and lock files of a catalog manager are named after
    the catalog image with every [/] and [:] turned into [_]: the last
    element of the cache file's path is that name followed by
    [_new.json], the last element of the lock file's path is it between a
    dot and [.lock]; the name has neither byte and is as long as the
    image reference. The name does not tell the three bytes apart, so
    image references that differ only in which of [/], [:] and [_] stands
    at a place share one cache file and one lock file. *)
Theorem cache_file_name_is_flat (catalogImage cacheDir workingDir : string) :
  (exists safeName,
     Base (CatalogNew.CacheFile
             (CatalogNew.NewCatalogManagerNew catalogImage cacheDir workingDir))
     = safeName +:+ "_new.json"
     /\ Base (CatalogNew.LockFile
                (CatalogNew.NewCatalogManagerNew catalogImage cacheDir
                   workingDir))
        = "." +:+ safeName +:+ ".lock"
     /\ hasByte "/" safeName = false
     /\ hasByte ":" safeName = false
     /\ String.length safeName = String.length catalogImage)
  /\ forall p q sep,
       sep = "/"%char \/ sep = ":"%char ->
       CatalogNew.CacheFile
         (CatalogNew.NewCatalogManagerNew (p +:+ String sep q) cacheDir workingDir)
       = CatalogNew.CacheFile
           (CatalogNew.NewCatalogManagerNew (p +:+ String "_" q) cacheDir
              workingDir)
       /\ CatalogNew.LockFile
            (CatalogNew.NewCatalogManagerNew (p +:+ String sep q) cacheDir
               workingDir)
          = CatalogNew.LockFile
              (CatalogNew.NewCatalogManagerNew (p +:+ String "_" q) cacheDir
                 workingDir).
Proof.
  split.
  - set (safeName :=
           GoStrings.ReplaceAllByte
             (GoStrings.ReplaceAllByte catalogImage "/" "_") ":" "_").
    assert (Hslash : hasByte "/" safeName = false).
    { apply ReplaceAllByte_keeps_absent; [|reflexivity].
      now apply ReplaceAllByte_removes. }
    exists safeName. split; [|split; [|split; [|split]]].
    + unfold CatalogNew.NewCatalogManagerNew. cbn [CatalogNew.CacheFile].
      fold safeName. apply Base_JoinPath.
      * intros H. apply (f_equal String.length) in H.
        rewrite length_append in H. cbn in H. lia.
      * now rewrite hasByte_app, Hslash.
    + unfold CatalogNew.NewCatalogManagerNew. cbn [CatalogNew.LockFile].
      fold safeName. apply Base_JoinPath.
      * discriminate.
      * change ("." +:+ safeName +:+ ".lock")
          with (String "." (safeName +:+ ".lock")).
        cbn [hasByte]. now rewrite hasByte_app, Hslash.
    + exact Hslash.
    + now apply ReplaceAllByte_removes.
    + subst safeName. now rewrite !ReplaceAllByte_length.
  - intros p q sep Hsep.
    assert (Hsame :
      GoStrings.ReplaceAllByte
        (GoStrings.ReplaceAllByte (p +:+ String sep q) "/" "_") ":" "_"
      = GoStrings.ReplaceAllByte
          (GoStrings.ReplaceAllByte (p +:+ String "_" q) "/" "_") ":" "_").
    { rewrite !ReplaceAllByte_app. f_equal.
      destruct Hsep as [-> | ->]; reflexivity. }
    unfold CatalogNew.NewCatalogManagerNew.
    cbn [CatalogNew.CacheFile CatalogNew.LockFile]. now rewrite Hsame.
Qed.

Lemma pieces_keep_absent (d : ascii) (s : string) (c : ascii) :
  hasByte d s = false ->
  Forall (fun p => hasByte d p = false) (GoStrings.SplitByte s c).
Proof.
  induction s as [|x s IH]; intros Hs.
  - repeat constructor.
  - cbn [hasByte] in Hs. apply orb_false_iff in Hs. destruct Hs as [Hx Hs].
    specialize (IH Hs). cbn [GoStrings.SplitByte].
    destruct (Ascii.eqb x c); [constructor; [reflexivity|exact IH]|].
    destruct (GoStrings.SplitByte s c) as [|p ps].
    + repeat constructor. cbn [hasByte]. now rewrite Hx.
    + inversion IH; subst. constructor; [|assumption].
      cbn [hasByte]. rewrite Hx. assumption.
Qed.

Lemma last_keeps (P : string -> Prop) (l : list string) (d : string) :
  Forall P l -> P d -> P (List.last l d).
Proof.
  intros Hl Hd. induction Hl as [|x l Hx Hl IH]; [exact Hd|].
  destruct l; [exact Hx|exact IH].
Qed.

Lemma headOr_keeps (P : string -> Prop) (l : list string) (d : string) :
  Forall P l -> P d -> P (CatalogNew.headOr d l).
Proof. intros Hl Hd. destruct Hl; [exact Hd|assumption]. Qed.

Lemma substring_keeps_absent (c : ascii) (s : string) :
  hasByte c s = false ->
  forall n m, hasByte c (String.substring n m s) = false.
Proof.
  induction s as [|x s IH]; intros Hs n m.
  - destruct n, m; reflexivity.
  - cbn [hasByte] in Hs. apply orb_false_iff in Hs. destruct Hs as [Hx Hs].
    destruct n as [|n]; cbn [String.substring].
    + destruct m as [|m]; [reflexivity|]. cbn [hasByte]. now rewrite Hx, IH.
    + now apply IH.
Qed.

(** What is left of the last path element once a tag and a digest have
    been cut off holds none of the three separators. *)
Lemma bare_name (ref : string) :
  let name :=
    CatalogNew.headOr ""
      (GoStrings.SplitByte
         (CatalogNew.headOr ""
            (GoStrings.SplitByte (List.last (GoStrings.SplitByte ref "/") "") ":"))
         "@") in
  hasByte "/" name = false /\ hasByte ":" name = false
  /\ hasByte "@" name = false.
Proof.
  intros name. subst name.
  set (n0 := List.last (GoStrings.SplitByte ref "/") "").
  assert (H0 : hasByte "/" n0 = false).
  { apply (last_keeps (fun p => hasByte "/" p = false));
      [apply SplitByte_no_sep|reflexivity]. }
  set (n1 := CatalogNew.headOr "" (GoStrings.SplitByte n0 ":")).
  assert (H1 : hasByte "/" n1 = false /\ hasByte ":" n1 = false).
  { split.
    - apply (headOr_keeps (fun p => hasByte "/" p = false));
        [now apply pieces_keep_absent|reflexivity].
    - apply (headOr_keeps (fun p => hasByte ":" p = false));
        [apply SplitByte_no_sep|reflexivity]. }
  destruct H1 as [H1 H1'].
  repeat split.
  - apply (headOr_keeps (fun p => hasByte "/" p = false));
      [now apply pieces_keep_absent|reflexivity].
  - apply (headOr_keeps (fun p => hasByte ":" p = false));
      [now apply pieces_keep_absent|reflexivity].
  - apply (headOr_keeps (fun p => hasByte "@" p = false));
      [apply SplitByte_no_sep|reflexivity].
Qed.

(** X23: the names that [extractCatalogName] and
    [extractOperatorNameFromBundle] derive from an image reference are
    bare: they hold no [/], no [:] and no [@]. A bundle reference with no
    [/] after its protocol prefix gives the empty name, and [fromImage]
    then adds no record for it. *)
Theorem derived_names_are_bare (ref : string) :
  (hasByte "/" (CatalogNew.extractCatalogName ref) = false
   /\ hasByte ":" (CatalogNew.extractCatalogName ref) = false
   /\ hasByte "@" (CatalogNew.extractCatalogName ref) = false)
  /\ (hasByte "/" (CatalogNew.extractOperatorNameFromBundle ref) = false
      /\ hasByte ":" (CatalogNew.extractOperatorNameFromBundle ref) = false
      /\ hasByte "@" (CatalogNew.extractOperatorNameFromBundle ref) = false)
  /\ (hasByte "/"
        (GoStrings.TrimPrefix (GoStrings.TrimPrefix ref "docker://") "oci://")
      = false ->
      CatalogNew.extractOperatorNameFromBundle ref = ""
      /\ forall operatorMap,
           CatalogNew.fromImage operatorMap
             {| CatalogNew.Origin := ref;
                CatalogNew.Type_ := CatalogNew.TypeOperatorBundle |}
           = operatorMap).
Proof.
  split; [|split].
  - unfold CatalogNew.extractCatalogName. cbv zeta.
    destruct (0 <? length _)%nat; [apply bare_name|].
    repeat split; reflexivity.
  - unfold CatalogNew.extractOperatorNameFromBundle. cbv zeta.
    destruct (2 <=? length _)%nat; [|repeat split; reflexivity].
    match goal with
    | |- context [GoStrings.HasSuffix ?name "-bundle"] =>
        destruct (bare_name
                    (GoStrings.TrimPrefix (GoStrings.TrimPrefix ref "docker://")
                       "oci://")) as (Hs & Hc & Ha);
        destruct (GoStrings.HasSuffix name "-bundle") eqn:E
    end.
    + unfold GoStrings.TrimSuffix. rewrite E.
      repeat split; now apply substring_keeps_absent.
    + repeat split; assumption.
  - intros Hflat.
    assert (Hempty : CatalogNew.extractOperatorNameFromBundle ref = "").
    { unfold CatalogNew.extractOperatorNameFromBundle. cbv zeta.
      now rewrite (SplitByte_no_sep_single _ _ Hflat). }
    split; [exact Hempty|]. intros operatorMap.
    unfold CatalogNew.fromImage. cbn [CatalogNew.Type_ CatalogNew.Origin].
    now rewrite Hempty.
Qed.

(* ===================================================================== *)
(** ** Suggestions for a name that resolves to nothing *)
(* ===================================================================== *)

Lemma collectSimilar_spec (keyword : string) (operators : list Save.OperatorInfo) :
  forall suggestions : list string,
    Save.collectSimilar keyword operators suggestions
    = suggestions
      ++ firstn (5 - length suggestions)
           (List.map Save.Name
              (List.filter
                 (fun op => GoStrings.Contains (GoStrings.ToLower (Save.Name op))
                              keyword)
                 operators)).
Proof.
  induction operators as [|op rest IH]; intros suggestions.
  - cbn [Save.collectSimilar List.filter List.map]. rewrite firstn_nil.
    now rewrite app_nil_r.
  - cbn [Save.collectSimilar List.filter]. cbv zeta. rewrite IH.
    destruct (GoStrings.Contains (GoStrings.ToLower (Save.Name op)) keyword);
      [|reflexivity].
    cbn [andb List.map].
    destruct (length suggestions <? 5)%nat eqn:E.
    + apply Nat.ltb_lt in E. rewrite length_app. cbn [length].
      replace (5 - length suggestions)%nat
        with (S (5 - (length suggestions + 1)))%nat by lia.
      cbn [firstn]. now rewrite <- app_assoc.
    + apply Nat.ltb_ge in E.
      replace (5 - length suggestions)%nat with 0%nat by lia.
      reflexivity.
Qed.

Lemma scanKeywords_first (target : string) (before after : list string)
    (keyword : string) (operators : list Save.OperatorInfo) :
  Forall (fun k => GoStrings.Contains target k = false) before ->
  GoStrings.Contains target keyword = true ->
  Save.scanKeywords target (before ++ keyword :: after) operators
  = Save.collectSimilar keyword operators [].
Proof.
  intros Hbefore Hk. induction Hbefore as [|k rest Hno _ IH].
  - cbn. now rewrite Hk.
  - cbn. now rewrite Hno.
Qed.

Lemma scanKeywords_none (target : string) (kws : list string)
    (operators : list Save.OperatorInfo) :
  Forall (fun k => GoStrings.Contains target k = false) kws ->
  Save.scanKeywords target kws operators = [].
Proof.
  induction 1 as [|k rest Hno _ IH]; [reflexivity|].
  cbn. now rewrite Hno.
Qed.

(** X24: [findSimilarOperators] suggests at most five names. On ASCII
    text (the target and the record names) only one keyword is used: the
    first of the keyword list that the lower-cased target contains. The
    suggestions are then the names of the first five records whose
    lower-cased name contains that keyword, in record order; later
    keywords are not tried, even when this one matches no record. A
    target that contains no keyword gets no suggestion. *)
Theorem suggestions_follow_one_keyword (target : string)
    (operators : list Save.OperatorInfo) :
  (length (Save.findSimilarOperators target operators) <= 5)%nat
  /\ (isASCII target = true ->
      Forall (fun op => isASCII (Save.Name op) = true) operators ->
      (forall before keyword after,
         Save.keywords = before ++ keyword :: after ->
         Forall (fun k => GoStrings.Contains (GoStrings.ToLower target) k = false)
           before ->
         GoStrings.Contains (GoStrings.ToLower target) keyword = true ->
         Save.findSimilarOperators target operators
         = firstn 5
             (List.map Save.Name
                (List.filter
                   (fun op => GoStrings.Contains
                                (GoStrings.ToLower (Save.Name op)) keyword)
                   operators)))
      /\ (Forall (fun k => GoStrings.Contains (GoStrings.ToLower target) k = false)
            Save.keywords ->
          Save.findSimilarOperators target operators = [])).
Proof.
  assert (Hfirst : forall before keyword after,
    Save.keywords = before ++ keyword :: after ->
    Forall (fun k => GoStrings.Contains (GoStrings.ToLower target) k = false)
      before ->
    GoStrings.Contains (GoStrings.ToLower target) keyword = true ->
    Save.findSimilarOperators target operators
    = firstn 5
        (List.map Save.Name
           (List.filter
              (fun op => GoStrings.Contains
                           (GoStrings.ToLower (Save.Name op)) keyword)
              operators))).
  { intros before keyword after Hk Hbefore Hin.
    unfold Save.findSimilarOperators. rewrite Hk.
    rewrite (scanKeywords_first _ before after keyword operators Hbefore Hin).
    now rewrite collectSimilar_spec. }
  assert (Hnone :
    Forall (fun k => GoStrings.Contains (GoStrings.ToLower target) k = false)
      Save.keywords ->
    Save.findSimilarOperators target operators = []).
  { intros H. unfold Save.findSimilarOperators. now apply scanKeywords_none. }
  split; [|intros _ _; split; assumption].
  assert (Hcases :
    Forall (fun k => GoStrings.Contains (GoStrings.ToLower target) k = false)
      Save.keywords
    \/ exists before keyword after,
         Save.keywords = before ++ keyword :: after
         /\ Forall (fun k => GoStrings.Contains (GoStrings.ToLower target) k
                             = false) before
         /\ GoStrings.Contains (GoStrings.ToLower target) keyword = true).
  { generalize Save.keywords. intros kws.
    induction kws as [|k rest IH]; [left; constructor|].
    destruct (GoStrings.Contains (GoStrings.ToLower target) k) eqn:E.
    - right. exists [], k, rest. repeat split; [constructor|exact E].
    - destruct IH as [Hall|(before & keyword & after & -> & Hb & Hk)].
      + left. now constructor.
      + right. exists (k :: before), keyword, after.
        repeat split; [now constructor|exact Hk]. }
  destruct Hcases as [Hall|(before & keyword & after & Hk & Hb & Hin)].
  - rewrite (Hnone Hall). cbn. lia.
  - rewrite (Hfirst before keyword after Hk Hb Hin).
    rewrite length_firstn. lia.
Qed.

(* ===================================================================== *)
(** ** [getOperatorDefaultChannel]: the record file and the last tier *)
(* ===================================================================== *)

(** X25: [operators.json] is generated only when [os.Stat] says it does
    not exist. A file that is there but cannot be decoded, or a directory
    in its place, makes [getOperatorDefaultChannel] fail without an
    attempt to generate it anew and without touching anything. When it is
    missing and generating it fails, that failure is the result and no
    name is resolved. When its path cannot be walked, because a regular
    file stands where one of its directories should be, nothing is
    generated either: the call fails on reading the file. *)
Theorem record_file_is_generated_only_when_missing (env : Save.Env)
    (s : Save.Saver) (operatorName : string) (w : World) :
  let operatorsJsonPath :=
    JoinPath [Save.ClusterDir s; Save.operatorsJsonFilename] in
  (forall text t e,
     fs w !! operatorsJsonPath = Some (File text t) ->
     Save.json_Unmarshal text = Err e ->
     Save.getOperatorDefaultChannel s operatorName w
     = (Err (Errorf "解析 operators.json 失败" e), w))
  /\ (forall t,
        fs w !! operatorsJsonPath = Some (Dir t) ->
        Save.getOperatorDefaultChannel s operatorName w
        = (Err (Errorf "读取 operators.json 失败"
                  (PathError "read" operatorsJsonPath EISDIR)), w))
  /\ (forall e w1,
        fs w !! operatorsJsonPath = None ->
        blocked (fs w) operatorsJsonPath = false ->
        Save.generateOperatorsCache s w = (Err e, w1) ->
        Save.getOperatorDefaultChannel s operatorName w
        = (Err (Errorf "生成 operators 缓存失败" e), w1))
  /\ (fs w !! operatorsJsonPath = None ->
      blocked (fs w) operatorsJsonPath = true ->
      exists e,
        Save.getOperatorDefaultChannel s operatorName w
        = (Err (Errorf "读取 operators.json 失败" e), w)).
Proof.
  intros operatorsJsonPath. unfold Save.getOperatorDefaultChannel.
  cbv zeta. fold operatorsJsonPath. split; [|split; [|split]].
  - intros text t e Hfile Hjson.
    unfold bind, try, wrap, lift, Stat, ReadFile, ret.
    rewrite Hfile. rewrite Hfile. now rewrite Hjson.
  - intros t Hdir. unfold bind, try, wrap, lift, Stat, ReadFile, ret.
    rewrite Hdir. now rewrite Hdir.
  - intros e w1 Hnone Hwalk Hgen. apply bind_err.
    unfold try, Stat. rewrite Hnone, Hwalk. cbn [IsNotExist].
    now apply wrap_err.
  - intros Hnone Hwalk. eexists.
    erewrite bind_ok.
    2:{ unfold try, Stat. rewrite Hnone, Hwalk. cbn [IsNotExist]. reflexivity. }
    apply bind_err, wrap_err. unfold ReadFile. now rewrite Hnone.
Qed.

Lemma hit_looseHit (key : string) (op : Save.OperatorInfo) :
  hit key op -> looseHit key op.
Proof.
  intros [H|H]; [left|right]; exists "", ""; rewrite append_nil_r;
    now rewrite H.
Qed.

(** X26: a name that no record contains and that no alias resolves is
    refused, and the error tells what [findSimilarOperators] suggests:
    the suggested names joined by commas, or the plain not-found message
    when there is nothing to suggest. *)
Theorem not_found_error_lists_suggestions (env : Save.Env) (s : Save.Saver)
    (w : World) (text : string) (t : Z) (cache : Save.OperatorsCache)
    (key : string) :
  fs w !! JoinPath [Save.ClusterDir s; Save.operatorsJsonFilename]
  = Some (File text t) ->
  Save.json_Unmarshal text = Ok cache ->
  (forall alias, Save.aliasMap !! key = Some alias ->
                 noHit alias (Save.Operators cache)) ->
  Forall (fun op => ~ looseHit key op) (Save.Operators cache) ->
  Save.getOperatorDefaultChannel s key w
  = (Err (ErrorsNew
            match Save.findSimilarOperators key (Save.Operators cache) with
            | [] => "未找到 operator: " +:+ key
            | suggestions =>
                "未找到 operator '" +:+ key +:+ "'，您是否想要: "
                +:+ GoStrings.Join suggestions ", "
            end), w).
Proof.
  intros Hfile Hjson Halias Hloose.
  rewrite (getOperatorDefaultChannel_cached env s key w text t cache Hfile Hjson).
  f_equal. unfold Save.resolve.
  assert (Hno : noHit key (Save.Operators cache)).
  { eapply Forall_impl; [exact Hloose|].
    intros op Hn Hhit. apply Hn. now apply hit_looseHit. }
  assert (Hcands : candidatesOf key (Save.Operators cache) []).
  { induction Hloose as [|op ops Hop _ IH]; [constructor|].
    apply cand_skip; [exact Hop|]. apply IH.
    - intros alias Ha. specialize (Halias alias Ha). now inversion Halias.
    - now inversion Hno. }
  rewrite (firstMatch_noHit _ _ Hno).
  assert (E : Save.collectCandidates key (Save.Operators cache) [] = [])
    by now rewrite (collectCandidates_spec _ _ _ [] Hcands).
  destruct (Save.aliasMap !! key) as [alias|] eqn:Ha;
    [rewrite (firstMatch_noHit _ _ (Halias alias eq_refl))|];
    rewrite E;
    destruct (Save.findSimilarOperators key (Save.Operators cache));
    reflexivity.
Qed.

Lemma not_found_error_lists_suggestions_witness :
  Save.getOperatorDefaultChannel (env := demoSaveEnv) demoSaver "my-logging"
    savedWorld
  = (Err (ErrorsNew
            ("未找到 operator 'my-logging'，您是否想要: "
             +:+ "cluster-logging-operator, logging-view-plugin")),
     savedWorld).
Proof.
  refine (not_found_error_lists_suggestions demoSaveEnv demoSaver savedWorld
            operatorsText 0 operatorsCache "my-logging" _ _ _ _).
  - vm_compute. reflexivity.
  - vm_compute. reflexivity.
  - intros alias Ha. vm_compute in Ha. discriminate Ha.
  - repeat (apply Forall_cons; split;
            [let H := fresh in
             intros H; apply contains_looseHit in H; vm_compute in H;
             discriminate H|]).
    apply Forall_nil_2.
Defined.

(* ===================================================================== *)
(** ** Writing [operators.json] ([saveOperatorsToClusterDir]) *)
(* ===================================================================== *)

Lemma saveOperatorsToClusterDir_discipline (env : Save.Env)
    (operators : list Save.OperatorInfo) (filePath catalogImage : string)
    (w w1 : World) :
  MkdirAll (DirOf filePath) w = (Ok tt, w1) ->
  Save.saveOperatorsToClusterDir operators filePath catalogImage w
  = tempThenRename filePath
      (Save.json_Marshal
         {| Save.UpdatedAt := now w;
            Save.Catalog := catalogImage;
            Save.Count := Z.of_nat (length operators);
            Save.Operators := operators |})
      "创建临时文件失败" "编码 JSON 失败" "重命名文件失败" w1.
Proof.
  intros Hmk. unfold Save.saveOperatorsToClusterDir.
  erewrite bind_ok by (apply wrap_ok; exact Hmk).
  rewrite (bind_ok Now _ w1 w1 (now w1) eq_refl).
  apply MkdirAll_ok in Hmk. destruct Hmk as (-> & _). reflexivity.
Qed.

(** X27: [saveOperatorsToClusterDir] stamps the records with the clock,
    the catalog image and their number, writes them to [filePath + ".tmp"]
    and renames that over [filePath]. Once the parent directory is there,
    a reader of [filePath] sees what was there before or the whole new
    text, never a part of it; on success the file holds the new text and
    no temporary file is left; on failure the file is as it was. *)
Theorem operators_json_is_renamed_into_place (env : Save.Env)
    (operators : list Save.OperatorInfo) (filePath catalogImage : string)
    (w w1 : World) :
  MkdirAll (DirOf filePath) w = (Ok tt, w1) ->
  let data :=
    {| Save.UpdatedAt := now w;
       Save.Catalog := catalogImage;
       Save.Count := Z.of_nat (length operators);
       Save.Operators := operators |} in
  let r := Save.saveOperatorsToClusterDir operators filePath catalogImage w in
  (forall s, visibleBetween w1 (snd r) s ->
             s !! filePath = fs w1 !! filePath
             \/ exists text, Save.json_Marshal data = Ok text
                             /\ s !! filePath = Some (File text (now w)))
  /\ (fst r = Ok tt ->
      exists text,
        Save.json_Marshal data = Ok text
        /\ fs (snd r) !! filePath = Some (File text (now w))
        /\ fs (snd r) !! (filePath +:+ ".tmp") = None)
  /\ (fst r <> Ok tt -> fs (snd r) !! filePath = fs w1 !! filePath).
Proof.
  intros Hmk data r. subst r.
  rewrite (saveOperatorsToClusterDir_discipline env operators filePath
             catalogImage w w1 Hmk). fold data.
  destruct (tempThenRename_atomic filePath (Save.json_Marshal data)
              "创建临时文件失败" "编码 JSON 失败" "重命名文件失败" w1)
    as (_ & _ & Hvis & Hok & Hfail & _).
  apply MkdirAll_ok in Hmk. destruct Hmk as (Hnow & _).
  rewrite Hnow in Hvis, Hok.
  split; [exact Hvis|]. split; [|exact Hfail].
  intros Hrun. destruct (Hok Hrun)
    as (text & s1 & s2 & Ht & _ & _ & _ & _ & _ & Htmp & Hfin).
  exists text. repeat split; assumption.
Qed.

(** Replacing the record file of the demo cluster. *)
Lemma operators_json_is_renamed_into_place_witness :
  let r := Save.saveOperatorsToClusterDir (env := demoSaveEnv) [opLoki]
             "/work/my-cluster/operators.json" "quay.io/demo/index:v1"
             savedWorld in
  fst r = Ok tt
  /\ forall s, visibleBetween savedWorld (snd r) s ->
       s !! "/work/my-cluster/operators.json"
       = Some (File operatorsText 0)
       \/ exists text,
            s !! "/work/my-cluster/operators.json" = Some (File text 1000).
Proof.
  intros r.
  destruct (operators_json_is_renamed_into_place demoSaveEnv [opLoki]
              "/work/my-cluster/operators.json" "quay.io/demo/index:v1"
              savedWorld savedWorld) as (Hvis & _ & _).
  - vm_compute. reflexivity.
  - split.
    + subst r. vm_compute. reflexivity.
    + intros s Hs. destruct (Hvis s Hs) as [Hold|(text & _ & Hnew)].
      * left. rewrite Hold. vm_compute. reflexivity.
      * right. exists text. exact Hnew.
Defined.

(* ===================================================================== *)
(** ** The version of the catalog index ([extractMajorMinorVersion]) *)
(* ===================================================================== *)

Lemma substring_all (s : string) : String.substring 0 (String.length s) s = s.
Proof. induction s as [|c s IH]; [reflexivity|]. cbn. now rewrite IH. Qed.

Lemma TrimPrefix_v (s : string) : GoStrings.TrimPrefix (String "v" s) "v" = s.
Proof.
  unfold GoStrings.TrimPrefix, GoStrings.HasPrefix. cbn [String.prefix].
  destruct (ascii_dec "v" "v") as [_|Hne]; [|congruence].
  cbn [String.length String.substring Nat.sub]. rewrite Nat.sub_0_r.
  destruct s; cbn [String.prefix]; apply substring_all.
Qed.

Lemma TrimPrefix_absent (s prefix : string) :
  GoStrings.HasPrefix s prefix = false -> GoStrings.TrimPrefix s prefix = s.
Proof. intros H. unfold GoStrings.TrimPrefix. now rewrite H. Qed.

Lemma HasPrefix_v_app (major rest : string) :
  GoStrings.HasPrefix major "v" = false ->
  GoStrings.HasPrefix (major +:+ String "." rest) "v" = false.
Proof.
  unfold GoStrings.HasPrefix. destruct major as [|c major]; intros H.
  - cbn. destruct (ascii_dec "v" "."); [discriminate|reflexivity].
  - rewrite append_cons. cbn [String.prefix] in *.
    destruct (ascii_dec "v" c); [|reflexivity].
    destruct major; discriminate H.
Qed.

(** X28: [extractMajorMinorVersion] keeps the first two dot-separated
    fields of a version and drops the rest, with or without a leading
    [v]: [major.minor.rest], [major.minor] and [vmajor.minor.rest] all
    give [major.minor]. A version with no dot is returned as it is, less
    one leading [v]. *)
Theorem version_keeps_major_and_minor (major minor : string) :
  hasByte "." major = false ->
  hasByte "." minor = false ->
  GoStrings.HasPrefix major "v" = false ->
  (forall rest,
     CatalogCmd.extractMajorMinorVersion
       (major +:+ "." +:+ minor +:+ "." +:+ rest)
     = major +:+ "." +:+ minor)
  /\ CatalogCmd.extractMajorMinorVersion (major +:+ "." +:+ minor)
     = major +:+ "." +:+ minor
  /\ (forall rest,
        CatalogCmd.extractMajorMinorVersion
          ("v" +:+ major +:+ "." +:+ minor +:+ "." +:+ rest)
        = major +:+ "." +:+ minor)
  /\ CatalogCmd.extractMajorMinorVersion major
     = major
  /\ CatalogCmd.extractMajorMinorVersion ("v" +:+ major) = major.
Proof.
  intros Hmajor Hminor Hv.
  assert (Hlong : forall rest,
    GoStrings.SplitByte (major +:+ "." +:+ minor +:+ "." +:+ rest) "."
    = major :: minor :: GoStrings.SplitByte rest ".").
  { intros rest.
    change (major +:+ "." +:+ minor +:+ "." +:+ rest)
      with (major +:+ String "." (minor +:+ String "." rest)).
    rewrite (SplitByte_app_no_sep _ _ _ Hmajor).
    now rewrite (SplitByte_app_no_sep _ _ _ Hminor). }
  assert (Hshort :
    GoStrings.SplitByte (major +:+ "." +:+ minor) "." = [major; minor]).
  { change (major +:+ "." +:+ minor) with (major +:+ String "." minor).
    rewrite (SplitByte_app_no_sep _ _ _ Hmajor).
    now rewrite (SplitByte_no_sep_single _ _ Hminor). }
  unfold CatalogCmd.extractMajorMinorVersion. cbv zeta.
  split; [|split; [|split; [|split]]].
  - intros rest. rewrite TrimPrefix_absent.
    + rewrite Hlong. reflexivity.
    + change (major +:+ "." +:+ minor +:+ "." +:+ rest)
        with (major +:+ String "." (minor +:+ String "." rest)).
      now apply HasPrefix_v_app.
  - rewrite TrimPrefix_absent.
    + rewrite Hshort. reflexivity.
    + change (major +:+ "." +:+ minor) with (major +:+ String "." minor).
      now apply HasPrefix_v_app.
  - intros rest.
    change ("v" +:+ major +:+ "." +:+ minor +:+ "." +:+ rest)
      with (String "v" (major +:+ "." +:+ minor +:+ "." +:+ rest)).
    rewrite TrimPrefix_v, Hlong. reflexivity.
  - rewrite (TrimPrefix_absent _ _ Hv).
    now rewrite (SplitByte_no_sep_single _ _ Hmajor).
  - change ("v" +:+ major) with (String "v" major).
    rewrite TrimPrefix_v. now rewrite (SplitByte_no_sep_single _ _ Hmajor).
Qed.

Lemma version_keeps_major_and_minor_witness :
  CatalogCmd.extractMajorMinorVersion "4.14.0" = "4.14"
  /\ CatalogCmd.extractMajorMinorVersion "v4.16.1" = "4.16"
  /\ CatalogCmd.extractMajorMinorVersion "v4" = "4".
Proof.
  destruct (version_keeps_major_and_minor "4" "14" eq_refl eq_refl eq_refl)
    as (H1 & _).
  destruct (version_keeps_major_and_minor "4" "16" eq_refl eq_refl eq_refl)
    as (_ & _ & H3 & _ & H5).
  split; [exact (H1 "0")|]. split; [exact (H3 "1")|exact H5].
Defined.

(* ===================================================================== *)
(** ** Saving the images: the archive check and the package list *)
(* ===================================================================== *)

Lemma substring_skip (p x : string) :
  String.substring (String.length p) (String.length x) (p +:+ x) = x.
Proof.
  induction p as [|c p IH]; [apply substring_all|].
  rewrite append_cons. cbn [String.length String.substring]. exact IH.
Qed.

Lemma TrimPrefix_app (p x : string) : GoStrings.TrimPrefix (p +:+ x) p = x.
Proof.
  unfold GoStrings.TrimPrefix, GoStrings.HasPrefix.
  assert (Hp : String.prefix p (p +:+ x) = true)
    by (apply prefix_app; now exists x).
  rewrite Hp, length_append.
  replace (String.length p + String.length x - String.length p)%nat
    with (String.length x) by lia.
  apply substring_skip.
Qed.

(** A file or directory directly below [dir] is among the entries that
    [ReadDir] lists. *)
Lemma ReadDir_lists (dir name : string) (n : node) (t0 : Z) (w : World) :
  fs w !! dir = Some (Dir t0) ->
  fs w !! (dir +:+ "/" +:+ name) = Some n ->
  name <> "" ->
  GoStrings.Contains name "/" = false ->
  exists files,
    ReadDir dir w = (Ok files, w)
    /\ In {| EntryName := name; EntryIsDir := IsDir (infoOf n) |} files.
Proof.
  intros Hdir Hfile Hname Hflat. unfold ReadDir. rewrite Hdir.
  eexists. split; [reflexivity|].
  apply list_elem_of_In. rewrite merge_sort_Permutation.
  apply list_elem_of_omap. exists (dir +:+ "/" +:+ name, n). split.
  - now apply elem_of_map_to_list.
  - unfold childOf. cbn [fst snd]. cbv zeta.
    rewrite <- append_assoc.
    assert (Hp : GoStrings.HasPrefix ((dir +:+ "/") +:+ name) (dir +:+ "/") = true)
      by (apply prefix_app; now exists name).
    rewrite Hp, TrimPrefix_app, Hflat.
    destruct name; [contradiction|reflexivity].
Qed.

Lemma archiveLoop_finds (files : list DirEntry) (file : DirEntry) :
  In file files ->
  EntryIsDir file = false ->
  GoStrings.HasPrefix (EntryName file) "mirror_seq" = true ->
  GoStrings.HasSuffix (EntryName file) ".tar" = true ->
  SaveMirror.archiveLoop files = true.
Proof.
  intros Hin Hd Hp Hs. induction files as [|f rest IH]; [destruct Hin|].
  cbn [SaveMirror.archiveLoop]. destruct Hin as [->|Hin].
  - now rewrite Hd, Hp, Hs.
  - destruct (negb _ && _ && _); [reflexivity|now apply IH].
Qed.

(** X29: a regular file named [mirror_seq...tar] directly in the images
    directory makes [SaveImages] return at once: no configuration is
    generated, the mirror engine is not called, and nothing changes. *)
Theorem existing_archive_skips_mirroring (env : SaveMirror.Env)
    (s : Save.Saver) (w : World) (name content : string) (t t0 : Z) :
  let imagesDir := JoinPath [Save.ClusterDir s; SaveMirror.imagesDirName] in
  fs w !! imagesDir = Some (Dir t0) ->
  fs w !! (imagesDir +:+ "/" +:+ name) = Some (File content t) ->
  GoStrings.HasPrefix name "mirror_seq" = true ->
  GoStrings.HasSuffix name ".tar" = true ->
  GoStrings.Contains name "/" = false ->
  SaveMirror.SaveImages s w = (Ok tt, w).
Proof.
  intros imagesDir Hdir Hfile Hp Hs Hflat.
  assert (Hname : name <> "") by (intros ->; discriminate Hp).
  destruct (ReadDir_lists imagesDir name (File content t) t0 w
              Hdir Hfile Hname Hflat) as (files & Hread & Hin).
  unfold SaveMirror.SaveImages. cbv zeta. fold imagesDir.
  assert (Hmk : MkdirAll imagesDir w = (Ok tt, w))
    by (unfold MkdirAll; now rewrite Hdir).
  erewrite bind_ok by (apply wrap_ok; exact Hmk).
  assert (Hcheck : SaveMirror.checkExistingMirrorFiles imagesDir w = (Ok true, w)).
  { unfold SaveMirror.checkExistingMirrorFiles, try. rewrite Hread.
    unfold ret. f_equal. f_equal.
    now apply (archiveLoop_finds files _ Hin). }
  erewrite bind_ok by exact Hcheck. reflexivity.
Qed.

Lemma existing_archive_skips_mirroring_witness :
  SaveMirror.SaveImages (env := demoMirrorEnv) demoSaver archivedWorld
  = (Ok tt, archivedWorld).
Proof.
  apply (existing_archive_skips_mirroring demoMirrorEnv demoSaver archivedWorld
           "mirror_seq1_000000.tar" "tar" 0 0).
  - vm_compute. reflexivity.
  - vm_compute. reflexivity.
  - reflexivity.
  - reflexivity.
  - reflexivity.
Defined.

(** X30: the operator list of the image set keeps every configured
    operator, in order and under the name it was configured with. With
    [operators.json] in place, the entry of an operator carries the
    default channel of the record its name resolves to; an operator whose
    name resolves to nothing is kept with no channel, and the loop neither
    fails nor changes anything. *)
Theorem packages_keep_configured_names (env : SaveMirror.Env)
    (s : Save.Saver) (w : World) (text : string) (t : Z)
    (cache : Save.OperatorsCache) (ops : list string)
    (operatorPackages : list SaveMirror.OperatorPackage) :
  fs w !! JoinPath [Save.ClusterDir s; Save.operatorsJsonFilename]
  = Some (File text t) ->
  Save.json_Unmarshal (Env := SaveMirror.saveEnv) text = Ok cache ->
  SaveMirror.packagesLoop s ops operatorPackages w
  = (Ok (operatorPackages ++ List.map (packageOf (Save.Operators cache)) ops), w).
Proof.
  intros Hfile Hjson. revert operatorPackages.
  induction ops as [|opName rest IH]; intros operatorPackages.
  - cbn. now rewrite app_nil_r.
  - cbn [SaveMirror.packagesLoop List.map]. unfold try.
    rewrite (getOperatorDefaultChannel_cached _ s opName w text t cache
               Hfile Hjson).
    unfold packageOf at 1.
    destruct (Save.resolve opName (Save.Operators cache)) as [opInfo|e|p] eqn:E.
    + rewrite IH, <- app_assoc. reflexivity.
    + rewrite IH, <- app_assoc. reflexivity.
    + exfalso. unfold Save.resolve in E.
      repeat match type of E with
             | match ?x with _ => _ end = _ => destruct x
             | (if ?x then _ else _) = _ => destruct x
             end; discriminate E.
Qed.

(** The operators of the demo configuration: [cluster-logging] goes
    through the alias table, [local-storage-operator] is found by name. *)
Lemma packages_keep_configured_names_witness :
  SaveMirror.packagesLoop (env := demoMirrorEnv) demoSaver
    ["cluster-logging"; "local-storage-operator"; "no-such-thing"] []
    savedWorld
  = (Ok [ {| SaveMirror.Name := "cluster-logging";
             SaveMirror.Channel := "stable-6.0" |};
          {| SaveMirror.Name := "local-storage-operator";
             SaveMirror.Channel := "stable" |};
          {| SaveMirror.Name := "no-such-thing"; SaveMirror.Channel := "" |} ],
     savedWorld).
Proof.
  refine (packages_keep_configured_names demoMirrorEnv demoSaver savedWorld
            operatorsText 0 operatorsCache
            ["cluster-logging"; "local-storage-operator"; "no-such-thing"] []
            _ _).
  - vm_compute. reflexivity.
  - vm_compute. reflexivity.
Defined.

(* ===================================================================== *)
(** ** The properties at work on the demo cluster *)
(* ===================================================================== *)

Lemma trust_bundle_fallback_witness :
  Iso.getAdditionalTrustBundle (demoGenerator demoConfig)
    certWorld = (Ok "PEM", certWorld).
Proof.
  destruct (trust_bundle_fallback (demoGenerator demoConfig)
              certWorld) as (Hpure & _ & Hsecond & _).
  destruct (Iso.getAdditionalTrustBundle
              (demoGenerator demoConfig) certWorld) as [r w'].
  cbn [fst snd] in *. subst w'. f_equal.
  apply (Hsecond "PEM" 0).
  - intros c t H. vm_compute in H. discriminate H.
  - vm_compute. reflexivity.
Defined.

Lemma mirror_workspace_fallback_witness :
  Iso.findOcMirrorWorkspace (demoGenerator demoConfig)
    mirroredWorld
  = (Ok "/work/my-cluster/oc-mirror-workspace", mirroredWorld).
Proof.
  destruct (mirror_workspace_fallback (demoGenerator demoConfig)
              mirroredWorld) as (Hfirst & _).
  apply (Hfirst (Dir 0)). vm_compute. reflexivity.
Defined.

Lemma installer_binary_fallback_witness :
  Iso.findOpenshiftInstall (demoGenerator demoConfig)
    mirroredWorld
  = (Ok "/work/my-cluster/downloads/bin/openshift-install", mirroredWorld).
Proof.
  destruct (installer_binary_fallback (demoGenerator demoConfig)
              mirroredWorld) as (_ & Hsecond & _).
  apply (Hsecond (File "elf" 0)); vm_compute; reflexivity.
Defined.

(** The mirrored cluster passes; an empty file system lacks the
    installer; with a regular file in the place of the download directory
    the installer cannot be looked up, and validation passes. *)
Lemma validation_checks_in_order_witness :
  fst (Iso.ValidateConfig (env := demoIsoEnv) (demoGenerator demoConfig)
         mirroredWorld) = Ok tt
  /\ fst (Iso.ValidateConfig (env := demoIsoEnv) (demoGenerator demoConfig)
            emptyWorld)
     = Err (ErrorsNew ("缺少必需的工具: " +:+ Iso.openshiftInstallCmd
                       +:+ "，请先运行 'ocpack download' 命令"))
  /\ fs strayFileWorld !! "/work/my-cluster/downloads/bin/openshift-install"
     = None
  /\ fst (Iso.ValidateConfig (env := demoIsoEnv) (demoGenerator demoConfig)
            strayFileWorld) = Ok tt.
Proof.
  destruct (validation_checks_in_order demoIsoEnv (demoGenerator demoConfig)
              mirroredWorld) as (_ & _ & _ & _ & Hpass).
  destruct (validation_checks_in_order demoIsoEnv (demoGenerator demoConfig)
              emptyWorld) as (_ & _ & Htool & _).
  destruct (validation_checks_in_order demoIsoEnv (demoGenerator demoConfig)
              strayFileWorld) as (_ & _ & _ & _ & Hstray).
  split; [|split; [|split]].
  - apply Hpass; [reflexivity| |]; intros [H _]; vm_compute in H;
      discriminate H.
  - apply Htool; [reflexivity|]. split; vm_compute; reflexivity.
  - vm_compute. reflexivity.
  - apply Hstray; [reflexivity| |].
    + intros [_ H]. vm_compute in H. discriminate H.
    + intros [H _]. vm_compute in H. discriminate H.
Defined.

Lemma installation_dirs_created_witness :
  fst (Iso.createInstallationDirs
         "/work/my-cluster/installation" mirroredWorld) = Ok tt
  /\ exists t,
       fs (snd (Iso.createInstallationDirs
                  "/work/my-cluster/installation" mirroredWorld))
         !! "/work/my-cluster/installation/ignition" = Some (Dir t).
Proof.
  destruct (installation_dirs_created
              "/work/my-cluster/installation" mirroredWorld) as (Hiff & Hok).
  { exists 0. vm_compute. reflexivity. }
  assert (Hrun : fst (Iso.createInstallationDirs
                        "/work/my-cluster/installation" mirroredWorld) = Ok tt).
  { apply Hiff. intros d c t [<-|[<-|[<-|[]]]] H; vm_compute in H;
      discriminate H. }
  split; [exact Hrun|].
  destruct (Hok Hrun) as (Hdirs & _).
  apply (Hdirs "/work/my-cluster/installation/ignition").
  right. left. reflexivity.
Defined.

(** Nothing has been rendered on the mirrored cluster, so staging fails;
    the temporary directory is gone all the same. *)
Lemma temp_dir_is_always_removed_witness :
  fs (snd (Iso.generateISOFiles (env := demoIsoEnv) (demoGenerator demoConfig)
             "/work/my-cluster/installation" "/work/my-cluster/out.iso"
             mirroredWorld))
    !! "/work/my-cluster/installation/temp" = None.
Proof.
  destruct (temp_dir_is_always_removed demoIsoEnv (demoGenerator demoConfig)
              "/work/my-cluster/installation" "/work/my-cluster/out.iso"
              mirroredWorld) as (_ & _ & Hclean).
  apply (Hclean "/work/my-cluster/downloads/bin/openshift-install").
  - vm_compute. reflexivity.
  - intros c t H. vm_compute in H. discriminate H.
  - vm_compute. reflexivity.
Defined.

(** Rendering onto the cluster directory itself. *)
Lemma template_failures_leave_no_output_witness :
  Iso.executeTemplate (env := demoIsoEnv) "templates/agent-config.yaml"
    "/work/my-cluster" (Iso.AgentData demoAgentData) None mirroredWorld
  = (Err (Errorf "创建文件 /work/my-cluster 失败"
            (PathError "open" "/work/my-cluster" EISDIR)), mirroredWorld).
Proof.
  destruct (template_failures_leave_no_output demoIsoEnv
              "templates/agent-config.yaml" "/work/my-cluster"
              (Iso.AgentData demoAgentData) None mirroredWorld)
    as (_ & _ & Hdir).
  apply (Hdir ("# templates/agent-config.yaml" +:+ Iso.nl)
              ("# templates/agent-config.yaml" +:+ Iso.nl) 0);
    [reflexivity | reflexivity | vm_compute; reflexivity].
Defined.

Lemma merged_file_decides_pull_secret_witness :
  Iso.getPullSecret (env := demoIsoEnv) (demoGenerator demoConfig) mergedWorld
  = (Ok "merged secret", mergedWorld).
Proof.
  destruct (merged_file_decides_pull_secret demoIsoEnv
              (demoGenerator demoConfig) mergedWorld) as (Hfile & _).
  apply (Hfile ("  merged secret" +:+ Iso.nl) 0). vm_compute. reflexivity.
Defined.


(** Without a pull secret no installation configuration is written. *)
Lemma only_the_pull_secret_is_required_witness :
  Iso.generateInstallConfig (env := demoIsoEnv) (demoGenerator demoConfig)
    "/work/my-cluster/installation" emptyWorld
  = (Err (Errorf "读取原始 pull-secret 失败"
            (PathError "open" "/work/my-cluster/pull-secret.txt" ENOENT)),
     emptyWorld).
Proof.
  destruct (only_the_pull_secret_is_required demoIsoEnv
              (demoGenerator demoConfig) "/work/my-cluster/installation"
              emptyWorld) as (Hfail & _).
  apply Hfail. vm_compute. reflexivity.
Defined.

Lemma failed_copies_are_not_errors_witness :
  Iso.copyOut (env := demoIsoEnv) "/work/my-cluster/installation/temp"
    "/work/my-cluster/installation/ignition"
    ["auth"; ".openshift_install.log"; ".openshift_install_state.json"]
    mirroredWorld
  = (Ok tt, mirroredWorld).
Proof.
  destruct (failed_copies_are_not_errors demoIsoEnv
              "/work/my-cluster/installation/temp"
              "/work/my-cluster/installation/ignition"
              ["auth"; ".openshift_install.log"; ".openshift_install_state.json"]
              mirroredWorld) as (_ & Hskip).
  apply Hskip. intros file [<-|[<-|[<-|[]]]]; vm_compute; reflexivity.
Defined.


Lemma operator_lookup_is_exact_witness :
  fst (CatalogNew.GetOperatorInfo (env := demoCatalogEnv) demoManager
         "web-terminal" (cachedWorld Hour)) = Ok cachedOp
  /\ fst (CatalogNew.GetOperatorInfo (env := demoCatalogEnv) demoManager
            "Web Terminal" (cachedWorld Hour))
     = Err (ErrorsNew "未找到 Operator: Web Terminal").
Proof.
  assert (Hall : CatalogNew.GetAllOperators (env := demoCatalogEnv) demoManager
                   (cachedWorld Hour)
                 = (Ok ([] ++ cachedOp :: []),
                    snd (CatalogNew.GetAllOperators (env := demoCatalogEnv)
                           demoManager (cachedWorld Hour)))).
  { vm_compute. reflexivity. }
  split.
  - destruct (operator_lookup_is_exact demoCatalogEnv demoManager
                "web-terminal" (cachedWorld Hour)) as (_ & Hfound & _).
    rewrite (Hfound [] cachedOp [] _ Hall eq_refl (Forall_nil_2 _)).
    reflexivity.
  - destruct (operator_lookup_is_exact demoCatalogEnv demoManager
                "Web Terminal" (cachedWorld Hour)) as (_ & _ & Hnone).
    rewrite (Hnone _ _ Hall); [reflexivity|].
    apply Forall_cons. split; [discriminate|apply Forall_nil_2].
Defined.


Lemma cache_file_name_is_flat_witness :
  CatalogNew.CacheFile
    (CatalogNew.NewCatalogManagerNew "quay.io/index:v1" "/cache" "/work")
  = CatalogNew.CacheFile
      (CatalogNew.NewCatalogManagerNew "quay.io_index:v1" "/cache" "/work").
Proof.
  destruct (cache_file_name_is_flat "quay.io/index:v1" "/cache" "/work")
    as (_ & Hsame).
  apply (Hsame "quay.io" "index:v1" "/"%char). now left.
Defined.

Lemma derived_names_are_bare_witness :
  CatalogNew.extractOperatorNameFromBundle "docker://etcd-bundle:v1" = "".
Proof.
  destruct (derived_names_are_bare "docker://etcd-bundle:v1") as (_ & _ & Hflat).
  apply Hflat. reflexivity.
Defined.

(** [logging] comes before [storage] in the keyword list. *)
Lemma suggestions_follow_one_keyword_witness :
  Save.findSimilarOperators "Storage-and-Logging"
    [opLogging; opPlugin; opStorage; opLoki]
  = ["cluster-logging-operator"; "logging-view-plugin"].
Proof.
  destruct (suggestions_follow_one_keyword "Storage-and-Logging"
              [opLogging; opPlugin; opStorage; opLoki]) as (_ & Hascii).
  destruct Hascii as (Hfirst & _);
    [reflexivity | repeat constructor |].
  rewrite (Hfirst [] "logging"
             ["storage"; "monitoring"; "network"; "security"; "backup"]);
    [reflexivity | reflexivity | constructor | reflexivity].
Defined.

(** A directory in the place of the record file; and a regular file in
    the place of the cluster directory, where nothing is generated. *)
Lemma record_file_is_generated_only_when_missing_witness :
  Save.getOperatorDefaultChannel (env := demoSaveEnv) demoSaver "logging"
    misplacedRecordsWorld
  = (Err (Errorf "读取 operators.json 失败"
            (PathError "read" "/work/my-cluster/operators.json" EISDIR)),
     misplacedRecordsWorld)
  /\ exists e,
       Save.getOperatorDefaultChannel (env := demoSaveEnv) demoSaver "logging"
         noClusterDirWorld
       = (Err (Errorf "读取 operators.json 失败" e), noClusterDirWorld).
Proof.
  destruct (record_file_is_generated_only_when_missing demoSaveEnv demoSaver
              "logging" misplacedRecordsWorld) as (_ & Hdir & _).
  destruct (record_file_is_generated_only_when_missing demoSaveEnv demoSaver
              "logging" noClusterDirWorld) as (_ & _ & _ & Hwalk).
  split.
  - apply (Hdir 0). vm_compute. reflexivity.
  - apply Hwalk; vm_compute; reflexivity.
Defined.
